(** * KsanaLLM: startup configuration, attention-layer initialisation and
      the swap interface of the block manager

    The development follows the C++ sources:
    - [ksana_llm/utils/environment.cpp]    (module [Ksana]),
    - [numerous_llm/utils/environment.cpp] and
      [numerous_llm/layers/attention_layer.cpp] (module [Numerous]),
    and, for the block manager whose implementation is not among the
    sources, the written specification (module [BlockManagerSpec]). *)

From Stdlib Require Import ZArith QArith Ascii String List Lia.
From stdpp Require Import gmap strings list pretty.

Local Open Scope Z_scope.

(* ===================================================================== *)
(** ** C++ scalar types *)
(* ===================================================================== *)

Module Cxx.

(** Unsigned [bits]-bit wrap-around. *)
Definition wrap (bits z : Z) : Z := z mod 2 ^ bits.

Definition to_uint32 (z : Z) : Z := wrap 32 z.
Definition to_size_t (z : Z) : Z := wrap 64 z.

Definition INT_MIN : Z := - 2 ^ 31.
Definition INT_MAX : Z := 2 ^ 31 - 1.
Definition SIZE_MAX : Z := 2 ^ 64 - 1.

Definition is_int (z : Z) : bool := (INT_MIN <=? z) && (z <=? INT_MAX).
Definition is_size_t (z : Z) : bool := (0 <=? z) && (z <=? SIZE_MAX).

(** [static_cast<uint32_t>] and the like keep the low bits; a conversion to
    [int] of a value that fits is the identity. *)
Definition to_int (z : Z) : Z := (z + 2 ^ 31) mod 2 ^ 32 - 2 ^ 31.

(** [sizeof(half)]: a 16-bit floating-point number. *)
Definition sizeof_half : Z := 2.

(** [std::tolower] in the "C" locale, on one [unsigned char]. *)
Definition tolower (c : ascii) : ascii :=
  let n := N_of_ascii c in
  if ((65 <=? n) && (n <=? 90))%N then ascii_of_N (n + 32) else c.

(** [std::transform(s.begin(), s.end(), s.begin(), tolower)]. *)
Fixpoint transform_tolower (s : string) : string :=
  match s with
  | EmptyString => EmptyString
  | String c s' => String (tolower c) (transform_tolower s')
  end.

(** *** Integer-valued doubles

    The only [double] arithmetic in the sources is on values that are
    integers.  An integer-valued double is represented by the integer it
    denotes; [double_of_Z] is the conversion of a non-negative integer to
    binary64 (53 bits of precision, round to nearest, ties to even). *)
Definition double_of_Z (z : Z) : Z :=
  let e := Z.log2 z - 52 in
  if e <=? 0 then z
  else
    let q := Z.shiftr z e in
    let r := z - Z.shiftl q e in
    let half := Z.shiftl 1 (e - 1) in
    let q' := if (half <? r) || ((half =? r) && Z.odd q) then q + 1 else q in
    Z.shiftl q' e.

(** [std::floor] of a double that denotes an integer. *)
Definition floor_double (d : Z) : Z := d.

(** Product of two integer-valued doubles: the exact product, rounded. *)
Definition double_mul (a b : Z) : Z := double_of_Z (a * b).

(** *** Binary floating-point numbers

    A finite [float] or [double] is represented by the rational it denotes.
    [round_binary prec emin q] is the number with [prec] bits of precision
    and exponent at least [emin] that is nearest to [q], the one with an
    even last bit when two are equally near; [to_float] is binary32 and
    [to_double] is binary64.  The largest finite number is not looked at
    here: see [fits_float]. *)
Definition pow2 (e : Z) : Q :=
  if 0 <=? e then inject_Z (2 ^ e) else Qinv (inject_Z (2 ^ (- e))).

Definition Qabs (q : Q) : Q := Qmake (Z.abs (Qnum q)) (Qden q).

(** The integer nearest to [q], the even one of two. *)
Definition round_half_even (q : Q) : Z :=
  let n := Qnum q in
  let d := Z.pos (Qden q) in
  let f := n / d in
  let r := 2 * (n - f * d) in
  if r <? d then f else if d <? r then f + 1 else if Z.even f then f else f + 1.

(** The exponent of a positive rational: [2 ^ e <= a < 2 ^ (e + 1)]. *)
Definition floor_log2 (a : Q) : Z :=
  let e := Z.log2 (Qnum a) - Z.log2 (Z.pos (Qden a)) in
  if Qle_bool (pow2 e) a then e else e - 1.

Definition round_binary (prec emin : Z) (q : Q) : Q :=
  if Qeq_bool q 0 then 0%Q
  else
    let e := Z.max emin (floor_log2 (Qabs q)) in
    let ulp := pow2 (e - prec + 1) in
    Qred (inject_Z (round_half_even (q / ulp)) * ulp).

Definition to_float (q : Q) : Q := round_binary 24 (-126) q.
Definition to_double (q : Q) : Q := round_binary 53 (-1022) q.

(** [FLT_MAX], and the values within the range of [float]. *)
Definition FLT_MAX : Q := inject_Z ((2 ^ 24 - 1) * 2 ^ 104).
Definition fits_float (q : Q) : bool := Qle_bool (Qabs q) FLT_MAX.

End Cxx.

(* ===================================================================== *)
(** ** Outcomes of C++ code: a value, an exception, or undefined behaviour *)
(* ===================================================================== *)

Inductive Exn : Type :=
| runtime_error (what : string)
| json_type_error (id : Z)
| json_out_of_range (id : Z)
| json_parse_error
| yaml_bad_conversion
| bad_any_cast
| cuda_error
| check_failed (info : string)
| filesystem_error.

Inductive Outcome (A : Type) : Type :=
| Ret (a : A)
| Throw (e : Exn)
| Undefined.

Arguments Ret {A} a.
Arguments Throw {A} e.
Arguments Undefined {A}.

Definition outcome_bind {A B : Type} (m : Outcome A) (f : A -> Outcome B) : Outcome B :=
  match m with
  | Ret a => f a
  | Throw e => Throw e
  | Undefined => Undefined
  end.

(** [static_cast<float>] of a [double], and the implicit conversion: the
    nearest [float] for a value within the range of [float], undefined
    behaviour for any other. *)
Definition static_cast_float (d : Q) : Outcome Q :=
  if Cxx.fits_float d then Ret (Cxx.to_float d) else Undefined.

Inductive LogLevel : Type := LOG_DEBUG | LOG_INFO | LOG_WARNING | LOG_ERROR.

Definition LogEntry : Type := LogLevel * string.

(** A computation over a state [S]: it ends in an outcome, leaves a state
    behind (also when it throws: the object it was mutating keeps the
    assignments made so far) and appends to the log. *)
Definition M (S A : Type) : Type := S -> Outcome A * S * list LogEntry.

Definition ret {S A : Type} (a : A) : M S A := fun s => (Ret a, s, []).

Definition bind {S A B : Type} (m : M S A) (f : A -> M S B) : M S B :=
  fun s =>
    match m s with
    | (Ret a, s1, l1) =>
        match f a s1 with
        | (o, s2, l2) => (o, s2, l1 ++ l2)
        end
    | (Throw e, s1, l1) => (Throw e, s1, l1)
    | (Undefined, s1, l1) => (Undefined, s1, l1)
    end.

Definition lift {S A : Type} (o : Outcome A) : M S A := fun s => (o, s, []).
Definition get {S : Type} : M S S := fun s => (Ret s, s, []).
Definition gets {S A : Type} (f : S -> A) : M S A := fun s => (Ret (f s), s, []).
Definition modify {S : Type} (f : S -> S) : M S unit := fun s => (Ret tt, f s, []).
Definition log {S : Type} (lvl : LogLevel) (msg : string) : M S unit :=
  fun s => (Ret tt, s, [(lvl, msg)]).
Definition throw {S A : Type} (e : Exn) : M S A := lift (Throw e).

Declare Scope cxx_scope.
Delimit Scope cxx_scope with cxx.
Notation "x <- m ;; k" := (bind m (fun x => k))
  (at level 100, m at next level, right associativity) : cxx_scope.
Notation "m ;; k" := (bind m (fun _ => k))
  (at level 100, right associativity) : cxx_scope.
Notation "x <~ o ;; k" := (outcome_bind o (fun x => k))
  (at level 100, o at next level, right associativity) : cxx_scope.

(** A loop over a list, for its effects. *)
Fixpoint for_each {S A : Type} (f : A -> M S unit) (l : list A) : M S unit :=
  match l with
  | [] => ret tt
  | a :: l' => bind (f a) (fun _ => for_each f l')
  end.

Definition outcome_of {S A : Type} (r : Outcome A * S * list LogEntry) : Outcome A := fst (fst r).
Definition state_of {S A : Type} (r : Outcome A * S * list LogEntry) : S := snd (fst r).
Definition log_of {S A : Type} (r : Outcome A * S * list LogEntry) : list LogEntry := snd r.

(** Partial correctness on normal return: from a state satisfying [P], a run
    that returns [a] ends in a state and with a log satisfying [Q a]. *)
Definition hoare {S A : Type} (P : S -> Prop) (m : M S A)
    (Q : A -> S -> list LogEntry -> Prop) : Prop :=
  forall s a s' l, P s -> m s = (Ret a, s', l) -> Q a s' l.

(** A state predicate that every returning run keeps. *)
Definition stable {S A : Type} (I : S -> Prop) (m : M S A) : Prop :=
  hoare I m (fun _ s _ => I s).

(** What a run leaves behind apart from its log. *)
Definition run {S A : Type} (m : M S A) (s : S) : Outcome A * S :=
  (outcome_of (m s), state_of (m s)).

(** A computation that writes no entry of level [lvl] to the log, however
    it ends. *)
Definition silent {S A : Type} (lvl : LogLevel) (m : M S A) : Prop :=
  forall s, Forall (fun entry => fst entry <> lvl) (log_of (m s)).

(* ===================================================================== *)
(** ** Status and return codes *)
(* ===================================================================== *)

(** Modelled from the spec: the error taxonomy of section 7 (ret_code.h,
    which both trees include, is missing).  The enumerators are those the
    sources name, [RET_INVALID_ARGUMENT] and [RET_SEGMENT_FAULT], next to
    success; any other code is kept by number. *)
Inductive RetCode : Type :=
| RET_SUCCESS
| RET_INVALID_ARGUMENT
| RET_SEGMENT_FAULT
| RET_OTHER (n : Z).

(** Modelled from the spec: a status is a code of that taxonomy with a
    message (status.h is missing). *)
Record Status : Type := { code : RetCode; message : string }.

(** [Status()]: the sources return it where they succeed. *)
Definition Status_default : Status := {| code := RET_SUCCESS; message := "" |}.

(** [status.OK()]. *)
Definition OK (st : Status) : bool :=
  match code st with RET_SUCCESS => true | _ => false end.

(* ===================================================================== *)
(** ** ksana_llm/utils/environment.cpp *)
(* ===================================================================== *)

Module Ksana.

Local Set Primitive Projections.
Local Set Warnings "-register-all".

Inductive DataType : Type := TYPE_FP16 | TYPE_BF16 | TYPE_FP32 | TYPE_OTHER (n : Z).

Inductive MemoryDevice : Type := MEMORY_HOST | MEMORY_DEVICE.

(** *** The YAML reader

    yaml_reader.h is missing.  Section 6 of the spec gives every recognized
    option a name and a default: [GetScalar<T>(node, key, default)] is the
    scalar the document stores under the dotted key, converted to [T], and
    [default] when the document does not have the key.  A scalar that does
    not convert to [T] raises the conversion exception of yaml-cpp. *)

(** Modelled from the spec: a scalar of a configuration document
    (yaml_reader.h is missing). *)
Inductive YamlScalar : Type :=
| YInt (z : Z)
| YFloat (q : Q)
| YBool (b : bool)
| YString (s : string).

(** Modelled from the spec: a loaded document, its scalars by dotted key and
    its sequences of nodes (yaml_reader.h is missing). *)
Record YamlReader : Type := {
  root_node : gmap string YamlScalar;
  sequences : gmap string (list (gmap string YamlScalar))
}.

(** Modelled from the spec: [GetRootNode()] (yaml_reader.h is missing). *)
Definition GetRootNode (r : YamlReader) : gmap string YamlScalar := root_node r.

(** Modelled from the spec: [GetSequence(root, key)], empty when the key is
    absent (yaml_reader.h is missing). *)
Definition GetSequence (r : YamlReader) (key : string) : list (gmap string YamlScalar) :=
  default [] (sequences r !! key).

(** Modelled from the spec: [GetScalar<size_t>], the option under [key] or its
    default (yaml_reader.h is missing). *)
Definition GetScalar_size_t (node : gmap string YamlScalar) (key : string) (dflt : Z) : Outcome Z :=
  match node !! key with
  | None => Ret dflt
  | Some (YInt z) => if Cxx.is_size_t z then Ret z else Throw yaml_bad_conversion
  | Some _ => Throw yaml_bad_conversion
  end.

(** Modelled from the spec: [GetScalar<int>], the option under [key] or its
    default (yaml_reader.h is missing). *)
Definition GetScalar_int (node : gmap string YamlScalar) (key : string) (dflt : Z) : Outcome Z :=
  match node !! key with
  | None => Ret dflt
  | Some (YInt z) => if Cxx.is_int z then Ret z else Throw yaml_bad_conversion
  | Some _ => Throw yaml_bad_conversion
  end.

(** Modelled from the spec: [GetScalar<float>], the option under [key] or its
    default (yaml_reader.h is missing).  A [YFloat] carries the [float] that
    the text of the scalar converts to. *)
Definition GetScalar_float (node : gmap string YamlScalar) (key : string) (dflt : Q) : Outcome Q :=
  match node !! key with
  | None => Ret dflt
  | Some (YFloat q) => Ret q
  | Some (YInt z) => Ret (inject_Z z)
  | Some _ => Throw yaml_bad_conversion
  end.

(** Modelled from the spec: [GetScalar<bool>], the option under [key] or its
    default (yaml_reader.h is missing). *)
Definition GetScalar_bool (node : gmap string YamlScalar) (key : string) (dflt : bool) : Outcome bool :=
  match node !! key with
  | None => Ret dflt
  | Some (YBool b) => Ret b
  | Some _ => Throw yaml_bad_conversion
  end.

(** Modelled from the spec: [GetScalar<std::string>], the option under [key] or its
    default (yaml_reader.h is missing). *)
Definition GetScalar_string (node : gmap string YamlScalar) (key : string) (dflt : string) : Outcome string :=
  match node !! key with
  | None => Ret dflt
  | Some (YString s) => Ret s
  | Some _ => Throw yaml_bad_conversion
  end.

(** *** JSON values (nlohmann::json) and the accessors the parser uses *)
Inductive Json : Type :=
| JNull
| JBool (b : bool)
| JInt (z : Z)
| JFloat (q : Q)
| JString (s : string)
| JArray (l : list Json)
| JObject (fields : list (string * Json)).

Fixpoint json_find (key : string) (fields : list (string * Json)) : option Json :=
  match fields with
  | [] => None
  | (k, v) :: rest => if String.eqb k key then Some v else json_find key rest
  end.

Definition is_null (j : Json) : bool :=
  match j with JNull => true | _ => false end.

(** [j.at(key)]: [out_of_range] 403 for a missing key, [type_error] 304 on a
    value that is not an object. *)
Definition json_at (j : Json) (key : string) : Outcome Json :=
  match j with
  | JObject fields =>
      match json_find key fields with
      | Some v => Ret v
      | None => Throw (json_out_of_range 403)
      end
  | _ => Throw (json_type_error 304)
  end.

(** Conversions of a JSON value to a C++ type, [from_json]: [type_error]
    302 when the value has another type.  A JSON number is held as an
    integer ([JInt], 64 bits in a parsed document) or as a [double]
    ([JFloat], the double nearest to the number written).

    For an [int] or a [float] target a boolean converts as well, to 0 or
    1; for a [double] target, which is the library's own type of a number,
    it does not. *)
Definition json_get_string (j : Json) : Outcome string :=
  match j with
  | JString s => Ret s
  | _ => Throw (json_type_error 302)
  end.

(** Target [int]: [static_cast<int>] keeps the low 32 bits of an integer
    and truncates a double; a double whose integer part is no [int] is
    undefined behaviour. *)
Definition json_get_int (j : Json) : Outcome Z :=
  match j with
  | JBool b => Ret (if b then 1 else 0)
  | JInt z => Ret (Cxx.to_int z)
  | JFloat q =>
      let d := Cxx.to_double q in
      let z := Z.quot (Qnum d) (Z.pos (Qden d)) in
      if Cxx.is_int z then Ret z else Undefined
  | _ => Throw (json_type_error 302)
  end.

(** Target [float]. *)
Definition json_get_float (j : Json) : Outcome Q :=
  match j with
  | JBool b => Ret (if b then 1 else 0)%Q
  | JInt z => static_cast_float (inject_Z z)
  | JFloat q => static_cast_float (Cxx.to_double q)
  | _ => Throw (json_type_error 302)
  end.

(** Target [double]. *)
Definition json_get_double (j : Json) : Outcome Q :=
  match j with
  | JInt z => Ret (Cxx.to_double (inject_Z z))
  | JFloat q => Ret (Cxx.to_double q)
  | _ => Throw (json_type_error 302)
  end.

(** Target: one of the integer fields [head_num], [inter_size],
    [vocab_size], [num_layer] and [hidden_units] of [ModelConfig].  Their
    types are declared in a header that is not among the sources: the
    field is kept as the integer it is given (a double truncated), the
    narrowing to the width of the field is left out, and a boolean, which
    converts for some integer types and not for others, is refused. *)
Definition json_get_integer (j : Json) : Outcome Z :=
  match j with
  | JInt z => Ret z
  | JFloat q => Ret (Z.quot (Qnum q) (Z.pos (Qden q)))
  | _ => Throw (json_type_error 302)
  end.

(** [j.value(key, default)]: the converted member when the key is present,
    [default] otherwise; [type_error] 306 on a value that is not an object. *)
Definition json_value {A : Type} (conv : Json -> Outcome A) (j : Json) (key : string) (dflt : A) : Outcome A :=
  match j with
  | JObject fields =>
      match json_find key fields with
      | Some v => conv v
      | None => Ret dflt
      end
  | _ => Throw (json_type_error 306)
  end.

(** *** Configuration structures (environment.h is not among the sources:
    the fields are those the code reads and writes).  A [float] is
    represented by the rational it denotes.  In [ModelConfig], [rope_theta]
    and the factor of the rope scaling are [float]s as the literals
    [10000.0f] and [1.0f] they are read with, and so is [layernorm_eps]. *)
Record BatchSchedulerConfig : Type := {
  schedule_strategy : Z;
  waiting_timeout_in_ms : Z;
  max_waiting_queue_len : Z;
  max_step_tokens : Z;
  max_batch_size : Z;
  max_token_len : Z;
  swapout_block_threshold : Q;
  swapin_block_threshold : Q;
  launch_block_threshold : Q;
  swap_threadpool_size : Z;
  preempt_mode : Z
}.

Definition set_schedule_strategy (v : Z) '(Build_BatchSchedulerConfig _ x1 x2 x3 x4 x5 x6 x7 x8 x9 x10) : BatchSchedulerConfig :=
  Build_BatchSchedulerConfig v x1 x2 x3 x4 x5 x6 x7 x8 x9 x10.
Definition set_waiting_timeout_in_ms (v : Z) '(Build_BatchSchedulerConfig x0 _ x2 x3 x4 x5 x6 x7 x8 x9 x10) : BatchSchedulerConfig :=
  Build_BatchSchedulerConfig x0 v x2 x3 x4 x5 x6 x7 x8 x9 x10.
Definition set_max_waiting_queue_len (v : Z) '(Build_BatchSchedulerConfig x0 x1 _ x3 x4 x5 x6 x7 x8 x9 x10) : BatchSchedulerConfig :=
  Build_BatchSchedulerConfig x0 x1 v x3 x4 x5 x6 x7 x8 x9 x10.
Definition set_max_step_tokens (v : Z) '(Build_BatchSchedulerConfig x0 x1 x2 _ x4 x5 x6 x7 x8 x9 x10) : BatchSchedulerConfig :=
  Build_BatchSchedulerConfig x0 x1 x2 v x4 x5 x6 x7 x8 x9 x10.
Definition set_max_batch_size (v : Z) '(Build_BatchSchedulerConfig x0 x1 x2 x3 _ x5 x6 x7 x8 x9 x10) : BatchSchedulerConfig :=
  Build_BatchSchedulerConfig x0 x1 x2 x3 v x5 x6 x7 x8 x9 x10.
Definition set_max_token_len (v : Z) '(Build_BatchSchedulerConfig x0 x1 x2 x3 x4 _ x6 x7 x8 x9 x10) : BatchSchedulerConfig :=
  Build_BatchSchedulerConfig x0 x1 x2 x3 x4 v x6 x7 x8 x9 x10.
Definition set_swapout_block_threshold (v : Q) '(Build_BatchSchedulerConfig x0 x1 x2 x3 x4 x5 _ x7 x8 x9 x10) : BatchSchedulerConfig :=
  Build_BatchSchedulerConfig x0 x1 x2 x3 x4 x5 v x7 x8 x9 x10.
Definition set_swapin_block_threshold (v : Q) '(Build_BatchSchedulerConfig x0 x1 x2 x3 x4 x5 x6 _ x8 x9 x10) : BatchSchedulerConfig :=
  Build_BatchSchedulerConfig x0 x1 x2 x3 x4 x5 x6 v x8 x9 x10.
Definition set_launch_block_threshold (v : Q) '(Build_BatchSchedulerConfig x0 x1 x2 x3 x4 x5 x6 x7 _ x9 x10) : BatchSchedulerConfig :=
  Build_BatchSchedulerConfig x0 x1 x2 x3 x4 x5 x6 x7 v x9 x10.
Definition set_swap_threadpool_size (v : Z) '(Build_BatchSchedulerConfig x0 x1 x2 x3 x4 x5 x6 x7 x8 _ x10) : BatchSchedulerConfig :=
  Build_BatchSchedulerConfig x0 x1 x2 x3 x4 x5 x6 x7 x8 v x10.
Definition set_preempt_mode (v : Z) '(Build_BatchSchedulerConfig x0 x1 x2 x3 x4 x5 x6 x7 x8 x9 _) : BatchSchedulerConfig :=
  Build_BatchSchedulerConfig x0 x1 x2 x3 x4 x5 x6 x7 x8 x9 v.

Record BatchManagerConfig : Type := {
  batch_scheduler_config : BatchSchedulerConfig
}.

Definition set_batch_scheduler_config (v : BatchSchedulerConfig) '(Build_BatchManagerConfig _) : BatchManagerConfig :=
  Build_BatchManagerConfig v.

Record AllocatorConfig : Type := {
  block_token_num : Z;
  block_size : Z;
  blocks_num : Z;
  device : MemoryDevice
}.

Definition set_block_token_num (v : Z) '(Build_AllocatorConfig _ x1 x2 x3) : AllocatorConfig :=
  Build_AllocatorConfig v x1 x2 x3.
Definition set_block_size (v : Z) '(Build_AllocatorConfig x0 _ x2 x3) : AllocatorConfig :=
  Build_AllocatorConfig x0 v x2 x3.
Definition set_blocks_num (v : Z) '(Build_AllocatorConfig x0 x1 _ x3) : AllocatorConfig :=
  Build_AllocatorConfig x0 x1 v x3.
Definition set_device (v : MemoryDevice) '(Build_AllocatorConfig x0 x1 x2 _) : AllocatorConfig :=
  Build_AllocatorConfig x0 x1 x2 v.

Record BlockManagerConfig : Type := {
  host_allocator_config : AllocatorConfig;
  device_allocator_config : AllocatorConfig;
  reserved_device_memory_ratio : Q;
  lora_deivce_memory_ratio : Q;
  block_device_memory_ratio : Q;
  lora_host_memory_factor : Q;
  block_host_memory_factor : Q;
  prefix_cache_len : Z
}.

Definition set_host_allocator_config (v : AllocatorConfig) '(Build_BlockManagerConfig _ x1 x2 x3 x4 x5 x6 x7) : BlockManagerConfig :=
  Build_BlockManagerConfig v x1 x2 x3 x4 x5 x6 x7.
Definition set_device_allocator_config (v : AllocatorConfig) '(Build_BlockManagerConfig x0 _ x2 x3 x4 x5 x6 x7) : BlockManagerConfig :=
  Build_BlockManagerConfig x0 v x2 x3 x4 x5 x6 x7.
Definition set_reserved_device_memory_ratio (v : Q) '(Build_BlockManagerConfig x0 x1 _ x3 x4 x5 x6 x7) : BlockManagerConfig :=
  Build_BlockManagerConfig x0 x1 v x3 x4 x5 x6 x7.
Definition set_lora_deivce_memory_ratio (v : Q) '(Build_BlockManagerConfig x0 x1 x2 _ x4 x5 x6 x7) : BlockManagerConfig :=
  Build_BlockManagerConfig x0 x1 x2 v x4 x5 x6 x7.
Definition set_block_device_memory_ratio (v : Q) '(Build_BlockManagerConfig x0 x1 x2 x3 _ x5 x6 x7) : BlockManagerConfig :=
  Build_BlockManagerConfig x0 x1 x2 x3 v x5 x6 x7.
Definition set_lora_host_memory_factor (v : Q) '(Build_BlockManagerConfig x0 x1 x2 x3 x4 _ x6 x7) : BlockManagerConfig :=
  Build_BlockManagerConfig x0 x1 x2 x3 x4 v x6 x7.
Definition set_block_host_memory_factor (v : Q) '(Build_BlockManagerConfig x0 x1 x2 x3 x4 x5 _ x7) : BlockManagerConfig :=
  Build_BlockManagerConfig x0 x1 x2 x3 x4 x5 v x7.
Definition set_prefix_cache_len (v : Z) '(Build_BlockManagerConfig x0 x1 x2 x3 x4 x5 x6 _) : BlockManagerConfig :=
  Build_BlockManagerConfig x0 x1 x2 x3 x4 x5 x6 v.

Record ProfilerConfig : Type := {
  stat_interval_second : Z;
  stat_buffer_size : Z;
  report_threadpool_size : Z
}.

Definition set_stat_interval_second (v : Z) '(Build_ProfilerConfig _ x1 x2) : ProfilerConfig :=
  Build_ProfilerConfig v x1 x2.
Definition set_stat_buffer_size (v : Z) '(Build_ProfilerConfig x0 _ x2) : ProfilerConfig :=
  Build_ProfilerConfig x0 v x2.
Definition set_report_threadpool_size (v : Z) '(Build_ProfilerConfig x0 x1 _) : ProfilerConfig :=
  Build_ProfilerConfig x0 x1 v.

Record EndpointConfig : Type := {
  host : string;
  port : Z
}.

Definition set_host (v : string) '(Build_EndpointConfig _ x1) : EndpointConfig :=
  Build_EndpointConfig v x1.
Definition set_port (v : Z) '(Build_EndpointConfig x0 _) : EndpointConfig :=
  Build_EndpointConfig x0 v.

Record RoPEScalingFactor : Type := {
  rope_scaling_type : string;
  rope_scaling_factor : Q
}.

Definition set_rope_scaling_type (v : string) '(Build_RoPEScalingFactor _ x1) : RoPEScalingFactor :=
  Build_RoPEScalingFactor v x1.
Definition set_rope_scaling_factor (v : Q) '(Build_RoPEScalingFactor x0 _) : RoPEScalingFactor :=
  Build_RoPEScalingFactor x0 v.

Record ModelConfig : Type := {
  name : string;
  type : string;
  path : string;
  weight_data_type : DataType;
  tensor_para_size : Z;
  head_num : Z;
  num_key_value_heads : Z;
  inter_size : Z;
  vocab_size : Z;
  num_layer : Z;
  hidden_units : Z;
  rope_theta : Q;
  layernorm_eps : Q;
  start_id : Z;
  end_id : Z;
  pad_id : Z;
  max_position_embeddings : Z;
  rope_scaling_factor_config : RoPEScalingFactor;
  size_per_head : Z;
  rotary_embedding : Z;
  model_block_token_num : Z;
  model_max_batch_size : Z;
  max_scheduler_token_num : Z;
  max_token_num : Z
}.

Definition set_name (v : string) '(Build_ModelConfig _ x1 x2 x3 x4 x5 x6 x7 x8 x9 x10 x11 x12 x13 x14 x15 x16 x17 x18 x19 x20 x21 x22 x23) : ModelConfig :=
  Build_ModelConfig v x1 x2 x3 x4 x5 x6 x7 x8 x9 x10 x11 x12 x13 x14 x15 x16 x17 x18 x19 x20 x21 x22 x23.
Definition set_type (v : string) '(Build_ModelConfig x0 _ x2 x3 x4 x5 x6 x7 x8 x9 x10 x11 x12 x13 x14 x15 x16 x17 x18 x19 x20 x21 x22 x23) : ModelConfig :=
  Build_ModelConfig x0 v x2 x3 x4 x5 x6 x7 x8 x9 x10 x11 x12 x13 x14 x15 x16 x17 x18 x19 x20 x21 x22 x23.
Definition set_path (v : string) '(Build_ModelConfig x0 x1 _ x3 x4 x5 x6 x7 x8 x9 x10 x11 x12 x13 x14 x15 x16 x17 x18 x19 x20 x21 x22 x23) : ModelConfig :=
  Build_ModelConfig x0 x1 v x3 x4 x5 x6 x7 x8 x9 x10 x11 x12 x13 x14 x15 x16 x17 x18 x19 x20 x21 x22 x23.
Definition set_weight_data_type (v : DataType) '(Build_ModelConfig x0 x1 x2 _ x4 x5 x6 x7 x8 x9 x10 x11 x12 x13 x14 x15 x16 x17 x18 x19 x20 x21 x22 x23) : ModelConfig :=
  Build_ModelConfig x0 x1 x2 v x4 x5 x6 x7 x8 x9 x10 x11 x12 x13 x14 x15 x16 x17 x18 x19 x20 x21 x22 x23.
Definition set_tensor_para_size (v : Z) '(Build_ModelConfig x0 x1 x2 x3 _ x5 x6 x7 x8 x9 x10 x11 x12 x13 x14 x15 x16 x17 x18 x19 x20 x21 x22 x23) : ModelConfig :=
  Build_ModelConfig x0 x1 x2 x3 v x5 x6 x7 x8 x9 x10 x11 x12 x13 x14 x15 x16 x17 x18 x19 x20 x21 x22 x23.
Definition set_head_num (v : Z) '(Build_ModelConfig x0 x1 x2 x3 x4 _ x6 x7 x8 x9 x10 x11 x12 x13 x14 x15 x16 x17 x18 x19 x20 x21 x22 x23) : ModelConfig :=
  Build_ModelConfig x0 x1 x2 x3 x4 v x6 x7 x8 x9 x10 x11 x12 x13 x14 x15 x16 x17 x18 x19 x20 x21 x22 x23.
Definition set_num_key_value_heads (v : Z) '(Build_ModelConfig x0 x1 x2 x3 x4 x5 _ x7 x8 x9 x10 x11 x12 x13 x14 x15 x16 x17 x18 x19 x20 x21 x22 x23) : ModelConfig :=
  Build_ModelConfig x0 x1 x2 x3 x4 x5 v x7 x8 x9 x10 x11 x12 x13 x14 x15 x16 x17 x18 x19 x20 x21 x22 x23.
Definition set_inter_size (v : Z) '(Build_ModelConfig x0 x1 x2 x3 x4 x5 x6 _ x8 x9 x10 x11 x12 x13 x14 x15 x16 x17 x18 x19 x20 x21 x22 x23) : ModelConfig :=
  Build_ModelConfig x0 x1 x2 x3 x4 x5 x6 v x8 x9 x10 x11 x12 x13 x14 x15 x16 x17 x18 x19 x20 x21 x22 x23.
Definition set_vocab_size (v : Z) '(Build_ModelConfig x0 x1 x2 x3 x4 x5 x6 x7 _ x9 x10 x11 x12 x13 x14 x15 x16 x17 x18 x19 x20 x21 x22 x23) : ModelConfig :=
  Build_ModelConfig x0 x1 x2 x3 x4 x5 x6 x7 v x9 x10 x11 x12 x13 x14 x15 x16 x17 x18 x19 x20 x21 x22 x23.
Definition set_num_layer (v : Z) '(Build_ModelConfig x0 x1 x2 x3 x4 x5 x6 x7 x8 _ x10 x11 x12 x13 x14 x15 x16 x17 x18 x19 x20 x21 x22 x23) : ModelConfig :=
  Build_ModelConfig x0 x1 x2 x3 x4 x5 x6 x7 x8 v x10 x11 x12 x13 x14 x15 x16 x17 x18 x19 x20 x21 x22 x23.
Definition set_hidden_units (v : Z) '(Build_ModelConfig x0 x1 x2 x3 x4 x5 x6 x7 x8 x9 _ x11 x12 x13 x14 x15 x16 x17 x18 x19 x20 x21 x22 x23) : ModelConfig :=
  Build_ModelConfig x0 x1 x2 x3 x4 x5 x6 x7 x8 x9 v x11 x12 x13 x14 x15 x16 x17 x18 x19 x20 x21 x22 x23.
Definition set_rope_theta (v : Q) '(Build_ModelConfig x0 x1 x2 x3 x4 x5 x6 x7 x8 x9 x10 _ x12 x13 x14 x15 x16 x17 x18 x19 x20 x21 x22 x23) : ModelConfig :=
  Build_ModelConfig x0 x1 x2 x3 x4 x5 x6 x7 x8 x9 x10 v x12 x13 x14 x15 x16 x17 x18 x19 x20 x21 x22 x23.
Definition set_layernorm_eps (v : Q) '(Build_ModelConfig x0 x1 x2 x3 x4 x5 x6 x7 x8 x9 x10 x11 _ x13 x14 x15 x16 x17 x18 x19 x20 x21 x22 x23) : ModelConfig :=
  Build_ModelConfig x0 x1 x2 x3 x4 x5 x6 x7 x8 x9 x10 x11 v x13 x14 x15 x16 x17 x18 x19 x20 x21 x22 x23.
Definition set_start_id (v : Z) '(Build_ModelConfig x0 x1 x2 x3 x4 x5 x6 x7 x8 x9 x10 x11 x12 _ x14 x15 x16 x17 x18 x19 x20 x21 x22 x23) : ModelConfig :=
  Build_ModelConfig x0 x1 x2 x3 x4 x5 x6 x7 x8 x9 x10 x11 x12 v x14 x15 x16 x17 x18 x19 x20 x21 x22 x23.
Definition set_end_id (v : Z) '(Build_ModelConfig x0 x1 x2 x3 x4 x5 x6 x7 x8 x9 x10 x11 x12 x13 _ x15 x16 x17 x18 x19 x20 x21 x22 x23) : ModelConfig :=
  Build_ModelConfig x0 x1 x2 x3 x4 x5 x6 x7 x8 x9 x10 x11 x12 x13 v x15 x16 x17 x18 x19 x20 x21 x22 x23.
Definition set_pad_id (v : Z) '(Build_ModelConfig x0 x1 x2 x3 x4 x5 x6 x7 x8 x9 x10 x11 x12 x13 x14 _ x16 x17 x18 x19 x20 x21 x22 x23) : ModelConfig :=
  Build_ModelConfig x0 x1 x2 x3 x4 x5 x6 x7 x8 x9 x10 x11 x12 x13 x14 v x16 x17 x18 x19 x20 x21 x22 x23.
Definition set_max_position_embeddings (v : Z) '(Build_ModelConfig x0 x1 x2 x3 x4 x5 x6 x7 x8 x9 x10 x11 x12 x13 x14 x15 _ x17 x18 x19 x20 x21 x22 x23) : ModelConfig :=
  Build_ModelConfig x0 x1 x2 x3 x4 x5 x6 x7 x8 x9 x10 x11 x12 x13 x14 x15 v x17 x18 x19 x20 x21 x22 x23.
Definition set_rope_scaling_factor_config (v : RoPEScalingFactor) '(Build_ModelConfig x0 x1 x2 x3 x4 x5 x6 x7 x8 x9 x10 x11 x12 x13 x14 x15 x16 _ x18 x19 x20 x21 x22 x23) : ModelConfig :=
  Build_ModelConfig x0 x1 x2 x3 x4 x5 x6 x7 x8 x9 x10 x11 x12 x13 x14 x15 x16 v x18 x19 x20 x21 x22 x23.
Definition set_size_per_head (v : Z) '(Build_ModelConfig x0 x1 x2 x3 x4 x5 x6 x7 x8 x9 x10 x11 x12 x13 x14 x15 x16 x17 _ x19 x20 x21 x22 x23) : ModelConfig :=
  Build_ModelConfig x0 x1 x2 x3 x4 x5 x6 x7 x8 x9 x10 x11 x12 x13 x14 x15 x16 x17 v x19 x20 x21 x22 x23.
Definition set_rotary_embedding (v : Z) '(Build_ModelConfig x0 x1 x2 x3 x4 x5 x6 x7 x8 x9 x10 x11 x12 x13 x14 x15 x16 x17 x18 _ x20 x21 x22 x23) : ModelConfig :=
  Build_ModelConfig x0 x1 x2 x3 x4 x5 x6 x7 x8 x9 x10 x11 x12 x13 x14 x15 x16 x17 x18 v x20 x21 x22 x23.
Definition set_model_block_token_num (v : Z) '(Build_ModelConfig x0 x1 x2 x3 x4 x5 x6 x7 x8 x9 x10 x11 x12 x13 x14 x15 x16 x17 x18 x19 _ x21 x22 x23) : ModelConfig :=
  Build_ModelConfig x0 x1 x2 x3 x4 x5 x6 x7 x8 x9 x10 x11 x12 x13 x14 x15 x16 x17 x18 x19 v x21 x22 x23.
Definition set_model_max_batch_size (v : Z) '(Build_ModelConfig x0 x1 x2 x3 x4 x5 x6 x7 x8 x9 x10 x11 x12 x13 x14 x15 x16 x17 x18 x19 x20 _ x22 x23) : ModelConfig :=
  Build_ModelConfig x0 x1 x2 x3 x4 x5 x6 x7 x8 x9 x10 x11 x12 x13 x14 x15 x16 x17 x18 x19 x20 v x22 x23.
Definition set_max_scheduler_token_num (v : Z) '(Build_ModelConfig x0 x1 x2 x3 x4 x5 x6 x7 x8 x9 x10 x11 x12 x13 x14 x15 x16 x17 x18 x19 x20 x21 _ x23) : ModelConfig :=
  Build_ModelConfig x0 x1 x2 x3 x4 x5 x6 x7 x8 x9 x10 x11 x12 x13 x14 x15 x16 x17 x18 x19 x20 x21 v x23.
Definition set_max_token_num (v : Z) '(Build_ModelConfig x0 x1 x2 x3 x4 x5 x6 x7 x8 x9 x10 x11 x12 x13 x14 x15 x16 x17 x18 x19 x20 x21 x22 _) : ModelConfig :=
  Build_ModelConfig x0 x1 x2 x3 x4 x5 x6 x7 x8 x9 x10 x11 x12 x13 x14 x15 x16 x17 x18 x19 x20 x21 x22 v.

Record Environment : Type := {
  tensor_parallel_size_ : Z;
  pipeline_parallel_size_ : Z;
  enable_lora_adapter_ : bool;
  embed_tokens_use_cpu_ : bool;
  batch_manager_config_ : BatchManagerConfig;
  block_manager_config_ : BlockManagerConfig;
  profiler_config_ : ProfilerConfig;
  endpoint_config_ : EndpointConfig;
  model_configs_ : gmap string ModelConfig
}.

Definition set_tensor_parallel_size_ (v : Z) '(Build_Environment _ x1 x2 x3 x4 x5 x6 x7 x8) : Environment :=
  Build_Environment v x1 x2 x3 x4 x5 x6 x7 x8.
Definition set_pipeline_parallel_size_ (v : Z) '(Build_Environment x0 _ x2 x3 x4 x5 x6 x7 x8) : Environment :=
  Build_Environment x0 v x2 x3 x4 x5 x6 x7 x8.
Definition set_enable_lora_adapter_ (v : bool) '(Build_Environment x0 x1 _ x3 x4 x5 x6 x7 x8) : Environment :=
  Build_Environment x0 x1 v x3 x4 x5 x6 x7 x8.
Definition set_embed_tokens_use_cpu_ (v : bool) '(Build_Environment x0 x1 x2 _ x4 x5 x6 x7 x8) : Environment :=
  Build_Environment x0 x1 x2 v x4 x5 x6 x7 x8.
Definition set_batch_manager_config_ (v : BatchManagerConfig) '(Build_Environment x0 x1 x2 x3 _ x5 x6 x7 x8) : Environment :=
  Build_Environment x0 x1 x2 x3 v x5 x6 x7 x8.
Definition set_block_manager_config_ (v : BlockManagerConfig) '(Build_Environment x0 x1 x2 x3 x4 _ x6 x7 x8) : Environment :=
  Build_Environment x0 x1 x2 x3 x4 v x6 x7 x8.
Definition set_profiler_config_ (v : ProfilerConfig) '(Build_Environment x0 x1 x2 x3 x4 x5 _ x7 x8) : Environment :=
  Build_Environment x0 x1 x2 x3 x4 x5 v x7 x8.
Definition set_endpoint_config_ (v : EndpointConfig) '(Build_Environment x0 x1 x2 x3 x4 x5 x6 _ x8) : Environment :=
  Build_Environment x0 x1 x2 x3 x4 x5 x6 v x8.
Definition set_model_configs_ (v : gmap string ModelConfig) '(Build_Environment x0 x1 x2 x3 x4 x5 x6 x7 _) : Environment :=
  Build_Environment x0 x1 x2 x3 x4 x5 x6 x7 v.

(** Nested assignments, as in
    [batch_manager_config_.batch_scheduler_config.max_batch_size = v]. *)
Definition assign_scheduler (f : BatchSchedulerConfig -> BatchSchedulerConfig) (e : Environment) : Environment :=
  set_batch_manager_config_
    (set_batch_scheduler_config (f (batch_scheduler_config (batch_manager_config_ e)))
       (batch_manager_config_ e)) e.

Definition assign_block_manager (f : BlockManagerConfig -> BlockManagerConfig) (e : Environment) : Environment :=
  set_block_manager_config_ (f (block_manager_config_ e)) e.

Definition assign_host_allocator (f : AllocatorConfig -> AllocatorConfig) (e : Environment) : Environment :=
  assign_block_manager (fun c => set_host_allocator_config (f (host_allocator_config c)) c) e.

Definition assign_device_allocator (f : AllocatorConfig -> AllocatorConfig) (e : Environment) : Environment :=
  assign_block_manager (fun c => set_device_allocator_config (f (device_allocator_config c)) c) e.

Definition assign_profiler (f : ProfilerConfig -> ProfilerConfig) (e : Environment) : Environment :=
  set_profiler_config_ (f (profiler_config_ e)) e.

Definition assign_endpoint (f : EndpointConfig -> EndpointConfig) (e : Environment) : Environment :=
  set_endpoint_config_ (f (endpoint_config_ e)) e.

(** [GetTensorParallelSize()], [GetPipeLineParallelSize()]. *)
Definition GetTensorParallelSize (e : Environment) : Z := tensor_parallel_size_ e.
Definition GetPipeLineParallelSize (e : Environment) : Z := pipeline_parallel_size_ e.

(** *** What the code takes from its build and its surroundings

    The compile-time switch, the file system, the two parsers, the size
    table of [DataType], the iteration order of [std::unordered_map], the
    default member values of [ModelConfig] and the check macro. *)
Class World : Type := {
  ENABLE_BFLOAT16 : bool;
  (** [std::filesystem::absolute(p).u8string()]; the call may throw
      [filesystem_error] (libstdc++ does on the empty path) *)
  fs_absolute : string -> Outcome string;
  (** the text behind the [n]-th [std::ifstream] the process opens, [None]
      when the stream cannot be opened *)
  ifstream_open : nat -> string -> option string;
  (** [file >> config_json]; [None] when the text is not JSON *)
  json_parse : string -> option Json;
  (** [YamlReader::LoadFile] *)
  LoadFile : string -> Status * YamlReader;
  GetTypeSize : DataType -> Z;
  (** [m.begin()->second] of a non-empty map *)
  unordered_map_begin : gmap string ModelConfig -> option ModelConfig;
  (** [ModelConfig model_config;] *)
  ModelConfig_default : ModelConfig;
  (** [fmt::format("{}", f)] of a float *)
  fmt_float : Q -> string;
  (** the macro [NLLM_CHECK_WITH_INFO(condition, info)], which is not among
      the sources *)
  NLLM_CHECK_WITH_INFO : bool -> string -> Outcome unit
}.

(** The process: the [Environment] singleton and the number of file streams
    opened so far. *)
Record Proc : Type := { this : Environment; streams : nat }.

Definition set_this (v : Environment) '(Build_Proc _ n) : Proc := Build_Proc v n.
Definition set_streams (v : nat) '(Build_Proc e _) : Proc := Build_Proc e v.

(** [field = expr;] where evaluating [expr] may throw. *)
Definition assign {S A : Type} (o : Outcome A) (set : A -> S -> S) : M S unit :=
  (v <- lift o ;; modify (set v))%cxx.

Definition assign_env {A : Type} (o : Outcome A) (set : A -> Environment -> Environment) : M Proc unit :=
  (v <- lift o ;; modify (fun p => set_this (set v (this p)) p))%cxx.

(** Integer division and remainder: undefined for a zero divisor. *)
Definition cxx_div (a b : Z) : Outcome Z :=
  if b =? 0 then Undefined else Ret (Z.quot a b).

Definition cxx_rem (a b : Z) : Outcome Z :=
  if b =? 0 then Undefined else Ret (Z.rem a b).

Definition size_t_mul (a b : Z) : Z := Cxx.to_size_t (a * b).

(** Conversion of an integer-valued double to [int]: undefined when the
    value does not fit. *)
Definition double_to_int (d : Z) : Outcome Z :=
  if Cxx.is_int d then Ret d else Undefined.

Section Code.

Context `{W : World}.

(** [IsFileExists] (lines 29-32): opens a stream and reports [good()]. *)
Definition IsFileExists (file_path : string) : M Proc bool :=
  fun p => (Ret (bool_decide (is_Some (ifstream_open (streams p) file_path))),
            set_streams (S (streams p)) p, []).

(** [std::ifstream file(path)]. *)
Definition open_ifstream (file_path : string) : M Proc (option string) :=
  fun p => (Ret (ifstream_open (streams p) file_path), set_streams (S (streams p)) p, []).

(** [GetModelDataType] (lines 34-51). *)
Definition GetModelDataType (config_json : Json) : Outcome DataType :=
  (data_type_raw_str <~ json_value json_get_string config_json "torch_dtype" "float16" ;;
   let unified_data_type_raw_str := Cxx.transform_tolower data_type_raw_str in
   if String.eqb unified_data_type_raw_str "float16" then Ret TYPE_FP16
   else if String.eqb unified_data_type_raw_str "bfloat16" then
     (if ENABLE_BFLOAT16 then Ret TYPE_BF16 else Ret TYPE_FP16)
   else Throw (runtime_error "Not supported model data type."))%cxx.

Definition set_rope_type (v : string) (c : ModelConfig) : ModelConfig :=
  set_rope_scaling_factor_config (set_rope_scaling_type v (rope_scaling_factor_config c)) c.

Definition set_rope_factor (v : Q) (c : ModelConfig) : ModelConfig :=
  set_rope_scaling_factor_config (set_rope_scaling_factor v (rope_scaling_factor_config c)) c.

(** [PrepareModeAttirbutes] (lines 53-80), over the [model_config] it fills. *)
Definition PrepareModeAttirbutes (config_json : Json) : M ModelConfig unit :=
  (assign (v <~ json_at config_json "model_type" ;; json_get_string v) set_type ;;
   assign (v <~ json_at config_json "num_attention_heads" ;; json_get_integer v) set_head_num ;;
   head_num_ <- gets head_num ;;
   assign (json_value json_get_integer config_json "num_key_value_heads" head_num_)
     set_num_key_value_heads ;;
   assign (v <~ json_at config_json "intermediate_size" ;; json_get_integer v) set_inter_size ;;
   assign (v <~ json_at config_json "vocab_size" ;; json_get_integer v) set_vocab_size ;;
   assign (v <~ json_at config_json "num_hidden_layers" ;; json_get_integer v) set_num_layer ;;
   assign (v <~ json_at config_json "hidden_size" ;; json_get_integer v) set_hidden_units ;;
   assign (json_value json_get_float config_json "rope_theta" 10000.0%Q) set_rope_theta ;;
   assign (rms_norm_eps <~ json_value json_get_double config_json "rms_norm_eps"
                             (Cxx.to_double 1e-6%Q) ;;
           static_cast_float rms_norm_eps) set_layernorm_eps ;;
   layernorm_eps_ <- gets layernorm_eps ;;
   assign (json_value json_get_float config_json "layer_norm_epsilon" layernorm_eps_)
     set_layernorm_eps ;;
   assign (json_value json_get_int config_json "bos_token_id" 1) set_start_id ;;
   assign (json_value json_get_int config_json "eos_token_id" 2) set_end_id ;;
   assign (json_value json_get_int config_json "pad_token_id" 0) set_pad_id ;;
   assign (json_value json_get_int config_json "max_position_embeddings" 2048)
     set_max_position_embeddings ;;
   rope_scaling_setting <- lift (json_value Ret config_json "rope_scaling" JNull) ;;
   (if negb (is_null rope_scaling_setting) then
      (assign (json_value json_get_string rope_scaling_setting "type" "default") set_rope_type ;;
       assign (json_value json_get_float rope_scaling_setting "factor" 1.0%Q) set_rope_factor ;;
       rope <- gets rope_scaling_factor_config ;;
       log LOG_DEBUG ("rope_scaling type: " +:+ rope_scaling_type rope +:+ " factor: "
                      +:+ fmt_float (rope_scaling_factor rope)))
    else ret tt) ;;
   hidden_units_ <- gets hidden_units ;;
   head_num_ <- gets head_num ;;
   size_per_head_ <- lift (cxx_div hidden_units_ head_num_) ;;
   modify (set_size_per_head size_per_head_) ;;
   modify (set_rotary_embedding size_per_head_))%cxx.

(** Runs a computation on a local object; an exception passes through. *)
Definition with_local {S L A : Type} (m : M L A) (l : L) : M S (A * L) :=
  fun s =>
    match m l with
    | (Ret a, l', lg) => (Ret (a, l'), s, lg)
    | (Throw e, _, lg) => (Throw e, s, lg)
    | (Undefined, _, lg) => (Undefined, s, lg)
    end.

(** [Environment::ParseModelConfig] (lines 185-217). *)
Definition ParseModelConfig (model_dir : string) : M Proc Status :=
  (abs_model_dir_path <- lift (fs_absolute model_dir) ;;
   let config_file := abs_model_dir_path +:+ "/config.json" in
   exists_ <- IsFileExists config_file ;;
   if negb exists_ then
     ret {| code := RET_INVALID_ARGUMENT;
            message := "Model config file: " +:+ config_file +:+ " is not exists." |}
   else
     (file <- open_ifstream config_file ;;
      match file with
      | None =>
          (log LOG_ERROR ("Load model config file: " +:+ config_file +:+ " error.") ;;
           ret {| code := RET_INVALID_ARGUMENT;
                  message := "Load model config file: " +:+ config_file +:+ " error." |})
      | Some text =>
          (config_json <- lift (match json_parse text with
                                | Some j => Ret j
                                | None => Throw json_parse_error
                                end) ;;
           let model_config := set_path abs_model_dir_path ModelConfig_default in
           weight_data_type_ <- lift (GetModelDataType config_json) ;;
           let model_config := set_weight_data_type weight_data_type_ model_config in
           env <- gets this ;;
           let model_config := set_tensor_para_size (tensor_parallel_size_ env) model_config in
           r <- with_local (PrepareModeAttirbutes config_json) model_config ;;
           let model_config := snd r in
           let model_config :=
             set_model_block_token_num
               (block_token_num (device_allocator_config (block_manager_config_ env)))
               model_config in
           let scheduler := batch_scheduler_config (batch_manager_config_ env) in
           let model_config := set_model_max_batch_size (max_batch_size scheduler) model_config in
           let model_config :=
             set_max_scheduler_token_num (max_step_tokens scheduler) model_config in
           let model_config := set_max_token_num (max_token_len scheduler) model_config in
           modify (fun p =>
                     set_this (set_model_configs_
                                 (<[name model_config := model_config]> (model_configs_ (this p)))
                                 (this p)) p) ;;
           log LOG_DEBUG ("Load model " +:+ name model_config +:+ " from config file: "
                          +:+ path model_config +:+ " success.") ;;
           ret Status_default)
      end))%cxx.

(** [Environment::InitializeBlockManagerConfig] (lines 238-258). *)
Definition InitializeBlockManagerConfig : M Proc unit :=
  (env <- gets this ;;
   lift (NLLM_CHECK_WITH_INFO (bool_decide (0 < size (model_configs_ env))%nat)
           "No model configed.") ;;
   model_config <- lift (match unordered_map_begin (model_configs_ env) with
                         | Some c => Ret c
                         | None => Undefined
                         end) ;;
   layers <- lift (cxx_div (Cxx.to_size_t (num_layer model_config)) (GetPipeLineParallelSize env)) ;;
   heads <- lift (cxx_div (Cxx.to_size_t (num_key_value_heads model_config))
                    (GetTensorParallelSize env)) ;;
   let token_size := size_t_mul (size_t_mul layers heads) (Cxx.to_size_t (size_per_head model_config)) in
   let block_token_num_ := block_token_num (device_allocator_config (block_manager_config_ env)) in
   let block_dtype_size := GetTypeSize TYPE_FP16 in
   modify (fun p => set_this (assign_host_allocator
     (set_block_size (size_t_mul (size_t_mul (size_t_mul token_size block_token_num_) 2) block_dtype_size))
     (this p)) p) ;;
   modify (fun p => set_this (assign_device_allocator
     (set_block_size (size_t_mul (size_t_mul (size_t_mul token_size block_token_num_) 2) block_dtype_size))
     (this p)) p) ;;
   modify (fun p => set_this (assign_host_allocator (set_device MEMORY_HOST) (this p)) p) ;;
   modify (fun p => set_this (assign_device_allocator (set_device MEMORY_DEVICE) (this p)) p) ;;
   modify (fun p => set_this (assign_host_allocator (set_blocks_num (512 * 10)) (this p)) p) ;;
   modify (fun p => set_this (assign_device_allocator (set_blocks_num 512) (this p)) p))%cxx.

(** [Environment::CheckEnvironment] (lines 260-269). *)
Definition CheckEnvironment (env : Environment) : Status :=
  let host_size := block_size (host_allocator_config (block_manager_config_ env)) in
  let device_size := block_size (device_allocator_config (block_manager_config_ env)) in
  if negb (host_size =? device_size) then
    {| code := RET_INVALID_ARGUMENT;
       message := "block size of device and host is not equal, " +:+ pretty host_size
                  +:+ " vs " +:+ pretty device_size +:+ "." |}
  else Status_default.

(** [Environment::ParseConfig], lines 90-102: the global setting. *)
Definition ReadGlobalSetting (yaml_reader : YamlReader) : M Proc unit :=
  (let root := GetRootNode yaml_reader in
   assign_env (GetScalar_size_t root "setting.global.tensor_para_size" 1) set_tensor_parallel_size_ ;;
   assign_env (GetScalar_size_t root "setting.global.pipeline_para_size" 1)
     set_pipeline_parallel_size_ ;;
   assign_env (GetScalar_bool root "setting.global.enable_lora_adapter" false)
     set_enable_lora_adapter_ ;;
   assign_env (GetScalar_bool root "setting.global.embed_tokens_use_cpu" false)
     set_embed_tokens_use_cpu_ ;;
   env <- gets this ;;
   if negb ((pipeline_parallel_size_ env >? 0) && (tensor_parallel_size_ env >? 0)) then
     throw (runtime_error "tensor_para_size and pipeline_para_size should > 0")
   else ret tt)%cxx.

(** Lines 104-126: the batch scheduler config.  The two enumerations are
    kept by their integer value ([static_cast] of the [int] read). *)
Definition ReadBatchSchedulerConfig (yaml_reader : YamlReader) : M Proc unit :=
  (let root := GetRootNode yaml_reader in
   assign_env (GetScalar_int root "setting.batch_scheduler.schedule_strategy" 0)
     (fun v => assign_scheduler (set_schedule_strategy v)) ;;
   assign_env (GetScalar_size_t root "setting.batch_scheduler.waiting_timeout_in_ms" 600000)
     (fun v => assign_scheduler (set_waiting_timeout_in_ms v)) ;;
   assign_env (GetScalar_size_t root "setting.batch_scheduler.max_waiting_queue_len" 256)
     (fun v => assign_scheduler (set_max_waiting_queue_len v)) ;;
   assign_env (GetScalar_size_t root "setting.batch_scheduler.max_step_tokens" 4096)
     (fun v => assign_scheduler (set_max_step_tokens v)) ;;
   assign_env (GetScalar_size_t root "setting.batch_scheduler.max_batch_size" 8)
     (fun v => assign_scheduler (set_max_batch_size v)) ;;
   assign_env (GetScalar_size_t root "setting.batch_scheduler.max_token_len" 1024)
     (fun v => assign_scheduler (set_max_token_len v)) ;;
   assign_env (GetScalar_float root "setting.batch_scheduler.swapout_block_threshold" 1.0%Q)
     (fun v => assign_scheduler (set_swapout_block_threshold v)) ;;
   assign_env (GetScalar_float root "setting.batch_scheduler.swapin_block_threshold" 2.0%Q)
     (fun v => assign_scheduler (set_swapin_block_threshold v)) ;;
   assign_env (GetScalar_float root "setting.batch_scheduler.launch_block_threshold" 2.0%Q)
     (fun v => assign_scheduler (set_launch_block_threshold v)) ;;
   assign_env (GetScalar_size_t root "setting.batch_scheduler.swap_threadpool_size" 8)
     (fun v => assign_scheduler (set_swap_threadpool_size v)) ;;
   assign_env (GetScalar_int root "setting.batch_scheduler.preempt_mode" 0)
     (fun v => assign_scheduler (set_preempt_mode v)))%cxx.

(** The message of the warning of lines 149-151. *)
Definition prefix_cache_warning (prefix_cache_len block_token_num_ retrieved : Z) : string :=
  "prefix_cache_len " +:+ pretty prefix_cache_len +:+ " cannot round up block token num "
  +:+ pretty block_token_num_ +:+ " retrieve the prefix cache num to " +:+ pretty retrieved.

(** Lines 145-153: [prefix_cache_len] (an [int]) against the device
    [block_token_num] (a [size_t]).  The comparison and the division are
    unsigned; [std::floor] takes the quotient to [double], the product is a
    [double] and is converted back to [int]. *)
Definition AlignPrefixCacheLen (prefix_cache_len block_token_num_ : Z) : M Proc Z :=
  (if prefix_cache_len >? 0 then
     (r <- lift (cxx_rem (Cxx.to_size_t prefix_cache_len) block_token_num_) ;;
      if negb (r =? 0) then
        (q <- lift (cxx_div (Cxx.to_size_t prefix_cache_len) block_token_num_) ;;
         retrieve_prefix_ceche_len <-
           lift (double_to_int
                   (Cxx.double_mul (Cxx.floor_double (Cxx.double_of_Z q))
                      (Cxx.double_of_Z block_token_num_))) ;;
         log LOG_WARNING
           (prefix_cache_warning prefix_cache_len block_token_num_ retrieve_prefix_ceche_len) ;;
         ret retrieve_prefix_ceche_len)
      else ret prefix_cache_len)
   else ret prefix_cache_len)%cxx.

(** Lines 128-154: the block manager config. *)
Definition ReadBlockManagerConfig (yaml_reader : YamlReader) : M Proc unit :=
  (let root := GetRootNode yaml_reader in
   assign_env (GetScalar_size_t root "setting.block_manager.block_token_num" 16)
     (fun v => assign_host_allocator (set_block_token_num v)) ;;
   assign_env (GetScalar_size_t root "setting.block_manager.block_token_num" 16)
     (fun v => assign_device_allocator (set_block_token_num v)) ;;
   assign_env (GetScalar_float root "setting.block_manager.reserved_device_memory_ratio"
                 (Cxx.to_float 0.05%Q))
     (fun v => assign_block_manager (set_reserved_device_memory_ratio v)) ;;
   assign_env (GetScalar_float root "setting.block_manager.lora_deivce_memory_ratio" 0.0%Q)
     (fun v => assign_block_manager (set_lora_deivce_memory_ratio v)) ;;
   assign_env (GetScalar_float root "setting.block_manager.block_device_memory_ratio" (-1.0)%Q)
     (fun v => assign_block_manager (set_block_device_memory_ratio v)) ;;
   assign_env (GetScalar_float root "setting.block_manager.lora_host_memory_factor" 10.0%Q)
     (fun v => assign_block_manager (set_lora_host_memory_factor v)) ;;
   assign_env (GetScalar_float root "setting.block_manager.block_host_memory_factor" 10.0%Q)
     (fun v => assign_block_manager (set_block_host_memory_factor v)) ;;
   prefix_cache_len_ <- lift (GetScalar_int root "setting.block_manager.prefix_cache_len" 0) ;;
   env <- gets this ;;
   prefix_cache_len_ <-
     AlignPrefixCacheLen prefix_cache_len_
       (block_token_num (device_allocator_config (block_manager_config_ env))) ;;
   modify (fun p => set_this (assign_block_manager (set_prefix_cache_len prefix_cache_len_) (this p)) p))%cxx.

(** Lines 156-162: the profiler config. *)
Definition ReadProfilerConfig (yaml_reader : YamlReader) : M Proc unit :=
  (let root := GetRootNode yaml_reader in
   assign_env (GetScalar_size_t root "setting.profiler.stat_interval_second" 60)
     (fun v => assign_profiler (set_stat_interval_second v)) ;;
   assign_env (GetScalar_size_t root "setting.profiler.stat_buffer_size" 1024)
     (fun v => assign_profiler (set_stat_buffer_size v)) ;;
   assign_env (GetScalar_size_t root "setting.profiler.report_threadpool_size" 4)
     (fun v => assign_profiler (set_report_threadpool_size v)))%cxx.

(** Lines 172-179: the lora models are read and dropped. *)
Definition ReadLoraModels (yaml_reader : YamlReader) : M Proc unit :=
  (env <- gets this ;;
   if enable_lora_adapter_ env then
     for_each (fun node =>
                 (lora_model_name <- lift (GetScalar_string node "model_name" "") ;;
                  lora_model_dir <- lift (GetScalar_string node "model_dir" "") ;;
                  ret tt))
       (GetSequence yaml_reader "model_spec.lora_models")
   else ret tt)%cxx.

(** Lines 90-182: [ParseConfig] once the file is loaded. *)
Definition ParseLoadedConfig (yaml_reader : YamlReader) : M Proc Status :=
  (ReadGlobalSetting yaml_reader ;;
   ReadBatchSchedulerConfig yaml_reader ;;
   ReadBlockManagerConfig yaml_reader ;;
   ReadProfilerConfig yaml_reader ;;
   base_model_dir <-
     lift (GetScalar_string (GetRootNode yaml_reader) "model_spec.base_model.model_dir" "") ;;
   status <- ParseModelConfig base_model_dir ;;
   if negb (OK status) then ret status
   else
     (ReadLoraModels yaml_reader ;;
      InitializeBlockManagerConfig ;;
      env <- gets this ;;
      ret (CheckEnvironment env)))%cxx.

(** [Environment::ParseConfig] (lines 82-183). *)
Definition ParseConfig (config_file : string) : M Proc Status :=
  (let status := fst (LoadFile config_file) in
   let yaml_reader := snd (LoadFile config_file) in
   if negb (OK status) then
     (log LOG_ERROR ("Load yaml config error." +:+ message status) ;; ret status)
   else ParseLoadedConfig yaml_reader)%cxx.

(** The command line as gflags leaves it. *)
Record Flags : Type := { FLAGS_config_file : string; FLAGS_host : string; FLAGS_port : Z }.

(** [Environment::ParseOptions] (lines 219-236). *)
Definition ParseOptions (flags : Flags) : M Proc Status :=
  (modify (fun p => set_this (assign_endpoint (set_host (FLAGS_host flags)) (this p)) p) ;;
   modify (fun p => set_this (assign_endpoint (set_port (Cxx.to_uint32 (FLAGS_port flags))) (this p)) p) ;;
   modify (fun p => set_this (assign_endpoint (set_host (FLAGS_host flags)) (this p)) p) ;;
   modify (fun p => set_this (assign_endpoint (set_port (Cxx.to_uint32 (FLAGS_port flags))) (this p)) p) ;;
   status <- ParseConfig (FLAGS_config_file flags) ;;
   if negb (OK status) then
     (log LOG_ERROR ("Parse config file " +:+ FLAGS_config_file flags +:+ " error: "
                     +:+ message status) ;;
      ret status)
   else ret Status_default)%cxx.

End Code.

(** *** The getters (lines 271-304).  An output parameter is an argument
    with the value the caller's variable had and a result with the value it
    has afterwards. *)

(** [Environment::GetModelConfigs] (lines 271-274). *)
Definition GetModelConfigs (env : Environment) (model_configs : gmap string ModelConfig)
  : Status * gmap string ModelConfig :=
  (Status_default, model_configs_ env).

(** [Environment::GetModelConfig] (lines 276-284). *)
Definition GetModelConfig (env : Environment) (model_name : string) (model_config : ModelConfig)
  : Status * ModelConfig :=
  match model_configs_ env !! model_name with
  | None =>
      ({| code := RET_INVALID_ARGUMENT;
          message := "No model named " +:+ model_name +:+ " found." |}, model_config)
  | Some found => (Status_default, found)
  end.

(** [Environment::GetBatchManagerConfig] (lines 286-289). *)
Definition GetBatchManagerConfig (env : Environment) (batch_manager_config : BatchManagerConfig)
  : Status * BatchManagerConfig :=
  (Status_default, batch_manager_config_ env).

(** [Environment::GetBlockManagerConfig] (lines 291-294). *)
Definition GetBlockManagerConfig (env : Environment) (block_manager_config : BlockManagerConfig)
  : Status * BlockManagerConfig :=
  (Status_default, block_manager_config_ env).

(** [Environment::GetEndpointConfig] (lines 296-299). *)
Definition GetEndpointConfig (env : Environment) (endpoint_config : EndpointConfig)
  : Status * EndpointConfig :=
  (Status_default, endpoint_config_ env).

(** [Environment::GetProfilerConfig] (lines 301-304). *)
Definition GetProfilerConfig (env : Environment) (profiler_config : ProfilerConfig)
  : Status * ProfilerConfig :=
  (Status_default, profiler_config_ env).

(** The keys [PrepareModeAttirbutes] reads with [at]. *)
Definition required_model_keys : list string :=
  ["model_type"; "num_attention_heads"; "intermediate_size"; "vocab_size";
   "num_hidden_layers"; "hidden_size"].

(** *** The documented defaults (spec section 6) *)

Definition default_batch_scheduler_config : BatchSchedulerConfig :=
  {| schedule_strategy := 0;
     waiting_timeout_in_ms := 600000;
     max_waiting_queue_len := 256;
     max_step_tokens := 4096;
     max_batch_size := 8;
     max_token_len := 1024;
     swapout_block_threshold := 1.0%Q;
     swapin_block_threshold := 2.0%Q;
     launch_block_threshold := 2.0%Q;
     swap_threadpool_size := 8;
     preempt_mode := 0 |}.

(** The keys of the batch-scheduler options and of the block-geometry
    option. *)
Definition batch_scheduler_options : list string :=
  ["setting.batch_scheduler.schedule_strategy";
   "setting.batch_scheduler.waiting_timeout_in_ms";
   "setting.batch_scheduler.max_waiting_queue_len";
   "setting.batch_scheduler.max_step_tokens";
   "setting.batch_scheduler.max_batch_size";
   "setting.batch_scheduler.max_token_len";
   "setting.batch_scheduler.swapout_block_threshold";
   "setting.batch_scheduler.swapin_block_threshold";
   "setting.batch_scheduler.launch_block_threshold";
   "setting.batch_scheduler.swap_threadpool_size";
   "setting.batch_scheduler.preempt_mode"].

Definition block_geometry_options : list string :=
  ["setting.block_manager.block_token_num"].

(** A configuration file omits the options [keys]. *)
Definition omits (yaml_reader : YamlReader) (keys : list string) : Prop :=
  Forall (fun key => root_node yaml_reader !! key = None) keys.

(** The parts of the environment the claims speak of. *)
Definition scheduler_of (p : Proc) : BatchSchedulerConfig :=
  batch_scheduler_config (batch_manager_config_ (this p)).

Definition geometry_is (b : Z) (p : Proc) : Prop :=
  block_token_num (host_allocator_config (block_manager_config_ (this p))) = b
  /\ block_token_num (device_allocator_config (block_manager_config_ (this p))) = b.

Definition prefix_cache_len_of (p : Proc) : Z :=
  prefix_cache_len (block_manager_config_ (this p)).

Definition host_block_size (p : Proc) : Z :=
  block_size (host_allocator_config (block_manager_config_ (this p))).

Definition device_block_size (p : Proc) : Z :=
  block_size (device_allocator_config (block_manager_config_ (this p))).

(** The configuration file with its [prefix_cache_len] replaced. *)
Definition with_prefix_cache_len (v : Z) (yaml_reader : YamlReader) : YamlReader :=
  {| root_node := <["setting.block_manager.prefix_cache_len" := YInt v]> (root_node yaml_reader);
     sequences := sequences yaml_reader |}.

(** [token_size] of line 242, for the model config [InitializeBlockManagerConfig]
    picks. *)
Definition token_size_of (env : Environment) (model_config : ModelConfig) : Outcome Z :=
  (layers <~ cxx_div (Cxx.to_size_t (num_layer model_config)) (GetPipeLineParallelSize env) ;;
   heads <~ cxx_div (Cxx.to_size_t (num_key_value_heads model_config)) (GetTensorParallelSize env) ;;
   Ret (size_t_mul (size_t_mul layers heads) (Cxx.to_size_t (size_per_head model_config))))%cxx.

End Ksana.

(* ===================================================================== *)
(** ** numerous_llm/utils/environment.cpp and
       numerous_llm/layers/attention_layer.cpp *)
(* ===================================================================== *)

Module Numerous.

Local Set Primitive Projections.

(** *** utils/environment.cpp *)

(** The [INIReader] of 3rdparty/ini_reader.h, as the code uses it. *)
Record INIReader : Type := {
  ParseError : Z;
  Get : string -> string -> Outcome string
}.

(** The fields of [ModelConfig] that [ParseOptions] assigns. *)
Record ModelConfig : Type := { name : string; path : string }.

Record Environment : Type := { model_configs_ : list ModelConfig }.

Record Proc : Type := { this : Environment; streams : nat }.

Class World : Type := {
  (** the text behind the [n]-th file the process opens, [None] when it
      cannot be opened *)
  ifstream_open : nat -> string -> option string;
  (** [INIReader(path)], which opens the file itself *)
  INIReader_new : nat -> string -> INIReader
}.

Section Code.

Context `{W : World}.

(** [IsFileExists] (lines 20-23). *)
Definition IsFileExists (file_path : string) : M Proc bool :=
  fun p => (Ret (bool_decide (is_Some (ifstream_open (streams p) file_path))),
            {| this := this p; streams := S (streams p) |}, []).

Definition new_INIReader (file_path : string) : M Proc INIReader :=
  fun p => (Ret (INIReader_new (streams p) file_path),
            {| this := this p; streams := S (streams p) |}, []).

(** [Environment::ParseOptions] (lines 25-48); [FLAGS_model_config] is the
    flag as gflags leaves it. *)
Definition ParseOptions (FLAGS_model_config : string) : M Proc Status :=
  (exists_ <- IsFileExists FLAGS_model_config ;;
   if negb exists_ then
     (log LOG_ERROR ("Model config file: " +:+ FLAGS_model_config +:+ " is not exists.") ;;
      ret {| code := RET_SEGMENT_FAULT; message := "" |})
   else
     (ini_reader <- new_INIReader FLAGS_model_config ;;
      if ParseError ini_reader <? 0 then
        (log LOG_ERROR ("Load model config file: " +:+ FLAGS_model_config +:+ " error.") ;;
         ret {| code := RET_SEGMENT_FAULT; message := "" |})
      else
        (name_ <- lift (Get ini_reader "ft_instance_hyperparameter" "model_name") ;;
         let model_config := {| name := name_; path := FLAGS_model_config |} in
         modify (fun p => {| this := {| model_configs_ := model_configs_ (this p) ++ [model_config] |};
                             streams := streams p |}) ;;
         log LOG_INFO ("Load model " +:+ name model_config +:+ " from config file: "
                       +:+ path model_config +:+ " success.") ;;
         ret Status_default)))%cxx.

End Code.

(** [Environment::GetModelList] (lines 50-53). *)
Definition GetModelList (env : Environment) (model_configs : list ModelConfig)
  : Status * list ModelConfig :=
  (Status_default, model_configs_ env).

(** *** layers/attention_layer.cpp *)

(** [std::any] holding one of the parameter types of the layers. *)
Inductive any : Type :=
| any_int (z : Z)
| any_float (q : Q)
| any_bool (b : bool)
| any_empty.

(** [std::any_cast<const T>]. *)
Definition any_cast_int (a : any) : Outcome Z :=
  match a with any_int z => Ret z | _ => Throw bad_any_cast end.

Definition any_cast_float (a : any) : Outcome Q :=
  match a with any_float q => Ret q | _ => Throw bad_any_cast end.

Definition any_cast_bool (a : any) : Outcome bool :=
  match a with any_bool b => Ret b | _ => Throw bad_any_cast end.

(** [v[i]] on a [std::vector]: undefined out of range. *)
Definition vector_at {A : Type} (v : list A) (i : Z) : Outcome A :=
  if i <? 0 then Undefined
  else match v !! Z.to_nat i with
       | Some a => Ret a
       | None => Undefined
       end.

(** The [Context]: its memory-management streams, one per device. *)
Record Context : Type := { GetMemoryManageStreams : list Z }.

Record RotaryEmbeddingCuda : Type := {
  cos_sin_cache : Z;
  rotary_dim : Z;
  max_position : Z;
  base : Q;
  rope_head_size : Z;
  rope_num_heads : Z;
  rope_num_kv_heads : Z;
  is_neox : bool;
  stream : Z
}.


Record AttentionLayer : Type := {
  context_ : Context;
  rank_ : Z;
  layer_index_ : Z;
  max_position_embeddings_ : Z;
  num_heads_ : Z;
  num_kv_heads_ : Z;
  head_size_ : Z;
  cos_sin_cache_block_id_ : Z;
  rotary_embedding_cuda_ : option RotaryEmbeddingCuda;
  block_size_ : Z
}.

Definition set_context_ (v : Context) '(Build_AttentionLayer _ x1 x2 x3 x4 x5 x6 x7 x8 x9) : AttentionLayer :=
  Build_AttentionLayer v x1 x2 x3 x4 x5 x6 x7 x8 x9.
Definition set_rank_ (v : Z) '(Build_AttentionLayer x0 _ x2 x3 x4 x5 x6 x7 x8 x9) : AttentionLayer :=
  Build_AttentionLayer x0 v x2 x3 x4 x5 x6 x7 x8 x9.
Definition set_layer_index_ (v : Z) '(Build_AttentionLayer x0 x1 _ x3 x4 x5 x6 x7 x8 x9) : AttentionLayer :=
  Build_AttentionLayer x0 x1 v x3 x4 x5 x6 x7 x8 x9.
Definition set_max_position_embeddings_ (v : Z) '(Build_AttentionLayer x0 x1 x2 _ x4 x5 x6 x7 x8 x9) : AttentionLayer :=
  Build_AttentionLayer x0 x1 x2 v x4 x5 x6 x7 x8 x9.
Definition set_num_heads_ (v : Z) '(Build_AttentionLayer x0 x1 x2 x3 _ x5 x6 x7 x8 x9) : AttentionLayer :=
  Build_AttentionLayer x0 x1 x2 x3 v x5 x6 x7 x8 x9.
Definition set_num_kv_heads_ (v : Z) '(Build_AttentionLayer x0 x1 x2 x3 x4 _ x6 x7 x8 x9) : AttentionLayer :=
  Build_AttentionLayer x0 x1 x2 x3 x4 v x6 x7 x8 x9.
Definition set_head_size_ (v : Z) '(Build_AttentionLayer x0 x1 x2 x3 x4 x5 _ x7 x8 x9) : AttentionLayer :=
  Build_AttentionLayer x0 x1 x2 x3 x4 x5 v x7 x8 x9.
Definition set_cos_sin_cache_block_id_ (v : Z) '(Build_AttentionLayer x0 x1 x2 x3 x4 x5 x6 _ x8 x9) : AttentionLayer :=
  Build_AttentionLayer x0 x1 x2 x3 x4 x5 x6 v x8 x9.
Definition set_rotary_embedding_cuda_ (v : option RotaryEmbeddingCuda) '(Build_AttentionLayer x0 x1 x2 x3 x4 x5 x6 x7 _ x9) : AttentionLayer :=
  Build_AttentionLayer x0 x1 x2 x3 x4 x5 x6 x7 v x9.
Definition set_block_size_ (v : Z) '(Build_AttentionLayer x0 x1 x2 x3 x4 x5 x6 x7 x8 _) : AttentionLayer :=
  Build_AttentionLayer x0 x1 x2 x3 x4 x5 x6 x7 x8 v.

(** The block manager behind [GetBlockManager()].  Its implementation is
    not among the sources: the layer is verified against the interface.
    The last argument of [AllocateContiguous] and of [GetContiguousPtr] is
    a variable of the caller: the call takes the value the variable has
    ([None] for a pointer that was never written) and gives the value it
    has afterwards, which is the same value when the call does not write
    it. *)
Class BlockManagerInterface (BM : Type) : Type := {
  SetDeviceId : Z -> BM -> Status * BM;
  AllocateContiguous : Z -> Z -> BM -> Status * Z * BM;
  GetContiguousPtr : Z -> option Z -> BM -> Status * option Z * BM
}.

(** A request the layer sends to the block manager. *)
Inductive BlockManagerCall : Type :=
| CallSetDeviceId (device_id : Z)
| CallAllocateContiguous (size : Z)
| CallGetContiguousPtr (block_id : Z).

Definition is_AllocateContiguous (c : BlockManagerCall) : bool :=
  match c with CallAllocateContiguous _ => true | _ => false end.

(** The configuration the [Environment] singleton hands out. *)
Record AllocatorConfig : Type := { block_size : Z }.
Record BlockManagerConfig : Type := { device_allocator_config : AllocatorConfig }.

Section Layer.

Context {BM : Type} `{BlockManagerInterface BM}.

(** What [Init] works on: the layer, the block manager, and the requests
    sent to the block manager so far (oldest first). *)
Record InitState : Type := {
  layer : AttentionLayer;
  block_manager : BM;
  calls : list BlockManagerCall
}.

(** [cudaStreamSynchronize(stream)], by its error code. *)
Variable cudaStreamSynchronize : Z -> Z.

(** The macro [CUDA_CHECK(error)], which is not among the sources. *)
Variable CUDA_CHECK : Z -> Outcome unit.

(** [Singleton<Environment>::GetInstance()->GetBlockManagerConfig(..)] *)
Variable GetBlockManagerConfig : BlockManagerConfig.

(** [BaseLayer::Init] (base_layer.cpp is not among the sources). *)
Variable BaseLayer_Init : list any -> Context -> Z -> M InitState Status.

Definition on_layer (f : AttentionLayer -> AttentionLayer) : M InitState unit :=
  modify (fun s => {| layer := f (layer s); block_manager := block_manager s; calls := calls s |}).

Definition call_SetDeviceId (device_id : Z) : M InitState Status :=
  fun s =>
    let r := SetDeviceId device_id (block_manager s) in
    (Ret (fst r),
     {| layer := layer s; block_manager := snd r;
        calls := calls s ++ [CallSetDeviceId device_id] |}, []).

Definition call_AllocateContiguous (size block_id : Z) : M InitState (Status * Z) :=
  fun s =>
    let r := AllocateContiguous size block_id (block_manager s) in
    (Ret (fst r),
     {| layer := layer s; block_manager := snd r;
        calls := calls s ++ [CallAllocateContiguous size] |}, []).

Definition call_GetContiguousPtr (block_id : Z) (ptr : option Z)
  : M InitState (Status * option Z) :=
  fun s =>
    let r := GetContiguousPtr block_id ptr (block_manager s) in
    (Ret (fst r),
     {| layer := layer s; block_manager := snd r;
        calls := calls s ++ [CallGetContiguousPtr block_id] |}, []).

(** [CUDA_CHECK(cudaStreamSynchronize(context_->GetMemoryManageStreams()[rank_]))]. *)
Definition CUDA_CHECK_synchronize : M InitState unit :=
  (s <- get ;;
   stream_ <- lift (vector_at (GetMemoryManageStreams (context_ (layer s))) (rank_ (layer s))) ;;
   lift (CUDA_CHECK (cudaStreamSynchronize stream_)))%cxx.

(** The size computed at line 19,
    [rotary_dim * max_position_embeddings_ * sizeof(half)]: a [uint32_t]
    times an [int] is an unsigned 32-bit product, which is then widened to
    [size_t] for the product with [sizeof(half)]. *)
Definition total_bytes_of (rotary_dim max_position_embeddings : Z) : Z :=
  Cxx.to_size_t (Cxx.to_uint32 (rotary_dim * Cxx.to_uint32 max_position_embeddings) * Cxx.sizeof_half).

(** [AttentionLayer::Init] (lines 8-40). *)
Definition Init (parameters : list any) (context : Context) (rank : Z) : M InitState Status :=
  (BaseLayer_Init parameters context rank ;;
   let parameter_index := 0 in
   v <- lift (a <~ vector_at parameters parameter_index ;; any_cast_int a) ;;
   on_layer (set_layer_index_ v) ;;
   let parameter_index := parameter_index + 1 in
   v <- lift (a <~ vector_at parameters parameter_index ;; any_cast_int a) ;;
   on_layer (set_max_position_embeddings_ v) ;;
   let parameter_index := parameter_index + 1 in
   v <- lift (a <~ vector_at parameters parameter_index ;; any_cast_int a) ;;
   on_layer (set_num_heads_ v) ;;
   let parameter_index := parameter_index + 1 in
   v <- lift (a <~ vector_at parameters parameter_index ;; any_cast_int a) ;;
   on_layer (set_num_kv_heads_ v) ;;
   let parameter_index := parameter_index + 1 in
   v <- lift (a <~ vector_at parameters parameter_index ;; any_cast_int a) ;;
   on_layer (set_head_size_ v) ;;
   let parameter_index := parameter_index + 1 in
   v <- lift (a <~ vector_at parameters parameter_index ;; any_cast_int a) ;;
   let rotary_dim_ := Cxx.to_uint32 v in
   let parameter_index := parameter_index + 1 in
   base_ <- lift (a <~ vector_at parameters parameter_index ;; any_cast_float a) ;;
   let parameter_index := parameter_index + 1 in
   is_neox_ <- lift (a <~ vector_at parameters parameter_index ;; any_cast_bool a) ;;
   s <- get ;;
   let total_bytes := total_bytes_of rotary_dim_ (max_position_embeddings_ (layer s)) in
   call_SetDeviceId (rank_ (layer s)) ;;
   r <- call_AllocateContiguous total_bytes (cos_sin_cache_block_id_ (layer s)) ;;
   on_layer (set_cos_sin_cache_block_id_ (snd r)) ;;
   s <- get ;;
   r <- call_GetContiguousPtr (cos_sin_cache_block_id_ (layer s)) None ;;
   CUDA_CHECK_synchronize ;;
   cos_sin_cache_ptr <- lift (match snd r with
                              | Some ptr => Ret ptr
                              | None => Undefined
                              end) ;;
   s <- get ;;
   stream_ <- lift (vector_at (GetMemoryManageStreams (context_ (layer s))) (rank_ (layer s))) ;;
   on_layer (fun l =>
     set_rotary_embedding_cuda_
       (Some {| cos_sin_cache := cos_sin_cache_ptr; rotary_dim := rotary_dim_;
                max_position := max_position_embeddings_ l; base := base_;
                rope_head_size := head_size_ l; rope_num_heads := num_heads_ l;
                rope_num_kv_heads := num_kv_heads_ l; is_neox := is_neox_;
                stream := stream_ |}) l) ;;
   CUDA_CHECK_synchronize ;;
   let block_manager_config := GetBlockManagerConfig in
   on_layer (set_block_size_ (Cxx.to_int (block_size (device_allocator_config block_manager_config)))) ;;
   on_layer (set_block_size_ 64) ;;
   s <- get ;;
   log LOG_INFO ("layer_index_ " +:+ pretty (layer_index_ (layer s))
                 +:+ "; max_position_embeddings " +:+ pretty (max_position_embeddings_ (layer s))
                 +:+ "; block_size_ " +:+ pretty (block_size_ (layer s))) ;;
   ret Status_default)%cxx.

End Layer.

End Numerous.

(* ===================================================================== *)
(** ** ksana_llm/runtime/model_instance.cpp *)
(* ===================================================================== *)

Module ModelInstance.

Local Set Primitive Projections.

(** The three pairs of model and weight classes [Load] chooses from. *)
Inductive Architecture : Type := Llama | Qwen | Baichuan.

(** [s.find(needle) != std::string::npos]. *)
Definition contains (s needle : string) : bool :=
  match String.index 0 needle s with
  | Some _ => true
  | None => false
  end.

Section Code.

(** [BaseModel], [BaseWeight], [InferStage] and [ForwardRequest] are
    declared in headers that are not among the sources. *)
Context {BaseModel BaseWeight InferStage ForwardRequest : Type}.

(** A model instance: its config, its name, and the static vectors
    [models_] and [weights_]. *)
Record Instance : Type := {
  model_config_ : Ksana.ModelConfig;
  name : string;
  models_ : list BaseModel;
  weights_ : list BaseWeight
}.

Definition set_name (v : string) (i : Instance) : Instance :=
  {| model_config_ := model_config_ i; name := v;
     models_ := models_ i; weights_ := weights_ i |}.

(** The template [CreateModelInstance<Model, Weight>(name)] of
    model_instance.h, which is not among the sources. *)
Variable CreateModelInstance : Architecture -> string -> M Instance unit.

(** [ModelInstance::Load] (lines 28-48). *)
Definition Load : M Instance unit :=
  (this <- get ;;
   let unified_model_name := Cxx.transform_tolower (Ksana.name (model_config_ this)) in
   if contains unified_model_name "llama" then
     (modify (set_name "llama") ;; CreateModelInstance Llama unified_model_name)
   else if contains unified_model_name "qwen" then
     (modify (set_name "qwen") ;; CreateModelInstance Qwen unified_model_name)
   else if contains unified_model_name "baichuan" then
     (modify (set_name "baichuan") ;; CreateModelInstance Baichuan unified_model_name)
   else
     throw (runtime_error
              ("Unknown model type. Hint: if your model is llama, please let model name in "
               +:+ "config.ini contains 'llama' word (ignore upper case or lower case)")))%cxx.

(** [BaseModel::GetLogitsPtr]. *)
Variable Model_GetLogitsPtr : BaseModel -> Z.

(** [ModelInstance::GetLogitsPtr] (lines 50-56). *)
Definition GetLogitsPtr (this : Instance) : list Z :=
  foldl (fun results model => results ++ [Model_GetLogitsPtr model]) [] (models_ this).

(** [worker_group->GetWorker(worker_id)->Forward(model, weight, stage,
    forward_reqs)]: the worker may change the requests it is handed by
    reference. *)
Variable Worker_Forward :
  Z -> BaseModel -> BaseWeight -> InferStage -> M (list ForwardRequest) Status.

(** The loop of lines 61-64, [remaining] iterations from [worker_id] on. *)
Fixpoint Forward_loop (this : Instance) (stage : InferStage) (remaining : nat) (worker_id : Z)
    (results : list Status) : M (list ForwardRequest) (list Status) :=
  match remaining with
  | O => ret results
  | S remaining' =>
      (model <- lift (Numerous.vector_at (models_ this) worker_id) ;;
       weight <- lift (Numerous.vector_at (weights_ this) worker_id) ;;
       status <- Worker_Forward worker_id model weight stage ;;
       Forward_loop this stage remaining' (worker_id + 1) (results ++ [status]))%cxx
  end.

(** [ModelInstance::Forward] (lines 58-66); [tensor_parallel_size] is
    [context_->GetTensorParallelSize()]. *)
Definition Forward (this : Instance) (tensor_parallel_size : Z) (stage : InferStage)
  : M (list ForwardRequest) (list Status) :=
  Forward_loop this stage (Z.to_nat tensor_parallel_size) 0 [].

End Code.

End ModelInstance.

(* ===================================================================== *)
(** ** The block manager (spec sections 3, 4.1 and 4.2)

    The block pool and the block manager are not among the sources; the
    definitions of this module follow the written specification. *)
(* ===================================================================== *)

Module BlockManagerSpec.

(** Modelled from the spec: [BlockId], an opaque integer handle into a
    tier's block pool (the block manager sources are missing). *)
Definition BlockId : Type := nat.

(** Modelled from the spec: [MemoryTier], enum {DEVICE, HOST}. *)
Inductive MemoryTier : Type := DEVICE | HOST.

(** Modelled from the spec: the content of one block, a fixed-size run of
    bytes of KV-cache storage. *)
Definition BlockContent : Type := list Byte.byte.

(** Modelled from the spec: the recoverable failure of section 7 next to
    success. *)
Inductive SwapStatus : Type := SWAP_OK | OUT_OF_MEMORY.

(** Modelled from the spec: the Block Pool of section 4.1, a fixed-capacity
    free list of block ids for one tier. *)
Record BlockPool : Type := {
  Capacity : nat;
  free_list : list BlockId
}.

(** Modelled from the spec: [Available()]. *)
Definition Available (p : BlockPool) : nat := length (free_list p).

(** Modelled from the spec: [Allocate() -> BlockId | OUT_OF_MEMORY] removes
    one id from the free list and fails when the pool is exhausted. *)
Definition Allocate (p : BlockPool) : option (BlockId * BlockPool) :=
  match free_list p with
  | [] => None
  | b :: rest => Some (b, {| Capacity := Capacity p; free_list := rest |})
  end.

(** Modelled from the spec: [Free(BlockId)] returns an id to the free list
    and does nothing when the id is already free. *)
Definition Free (b : BlockId) (p : BlockPool) : BlockPool :=
  if bool_decide (b ∈ free_list p) then p
  else {| Capacity := Capacity p; free_list := b :: free_list p |}.

(** Modelled from the spec: freeing every block of a table. *)
Definition FreeAll (bs : list BlockId) (p : BlockPool) : BlockPool :=
  foldr Free p bs.

(** Modelled from the spec: the Block Manager of section 4.2 owns the pools
    of both tiers; the memory of a tier maps a block id to the content
    written to it (the allocator capability of section 6 does the copies). *)
Record BlockManager : Type := {
  device_pool : BlockPool;
  host_pool : BlockPool;
  device_memory : gmap BlockId BlockContent;
  host_memory : gmap BlockId BlockContent
}.

(** Modelled from the spec: the part of a [Request] the swap operations
    touch, its BlockTable (an ordered sequence of block ids) and the tier
    the table refers to. *)
Record Request : Type := {
  request_id : nat;
  block_table : list BlockId;
  tier : MemoryTier
}.

(** Modelled from the spec: [CopyDeviceToHost] / [CopyHostToDevice] of the
    allocator capability, content of block [src] into block [dst]. *)
Definition Copy (src_memory : gmap BlockId BlockContent) (src : BlockId)
    (dst_memory : gmap BlockId BlockContent) (dst : BlockId) : gmap BlockId BlockContent :=
  match src_memory !! src with
  | Some content => <[dst := content]> dst_memory
  | None => delete dst dst_memory
  end.

(** Modelled from the spec: the copy phase of a swap.  Every block of the
    table is copied to a newly allocated block of the destination tier.
    When the destination pool runs out partway, the blocks allocated so far
    are given back and the failure is reported ([None]). *)
Fixpoint copy_blocks (table : list BlockId) (src_memory : gmap BlockId BlockContent)
    (dst_pool : BlockPool) (dst_memory : gmap BlockId BlockContent)
  : option (list BlockId) * BlockPool * gmap BlockId BlockContent :=
  match table with
  | [] => (Some [], dst_pool, dst_memory)
  | src :: rest =>
      match Allocate dst_pool with
      | None => (None, dst_pool, dst_memory)
      | Some (dst, pool1) =>
          let memory1 := Copy src_memory src dst_memory dst in
          match copy_blocks rest src_memory pool1 memory1 with
          | (Some dsts, pool2, memory2) => (Some (dst :: dsts), pool2, memory2)
          | (None, pool2, memory2) => (None, Free dst pool2, memory2)
          end
      end
  end.

(** Modelled from the spec: [SwapOut(Request&) -> Status] copies every block
    content from DEVICE to newly allocated HOST blocks, rewrites the
    BlockTable to reference the HOST blocks and frees the DEVICE blocks; it
    fails with [OUT_OF_MEMORY] when the host capacity is insufficient and
    then leaves the BlockTable unchanged. *)
Definition SwapOut (bm : BlockManager) (req : Request) : SwapStatus * BlockManager * Request :=
  match copy_blocks (block_table req) (device_memory bm) (host_pool bm) (host_memory bm) with
  | (Some host_blocks, host_pool1, host_memory1) =>
      (SWAP_OK,
       {| device_pool := FreeAll (block_table req) (device_pool bm);
          host_pool := host_pool1;
          device_memory := device_memory bm;
          host_memory := host_memory1 |},
       {| request_id := request_id req; block_table := host_blocks; tier := HOST |})
  | (None, host_pool1, host_memory1) =>
      (OUT_OF_MEMORY,
       {| device_pool := device_pool bm;
          host_pool := host_pool1;
          device_memory := device_memory bm;
          host_memory := host_memory1 |},
       req)
  end.

(** Modelled from the spec: [SwapIn(Request&) -> Status], the inverse of
    [SwapOut]; it fails the same way when the DEVICE capacity is
    insufficient, and the request then remains swapped. *)
Definition SwapIn (bm : BlockManager) (req : Request) : SwapStatus * BlockManager * Request :=
  match copy_blocks (block_table req) (host_memory bm) (device_pool bm) (device_memory bm) with
  | (Some device_blocks, device_pool1, device_memory1) =>
      (SWAP_OK,
       {| device_pool := device_pool1;
          host_pool := FreeAll (block_table req) (host_pool bm);
          device_memory := device_memory1;
          host_memory := host_memory bm |},
       {| request_id := request_id req; block_table := device_blocks; tier := DEVICE |})
  | (None, device_pool1, device_memory1) =>
      (OUT_OF_MEMORY,
       {| device_pool := device_pool1;
          host_pool := host_pool bm;
          device_memory := device_memory1;
          host_memory := host_memory bm |},
       req)
  end.

(** Modelled from the spec: the memory of the tier a request's table refers
    to. *)
Definition memory_of (bm : BlockManager) (t : MemoryTier) : gmap BlockId BlockContent :=
  match t with
  | DEVICE => device_memory bm
  | HOST => host_memory bm
  end.

(** Modelled from the spec: the cache content of a request, the content of
    the blocks of its table, in table order. *)
Definition cache_content (bm : BlockManager) (req : Request) : list (option BlockContent) :=
  map (fun b => memory_of bm (tier req) !! b) (block_table req).

(** Modelled from the spec: a block id is unique within a tier while
    allocated, so no id occurs twice in a free list. *)
Definition pool_wf (p : BlockPool) : Prop := NoDup (free_list p).

End BlockManagerSpec.

(* ===================================================================== *)
(** ** Concrete inputs *)
(* ===================================================================== *)

Module Examples.

(** A llama-style config.json, with the data type in mixed case. *)
Definition llama_config_json : Ksana.Json :=
  Ksana.JObject
    [("model_type", Ksana.JString "llama");
     ("num_attention_heads", Ksana.JInt 32);
     ("intermediate_size", Ksana.JInt 11008);
     ("vocab_size", Ksana.JInt 32000);
     ("num_hidden_layers", Ksana.JInt 32);
     ("hidden_size", Ksana.JInt 4096);
     ("torch_dtype", Ksana.JString "Float16")].

(** A configuration file that sets [prefix_cache_len] to 17 and the model
    directory, and nothing else. *)
Definition yaml_prefix_17 : Ksana.YamlReader :=
  {| Ksana.root_node :=
       <["setting.block_manager.prefix_cache_len" := Ksana.YInt 17]>
         (<["model_spec.base_model.model_dir" := Ksana.YString "/models/llama"]> ∅);
     Ksana.sequences := ∅ |}.

Definition zero_model_config : Ksana.ModelConfig :=
  Ksana.Build_ModelConfig "" "" "" Ksana.TYPE_FP16 0 0 0 0 0 0 0 0%Q 0%Q 0 0 0 0
    (Ksana.Build_RoPEScalingFactor "" 0%Q) 0 0 0 0 0 0.

(** [std::filesystem::absolute] on a machine where every path given is
    absolute already; the empty path is refused, as libstdc++ does. *)
Definition absolute_or_throw (path : string) : Outcome string :=
  if String.eqb path "" then Throw filesystem_error else Ret path.

(** A machine on which /models/llama/config.json is the llama config. *)
Definition llama_world : Ksana.World :=
  {| Ksana.ENABLE_BFLOAT16 := false;
     Ksana.fs_absolute := absolute_or_throw;
     Ksana.ifstream_open := fun _ path =>
       if String.eqb path "/models/llama/config.json" then Some "llama"%string else None;
     Ksana.json_parse := fun text =>
       if String.eqb text "llama" then Some llama_config_json else None;
     Ksana.LoadFile := fun _ => (Status_default, yaml_prefix_17);
     Ksana.GetTypeSize := fun _ => 2;
     Ksana.unordered_map_begin := fun m => snd <$> head (map_to_list m);
     Ksana.ModelConfig_default := zero_model_config;
     Ksana.fmt_float := fun _ => ""%string;
     Ksana.NLLM_CHECK_WITH_INFO := fun condition info =>
       if condition then Ret tt else Throw (check_failed info) |}.

(** The same machine without the model directory. *)
Definition empty_disk_world : Ksana.World :=
  {| Ksana.ENABLE_BFLOAT16 := false;
     Ksana.fs_absolute := absolute_or_throw;
     Ksana.ifstream_open := fun _ _ => None;
     Ksana.json_parse := fun _ => None;
     Ksana.LoadFile := fun _ => (Status_default, yaml_prefix_17);
     Ksana.GetTypeSize := fun _ => 2;
     Ksana.unordered_map_begin := fun m => snd <$> head (map_to_list m);
     Ksana.ModelConfig_default := zero_model_config;
     Ksana.fmt_float := fun _ => ""%string;
     Ksana.NLLM_CHECK_WITH_INFO := fun condition info =>
       if condition then Ret tt else Throw (check_failed info) |}.

Definition zero_allocator_config : Ksana.AllocatorConfig :=
  Ksana.Build_AllocatorConfig 0 0 0 Ksana.MEMORY_HOST.

(** An environment before any configuration is read. *)
Definition zero_environment : Ksana.Environment :=
  Ksana.Build_Environment 0 0 false false
    (Ksana.Build_BatchManagerConfig
       (Ksana.Build_BatchSchedulerConfig 0 0 0 0 0 0 0%Q 0%Q 0%Q 0 0))
    (Ksana.Build_BlockManagerConfig zero_allocator_config zero_allocator_config
       0%Q 0%Q 0%Q 0%Q 0%Q 0)
    (Ksana.Build_ProfilerConfig 0 0 0)
    (Ksana.Build_EndpointConfig "" 0)
    ∅.

Definition fresh_process : Ksana.Proc :=
  {| Ksana.this := zero_environment; Ksana.streams := 0 |}.

(** An environment whose tiers disagree on the block size. *)
Definition mismatched_environment : Ksana.Environment :=
  Ksana.assign_host_allocator (Ksana.set_block_size 4096)
    (Ksana.assign_device_allocator (Ksana.set_block_size 8192) zero_environment).

(** numerous_llm on a machine without ./config.ini. *)
Definition numerous_empty_disk : Numerous.World :=
  {| Numerous.ifstream_open := fun _ _ => None;
     Numerous.INIReader_new := fun _ _ =>
       {| Numerous.ParseError := -1; Numerous.Get := fun _ _ => Ret ""%string |} |}.

Definition numerous_fresh_process : Numerous.Proc :=
  {| Numerous.this := {| Numerous.model_configs_ := [] |}; Numerous.streams := 0 |}.

(** A block manager that numbers its contiguous allocations and keeps their
    sizes. *)
Definition recording_block_manager : Numerous.BlockManagerInterface (list Z) :=
  {| Numerous.SetDeviceId := fun _ bm => (Status_default, bm);
     Numerous.AllocateContiguous := fun size block_id bm =>
       (Status_default, Z.of_nat (length bm), bm ++ [size]);
     Numerous.GetContiguousPtr := fun block_id ptr bm =>
       (Status_default, Some block_id, bm) |}.

(** The parameters of a llama-7b attention layer: layer 0, 2048 positions,
    32 heads, 32 kv heads, head size 128, rotary dimension 128, base 10000,
    neox style. *)
Definition llama_layer_parameters : list Numerous.any :=
  [Numerous.any_int 0; Numerous.any_int 2048; Numerous.any_int 32; Numerous.any_int 32;
   Numerous.any_int 128; Numerous.any_int 128; Numerous.any_float 10000.0%Q;
   Numerous.any_bool true].

Definition one_stream_context : Numerous.Context :=
  {| Numerous.GetMemoryManageStreams := [7] |}.

Definition blank_layer : Numerous.AttentionLayer :=
  Numerous.Build_AttentionLayer {| Numerous.GetMemoryManageStreams := [] |}
    0 0 0 0 0 0 0 None 0.

Definition layer_start : @Numerous.InitState (list Z) :=
  {| Numerous.layer := blank_layer; Numerous.block_manager := []; Numerous.calls := [] |}.

(** A base-class initialisation that keeps the context and the rank. *)
Definition keep_context_and_rank (parameters : list Numerous.any) (context : Numerous.Context)
    (rank : Z) : M (@Numerous.InitState (list Z)) Status :=
  fun s =>
    (Ret Status_default,
     {| Numerous.layer :=
          Numerous.set_rank_ rank (Numerous.set_context_ context (Numerous.layer s));
        Numerous.block_manager := Numerous.block_manager s;
        Numerous.calls := Numerous.calls s |}, []).

(** CUDA calls that succeed, and a check that raises on any other code. *)
Definition cuda_success (stream : Z) : Z := 0.

Definition raise_on_cuda_error (error : Z) : Outcome unit :=
  if error =? 0 then Ret tt else Throw cuda_error.

(** The environment of the layer is configured with blocks of 8388608
    bytes. *)
Definition configured_block_size : Numerous.BlockManagerConfig :=
  {| Numerous.device_allocator_config := {| Numerous.block_size := 8388608 |} |}.

(** A block manager with two device blocks held by one request, two free
    device blocks and three free host blocks. *)
Definition two_block_manager : BlockManagerSpec.BlockManager :=
  {| BlockManagerSpec.device_pool :=
       {| BlockManagerSpec.Capacity := 4; BlockManagerSpec.free_list := [2; 3]%nat |};
     BlockManagerSpec.host_pool :=
       {| BlockManagerSpec.Capacity := 3; BlockManagerSpec.free_list := [0; 1; 2]%nat |};
     BlockManagerSpec.device_memory :=
       <[0%nat := [Byte.x01; Byte.x02]]> (<[1%nat := [Byte.x03; Byte.x04]]> ∅);
     BlockManagerSpec.host_memory := ∅ |}.

Definition two_block_request : BlockManagerSpec.Request :=
  {| BlockManagerSpec.request_id := 1;
     BlockManagerSpec.block_table := [0; 1]%nat;
     BlockManagerSpec.tier := BlockManagerSpec.DEVICE |}.

(** The state after the swap-out once another request has taken the two
    device blocks the swap-out freed. *)
Definition after_another_allocation (bm : BlockManagerSpec.BlockManager)
  : BlockManagerSpec.BlockManager :=
  {| BlockManagerSpec.device_pool :=
       {| BlockManagerSpec.Capacity := 4; BlockManagerSpec.free_list := [2; 3]%nat |};
     BlockManagerSpec.host_pool := BlockManagerSpec.host_pool bm;
     BlockManagerSpec.device_memory := BlockManagerSpec.device_memory bm;
     BlockManagerSpec.host_memory := BlockManagerSpec.host_memory bm |}.

(** A configuration file whose [prefix_cache_len] is a multiple of the
    default [block_token_num]. *)
Definition yaml_prefix_32 : Ksana.YamlReader :=
  {| Ksana.root_node :=
       <["setting.block_manager.prefix_cache_len" := Ksana.YInt 32]>
         (<["model_spec.base_model.model_dir" := Ksana.YString "/models/llama"]> ∅);
     Ksana.sequences := ∅ |}.

(** The llama machine with that configuration file. *)
Definition llama_world_32 : Ksana.World :=
  {| Ksana.ENABLE_BFLOAT16 := false;
     Ksana.fs_absolute := absolute_or_throw;
     Ksana.ifstream_open := fun _ path =>
       if String.eqb path "/models/llama/config.json" then Some "llama"%string else None;
     Ksana.json_parse := fun text =>
       if String.eqb text "llama" then Some llama_config_json else None;
     Ksana.LoadFile := fun _ => (Status_default, yaml_prefix_32);
     Ksana.GetTypeSize := fun _ => 2;
     Ksana.unordered_map_begin := fun m => snd <$> head (map_to_list m);
     Ksana.ModelConfig_default := zero_model_config;
     Ksana.fmt_float := fun _ => ""%string;
     Ksana.NLLM_CHECK_WITH_INFO := fun condition info =>
       if condition then Ret tt else Throw (check_failed info) |}.

(** The llama machine with another configuration file. *)
Definition llama_world_with (yaml_reader : Ksana.YamlReader) : Ksana.World :=
  {| Ksana.ENABLE_BFLOAT16 := false;
     Ksana.fs_absolute := absolute_or_throw;
     Ksana.ifstream_open := fun _ path =>
       if String.eqb path "/models/llama/config.json" then Some "llama"%string else None;
     Ksana.json_parse := fun text =>
       if String.eqb text "llama" then Some llama_config_json else None;
     Ksana.LoadFile := fun _ => (Status_default, yaml_reader);
     Ksana.GetTypeSize := fun _ => 2;
     Ksana.unordered_map_begin := fun m => snd <$> head (map_to_list m);
     Ksana.ModelConfig_default := zero_model_config;
     Ksana.fmt_float := fun _ => ""%string;
     Ksana.NLLM_CHECK_WITH_INFO := fun condition info =>
       if condition then Ret tt else Throw (check_failed info) |}.

(** A configuration file that sets [prefix_cache_len] to 17 and
    [block_token_num] to 0. *)
Definition yaml_prefix_17_block_0 : Ksana.YamlReader :=
  {| Ksana.root_node :=
       <["setting.block_manager.prefix_cache_len" := Ksana.YInt 17]>
         (<["setting.block_manager.block_token_num" := Ksana.YInt 0]>
            (<["model_spec.base_model.model_dir" := Ksana.YString "/models/llama"]> ∅));
     Ksana.sequences := ∅ |}.

(** A configuration file that names no model directory. *)
Definition yaml_without_model_dir : Ksana.YamlReader :=
  {| Ksana.root_node := ∅; Ksana.sequences := ∅ |}.

(** The parameters of an attention layer with 33554432 positions. *)
Definition long_context_layer_parameters : list Numerous.any :=
  [Numerous.any_int 0; Numerous.any_int 33554432; Numerous.any_int 32; Numerous.any_int 32;
   Numerous.any_int 128; Numerous.any_int 128; Numerous.any_float 10000.0%Q;
   Numerous.any_bool true].

(** The llama config with rms_norm_eps 1e-5, as the llama-2 models have
    it. *)
Definition llama2_config_fields : list (string * Ksana.Json) :=
  [("model_type", Ksana.JString "llama");
   ("num_attention_heads", Ksana.JInt 32);
   ("intermediate_size", Ksana.JInt 11008);
   ("vocab_size", Ksana.JInt 32000);
   ("num_hidden_layers", Ksana.JInt 32);
   ("hidden_size", Ksana.JInt 4096);
   ("rms_norm_eps", Ksana.JFloat 1e-5%Q)].

(** A config.json with both keys of the normalisation epsilon. *)
Definition neox_config_fields (hidden_size : Z) (rms_norm_eps : Q)
  : list (string * Ksana.Json) :=
  [("model_type", Ksana.JString "gpt_neox");
   ("num_attention_heads", Ksana.JInt 32);
   ("intermediate_size", Ksana.JInt 11008);
   ("vocab_size", Ksana.JInt 32000);
   ("num_hidden_layers", Ksana.JInt 32);
   ("hidden_size", Ksana.JInt hidden_size);
   ("rms_norm_eps", Ksana.JFloat rms_norm_eps);
   ("layer_norm_epsilon", Ksana.JFloat 0.5%Q)].

(** A command line that names the port -1. *)
Definition flags_port_minus_one : Ksana.Flags :=
  {| Ksana.FLAGS_config_file := "ksana_llm.yaml"; Ksana.FLAGS_host := "0.0.0.0";
     Ksana.FLAGS_port := -1 |}.

(** numerous_llm on a machine whose ./config.ini names the model llama-7b
    and has a syntax error on its third line. *)
Definition numerous_ini_world : Numerous.World :=
  {| Numerous.ifstream_open := fun _ path =>
       if String.eqb path "./config.ini" then Some "ini"%string else None;
     Numerous.INIReader_new := fun _ _ =>
       {| Numerous.ParseError := 3;
          Numerous.Get := fun section key =>
            if String.eqb section "ft_instance_hyperparameter" && String.eqb key "model_name"
            then Ret "llama-7b"%string else Ret ""%string |} |}.

(** A block manager that refuses to allocate and leaves the block id as it
    is, and that answers every id with the address 4096 and a failure
    status. *)
Definition refusing_block_manager : Numerous.BlockManagerInterface (list Z) :=
  {| Numerous.SetDeviceId := fun _ bm =>
       ({| code := RET_OTHER 1; message := "no device" |}, bm);
     Numerous.AllocateContiguous := fun size block_id bm =>
       ({| code := RET_OTHER 2; message := "out of memory" |}, block_id, bm);
     Numerous.GetContiguousPtr := fun block_id ptr bm =>
       ({| code := RET_OTHER 3; message := "no such block" |}, Some 4096, bm) |}.

(** A block manager that refuses every request and writes nothing. *)
Definition silent_refusing_block_manager : Numerous.BlockManagerInterface (list Z) :=
  {| Numerous.SetDeviceId := fun _ bm =>
       ({| code := RET_OTHER 1; message := "no device" |}, bm);
     Numerous.AllocateContiguous := fun size block_id bm =>
       ({| code := RET_OTHER 2; message := "out of memory" |}, block_id, bm);
     Numerous.GetContiguousPtr := fun block_id ptr bm =>
       ({| code := RET_OTHER 3; message := "no such block" |}, ptr, bm) |}.

(** A layer parameter list whose third entry is a float. *)
Definition mistyped_layer_parameters : list Numerous.any :=
  [Numerous.any_int 0; Numerous.any_int 2048; Numerous.any_float 32.0%Q; Numerous.any_int 32;
   Numerous.any_int 128; Numerous.any_int 128; Numerous.any_float 10000.0%Q;
   Numerous.any_bool true].

(** A model instance whose config is named after two architectures, with
    two models and two weights (kept by their numbers). *)
Definition mixed_name_instance : @ModelInstance.Instance Z Z :=
  {| ModelInstance.model_config_ := Ksana.set_name "Qwen-LLaMA-mix" zero_model_config;
     ModelInstance.name := "";
     ModelInstance.models_ := [10; 11];
     ModelInstance.weights_ := [20; 21] |}.

(** An instance whose config has the name of a default-constructed
    string. *)
Definition unnamed_instance : @ModelInstance.Instance Z Z :=
  {| ModelInstance.model_config_ := zero_model_config;
     ModelInstance.name := "";
     ModelInstance.models_ := [];
     ModelInstance.weights_ := [] |}.

(** A [CreateModelInstance] that adds one model and one weight. *)
Definition create_one (architecture : ModelInstance.Architecture) (model_name : string)
  : M (@ModelInstance.Instance Z Z) unit :=
  modify (fun i =>
            {| ModelInstance.model_config_ := ModelInstance.model_config_ i;
               ModelInstance.name := ModelInstance.name i;
               ModelInstance.models_ := ModelInstance.models_ i ++ [0];
               ModelInstance.weights_ := ModelInstance.weights_ i ++ [0] |}).

(** Workers of which the first fails; each records its model on the
    requests. *)
Definition first_worker_fails (worker_id model weight : Z) (stage : unit)
  : M (list Z) Status :=
  fun forward_reqs =>
    (Ret (if worker_id =? 0 then {| code := RET_OTHER 1; message := "failed" |}
          else Status_default),
     forward_reqs ++ [model], []).

End Examples.

(* ===================================================================== *)
(** ** Reasoning about computations *)
(* ===================================================================== *)

Section MonadLaws.

Context {S : Type}.

Lemma bind_Ret_inv {A B : Type} (m : M S A) (f : A -> M S B) s b s2 l :
  bind m f s = (Ret b, s2, l) ->
  exists a s1 l1 l2, m s = (Ret a, s1, l1) /\ f a s1 = (Ret b, s2, l2) /\ l = l1 ++ l2.
Proof.
  unfold bind. destruct (m s) as [[[a | e |] s1] l1]; try discriminate.
  destruct (f a s1) as [[o s2'] l2] eqn:Hf. intros [= -> -> <-].
  exists a, s1, l1, l2. auto.
Qed.

Lemma bind_Ret {A B : Type} (m : M S A) (f : A -> M S B) s a s1 l1 :
  m s = (Ret a, s1, l1) ->
  bind m f s = (outcome_of (f a s1), state_of (f a s1), l1 ++ log_of (f a s1)).
Proof.
  intros Hm. unfold bind. rewrite Hm. destruct (f a s1) as [[o s2] l2]. reflexivity.
Qed.

Lemma run_bind {A B : Type} (m : M S A) (f : A -> M S B) s :
  run (bind m f) s =
  match run m s with
  | (Ret a, s1) => run (f a) s1
  | (Throw e, s1) => (Throw e, s1)
  | (Undefined, s1) => (Undefined, s1)
  end.
Proof.
  unfold run, bind, outcome_of, state_of.
  destruct (m s) as [[[a | e |] s1] l1]; simpl; try reflexivity.
  destruct (f a s1) as [[o s2] l2]. reflexivity.
Qed.

Lemma run_bind_cong_l {A B : Type} (m1 m2 : M S A) (f : A -> M S B) s :
  run m1 s = run m2 s -> run (bind m1 f) s = run (bind m2 f) s.
Proof. intros Hm. rewrite !run_bind, Hm. reflexivity. Qed.

Lemma run_bind_cong_r {A B : Type} (m : M S A) (f1 f2 : A -> M S B) s :
  (forall a s1 l1, m s = (Ret a, s1, l1) -> run (f1 a) s1 = run (f2 a) s1) ->
  run (bind m f1) s = run (bind m f2) s.
Proof.
  intros Hf. rewrite !run_bind. unfold run at 1 3, outcome_of, state_of.
  destruct (m s) as [[[a | e |] s1] l1] eqn:Hm; simpl; eauto.
Qed.

Lemma hoare_conseq {A : Type} (P P' : S -> Prop) (Q Q' : A -> S -> list LogEntry -> Prop) m :
  hoare P' m Q' -> (forall s, P s -> P' s) -> (forall a s l, Q' a s l -> Q a s l) ->
  hoare P m Q.
Proof. unfold hoare. eauto. Qed.

Lemma hoare_bind {A B : Type} (P : S -> Prop) (Q : A -> S -> list LogEntry -> Prop)
    (R : B -> S -> list LogEntry -> Prop) (m : M S A) (f : A -> M S B) :
  hoare P m Q ->
  (forall a l1, hoare (fun s => Q a s l1) (f a) (fun b s l2 => R b s (l1 ++ l2))) ->
  hoare P (bind m f) R.
Proof.
  intros Hm Hf s b s2 l HP Hrun.
  apply bind_Ret_inv in Hrun as (a & s1 & l1 & l2 & H1 & H2 & ->).
  eapply Hf; [eapply Hm |]; eauto.
Qed.

Lemma hoare_ret {A : Type} (P : S -> Prop) (a : A) :
  hoare P (ret a) (fun a' s l => a' = a /\ P s /\ l = []).
Proof. intros s a' s' l HP [= <- <- <-]. auto. Qed.

Lemma hoare_lift {A : Type} (P : S -> Prop) (o : Outcome A) :
  hoare P (lift o) (fun a s l => o = Ret a /\ P s /\ l = []).
Proof. intros s a s' l HP [= -> <- <-]. auto. Qed.

Lemma hoare_get (P : S -> Prop) :
  hoare P get (fun a s l => a = s /\ P s /\ l = []).
Proof. intros s a s' l HP [= <- <- <-]. auto. Qed.

Lemma hoare_gets {A : Type} (P : S -> Prop) (f : S -> A) :
  hoare P (gets f) (fun a s l => a = f s /\ P s /\ l = []).
Proof. intros s a s' l HP [= <- <- <-]. auto. Qed.

Lemma hoare_modify (P : S -> Prop) (f : S -> S) :
  hoare P (modify f) (fun _ s l => (exists s0, P s0 /\ s = f s0) /\ l = []).
Proof. intros s a s' l HP [= <- <- <-]. eauto. Qed.

Lemma hoare_log (P : S -> Prop) lvl msg :
  hoare P (log lvl msg) (fun _ s l => P s /\ l = [(lvl, msg)]).
Proof. intros s a s' l HP [= <- <- <-]. auto. Qed.

Lemma hoare_throw {A : Type} (P : S -> Prop) e (Q : A -> S -> list LogEntry -> Prop) :
  hoare P (throw e) Q.
Proof. intros s a s' l HP. discriminate. Qed.

Lemma stable_bind {A B : Type} (I : S -> Prop) (m : M S A) (f : A -> M S B) :
  stable I m -> (forall a, stable I (f a)) -> stable I (bind m f).
Proof.
  intros Hm Hf. eapply hoare_bind; [exact Hm |].
  intros a l1 s b s' l HI Hrun. eapply (Hf a); eauto.
Qed.

Lemma stable_ret {A : Type} (I : S -> Prop) (a : A) : stable I (ret a).
Proof. intros s a' s' l HI [= <- <- <-]. auto. Qed.

Lemma stable_lift {A : Type} (I : S -> Prop) (o : Outcome A) : stable I (lift o).
Proof. intros s a' s' l HI [= _ <- _]. auto. Qed.

Lemma stable_throw {A : Type} (I : S -> Prop) e : stable I (throw (A := A) e).
Proof. apply hoare_throw. Qed.

Lemma stable_get (I : S -> Prop) : stable I get.
Proof. intros s a' s' l HI [= _ <- _]. auto. Qed.

Lemma stable_gets {A : Type} (I : S -> Prop) (f : S -> A) : stable I (gets f).
Proof. intros s a' s' l HI [= _ <- _]. auto. Qed.

Lemma stable_log (I : S -> Prop) lvl msg : stable I (log lvl msg).
Proof. intros s a' s' l HI [= _ <- _]. auto. Qed.

Lemma stable_modify (I : S -> Prop) (f : S -> S) :
  (forall s, I s -> I (f s)) -> stable I (modify f).
Proof. intros Hf s a' s' l HI [= _ <- _]. auto. Qed.

Lemma stable_for_each {A : Type} (I : S -> Prop) (f : A -> M S unit) (xs : list A) :
  (forall a, stable I (f a)) -> stable I (for_each f xs).
Proof.
  intros Hf. induction xs as [| x xs IH]; simpl.
  - apply stable_ret.
  - apply stable_bind; auto.
Qed.

Lemma stable_if {A : Type} (I : S -> Prop) (b : bool) (m1 m2 : M S A) :
  stable I m1 -> stable I m2 -> stable I (if b then m1 else m2).
Proof. destruct b; auto. Qed.

End MonadLaws.

Create HintDb stable discriminated.
#[export] Hint Resolve stable_ret stable_lift stable_throw stable_get stable_gets stable_log
  stable_if : stable.

(* ===================================================================== *)
(** ** ksana_llm: the environment *)
(* ===================================================================== *)

Module KsanaFacts.

Import Ksana.

(** *** [CheckEnvironment] *)

Lemma CheckEnvironment_equal (env : Environment) :
  block_size (host_allocator_config (block_manager_config_ env))
  = block_size (device_allocator_config (block_manager_config_ env)) ->
  CheckEnvironment env = Status_default.
Proof. intros Hsz. unfold CheckEnvironment. rewrite Hsz, Z.eqb_refl. reflexivity. Qed.

Lemma CheckEnvironment_unequal (env : Environment) :
  block_size (host_allocator_config (block_manager_config_ env))
  <> block_size (device_allocator_config (block_manager_config_ env)) ->
  code (CheckEnvironment env) = RET_INVALID_ARGUMENT.
Proof.
  intros Hsz. unfold CheckEnvironment. apply Z.eqb_neq in Hsz. rewrite Hsz. reflexivity.
Qed.

(** Claim C2.  [CheckEnvironment] compares the block size of the host tier
    with the block size of the device tier: when they differ it returns a
    status that is not OK and carries [RET_INVALID_ARGUMENT]; when they are
    equal it returns the OK status. *)
Theorem C2_CheckEnvironment_block_size (env : Environment) :
  let host_size := block_size (host_allocator_config (block_manager_config_ env)) in
  let device_size := block_size (device_allocator_config (block_manager_config_ env)) in
  (host_size <> device_size ->
     code (CheckEnvironment env) = RET_INVALID_ARGUMENT /\ OK (CheckEnvironment env) = false)
  /\ (host_size = device_size ->
     CheckEnvironment env = Status_default /\ OK (CheckEnvironment env) = true).
Proof.
  intros host_size device_size. split; intros Hsz.
  - split.
    + apply CheckEnvironment_unequal. exact Hsz.
    + unfold OK. rewrite CheckEnvironment_unequal by exact Hsz. reflexivity.
  - rewrite CheckEnvironment_equal by exact Hsz. split; reflexivity.
Qed.

(** *** [GetModelDataType] *)

Lemma GetModelDataType_string `{World} fields s :
  json_find "torch_dtype" fields = Some (JString s) ->
  GetModelDataType (JObject fields) =
    if String.eqb (Cxx.transform_tolower s) "float16" then Ret TYPE_FP16
    else if String.eqb (Cxx.transform_tolower s) "bfloat16" then
      (if ENABLE_BFLOAT16 then Ret TYPE_BF16 else Ret TYPE_FP16)
    else Throw (runtime_error "Not supported model data type.").
Proof. intros Hfind. unfold GetModelDataType, json_value. rewrite Hfind. reflexivity. Qed.

(** Claim C10.  [GetModelDataType] reads [torch_dtype] with the default
    "float16" for an absent key and compares it in lower case: "float16" in
    any letter case gives [TYPE_FP16], and so does "bfloat16" in a build
    without bfloat16 support (with the support it gives [TYPE_BF16]); any
    other string makes it throw [std::runtime_error] (its result type has
    no [Status]). *)
Theorem C10_GetModelDataType `{World} (fields : list (string * Json)) :
  (json_find "torch_dtype" fields = None ->
     GetModelDataType (JObject fields) = Ret TYPE_FP16)
  /\ (forall s, json_find "torch_dtype" fields = Some (JString s) ->
        (Cxx.transform_tolower s = "float16" ->
           GetModelDataType (JObject fields) = Ret TYPE_FP16)
        /\ (Cxx.transform_tolower s = "bfloat16" -> ENABLE_BFLOAT16 = false ->
           GetModelDataType (JObject fields) = Ret TYPE_FP16)
        /\ (Cxx.transform_tolower s = "bfloat16" -> ENABLE_BFLOAT16 = true ->
           GetModelDataType (JObject fields) = Ret TYPE_BF16)
        /\ (Cxx.transform_tolower s <> "float16" -> Cxx.transform_tolower s <> "bfloat16" ->
           GetModelDataType (JObject fields) =
             Throw (runtime_error "Not supported model data type."))).
Proof.
  split.
  - intros Hfind. unfold GetModelDataType, json_value. rewrite Hfind. reflexivity.
  - intros s Hfind. rewrite (GetModelDataType_string _ _ Hfind).
    repeat split.
    + intros ->. reflexivity.
    + intros -> ->. reflexivity.
    + intros -> ->. reflexivity.
    + intros Hf Hb. apply String.eqb_neq in Hf, Hb. rewrite Hf, Hb. reflexivity.
Qed.

End KsanaFacts.

(* ===================================================================== *)
(** ** numerous_llm: the attention layer *)
(* ===================================================================== *)

Module NumerousFacts.

Import Numerous.

Ltac bind_inv H :=
  let a := fresh "a" in
  let s := fresh "s" in
  let l1 := fresh "l" in
  let l2 := fresh "l" in
  let Hm := fresh "Hm" in
  let Hl := fresh "Hl" in
  apply bind_Ret_inv in H; destruct H as (a & s & l1 & l2 & Hm & H & Hl).

Lemma parameter_int_inv (parameters : list any) (i v : Z) :
  0 <= i ->
  outcome_bind (vector_at parameters i) any_cast_int = Ret v ->
  parameters !! Z.to_nat i = Some (any_int v).
Proof.
  intros Hi. unfold vector_at.
  destruct (i <? 0) eqn:Hneg; [lia |].
  destruct (parameters !! Z.to_nat i) as [[z | q | b |] |]; simpl; congruence.
Qed.

(** *** [ParseOptions] *)

Lemma ParseOptions_missing `{World} (FLAGS_model_config : string) (p : Proc) :
  ifstream_open (streams p) FLAGS_model_config = None ->
  ParseOptions FLAGS_model_config p
  = (Ret {| code := RET_SEGMENT_FAULT; message := "" |},
     {| this := this p; streams := S (streams p) |},
     [(LOG_ERROR, "Model config file: " +:+ FLAGS_model_config +:+ " is not exists.")]).
Proof.
  intros Hopen. unfold ParseOptions.
  assert (Hex : IsFileExists FLAGS_model_config p
                = (Ret false, {| this := this p; streams := S (streams p) |}, [])).
  { unfold IsFileExists. rewrite Hopen.
    rewrite bool_decide_eq_false_2 by (intros [x Hx]; discriminate). reflexivity. }
  rewrite (bind_Ret _ _ _ _ _ _ Hex). reflexivity.
Qed.

Lemma ParseOptions_parse_error `{World} (FLAGS_model_config : string) (p : Proc) text :
  ifstream_open (streams p) FLAGS_model_config = Some text ->
  ParseError (INIReader_new (S (streams p)) FLAGS_model_config) < 0 ->
  outcome_of (ParseOptions FLAGS_model_config p)
  = Ret {| code := RET_SEGMENT_FAULT; message := "" |}.
Proof.
  intros Hopen Herr. unfold ParseOptions.
  assert (Hex : IsFileExists FLAGS_model_config p
                = (Ret true, {| this := this p; streams := S (streams p) |}, [])).
  { unfold IsFileExists. rewrite Hopen. rewrite bool_decide_eq_true_2 by eauto. reflexivity. }
  rewrite (bind_Ret _ _ _ _ _ _ Hex). cbv beta. change (negb true) with false. cbv iota.
  apply Z.ltb_lt in Herr.
  unfold outcome_of, bind, new_INIReader. simpl. rewrite Herr. reflexivity.
Qed.

Section Layer.

Context {BM : Type} `{BlockManagerInterface BM}.
Variable cudaStreamSynchronize : Z -> Z.
Variable CUDA_CHECK : Z -> Outcome unit.
Variable GetBlockManagerConfig : BlockManagerConfig.
Variable BaseLayer_Init : list any -> Context -> Z -> M (@InitState BM) Status.

Implicit Types (s : @InitState BM) (parameters : list any) (context : Context) (rank : Z).

Abbreviation AttentionLayer_Init :=
  (Init cudaStreamSynchronize CUDA_CHECK GetBlockManagerConfig BaseLayer_Init).

Ltac exec_in H :=
  cbv - [vector_at any_cast_int any_cast_float any_cast_bool outcome_bind total_bytes_of
         Cxx.to_uint32 Cxx.to_int pretty String.append app Z.add fst snd] in H.

Ltac stuck_outcome H :=
  match type of H with
  | context [match ?x with Ret _ => _ | Throw _ => _ | Undefined => _ end] =>
      lazymatch x with
      | context [match _ with _ => _ end] => fail
      | _ => destruct x eqn:?; try discriminate H
      end
  | context [match ?x with Some _ => _ | None => _ end] =>
      lazymatch x with
      | context [match _ with _ => _ end] => fail
      | _ => destruct x eqn:?; try discriminate H
      end
  end.

(** Every returning run of [Init]: the state [BaseLayer::Init] left, what
    was read from the parameters, what was asked of the block manager
    afterwards, and the block size the layer ends with. *)
Lemma Init_returns_inv parameters context rank s st s' lg :
  AttentionLayer_Init parameters context rank s = (Ret st, s', lg) ->
  exists st0 base lg0 max_position rotary block_id,
    BaseLayer_Init parameters context rank s = (Ret st0, base, lg0)
    /\ parameters !! 1%nat = Some (any_int max_position)
    /\ parameters !! 5%nat = Some (any_int rotary)
    /\ calls s' = calls base ++ [CallSetDeviceId (rank_ (layer base));
                                 CallAllocateContiguous
                                   (total_bytes_of (Cxx.to_uint32 rotary) max_position);
                                 CallGetContiguousPtr block_id]
    /\ block_size_ (layer s') = 64
    /\ st = Status_default.
Proof.
  intros Hrun. unfold Init in Hrun.
  bind_inv Hrun. rename Hm into Hbase.
  destruct s0 as [[ctx rk li mp nh nkv hs cid rot bs] bm cs].
  exec_in Hrun.
  repeat (stuck_outcome Hrun; cbv beta iota in Hrun).
  injection Hrun as <- <- _.
  match goal with
  | H1 : outcome_bind (vector_at parameters (0 + 1)) _ = Ret ?mp,
    H5 : outcome_bind (vector_at parameters (0 + 1 + 1 + 1 + 1 + 1)) _ = Ret ?rd |- _ =>
      apply parameter_int_inv in H1; [| lia];
      apply parameter_int_inv in H5; [| lia];
      eexists _, _, _, mp, rd, _
  end.
  split; [exact Hbase |]. split; [eassumption |]. split; [eassumption |].
  split; [| split; reflexivity].
  cbn [calls layer rank_]. rewrite <- !app_assoc. reflexivity.
Qed.

(** [Init] returns on every well-typed parameter list, when the base class
    returns, the rank it kept names a stream of the context it kept, the
    synchronisations pass the check, and [GetContiguousPtr] writes the
    pointer it is asked for. *)
Lemma Init_returns layer_index max_position num_heads num_kv_heads head_size rotary base_
    is_neox_ rest context rank stream_ s st0 base lg0 :
  let parameters :=
    any_int layer_index :: any_int max_position :: any_int num_heads
    :: any_int num_kv_heads :: any_int head_size :: any_int rotary
    :: any_float base_ :: any_bool is_neox_ :: rest in
  BaseLayer_Init parameters context rank s = (Ret st0, base, lg0) ->
  0 <= rank_ (layer base) ->
  GetMemoryManageStreams (context_ (layer base)) !! Z.to_nat (rank_ (layer base))
  = Some stream_ ->
  CUDA_CHECK (cudaStreamSynchronize stream_) = Ret tt ->
  (forall block_id bm, is_Some (snd (fst (GetContiguousPtr block_id None bm)))) ->
  outcome_of (AttentionLayer_Init parameters context rank s) = Ret Status_default.
Proof.
  intros parameters Hbase Hrank Hstream Hsync Hptr.
  assert (Hvec : vector_at (GetMemoryManageStreams (context_ (layer base))) (rank_ (layer base))
                 = Ret stream_).
  { unfold vector_at. apply Z.ltb_ge in Hrank. rewrite Hrank, Hstream. reflexivity. }
  unfold Init. rewrite (bind_Ret _ _ _ _ _ _ Hbase).
  destruct base as [[ctx rk li mp nh nkv hs cid rot bs] bm cs].
  unfold outcome_of, parameters.
  cbv - [vector_at any_cast_int any_cast_float any_cast_bool outcome_bind total_bytes_of
         Cxx.to_uint32 Cxx.to_int pretty String.append app Z.add fst snd
         SetDeviceId AllocateContiguous GetContiguousPtr].
  repeat match goal with
         | |- context [outcome_bind (vector_at (?x :: ?l) ?i) ?f] =>
             let t := constr:(outcome_bind (vector_at (x :: l) i) f) in
             let r := eval cbv in t in
             change t with r; cbv beta iota
         end.
  cbv - [vector_at] in Hvec.
  match goal with
  | |- context [GetContiguousPtr ?block_id None ?bm'] =>
      destruct (Hptr block_id bm') as [ptr Hwritten]; rewrite Hwritten
  end.
  repeat (rewrite ?Hvec, ?Hsync; cbv beta iota).
  reflexivity.
Qed.

Lemma total_bytes_of_exact rotary max_position :
  0 <= rotary -> 0 <= max_position -> rotary * max_position < 2 ^ 32 ->
  total_bytes_of (Cxx.to_uint32 rotary) max_position = rotary * max_position * Cxx.sizeof_half.
Proof.
  intros Hr Hm Hlt. unfold total_bytes_of, Cxx.to_uint32, Cxx.to_size_t, Cxx.wrap, Cxx.sizeof_half.
  rewrite <- Z.mul_mod by lia.
  rewrite (Z.mod_small (rotary * max_position)) by nia.
  apply Z.mod_small. nia.
Qed.

(** The product of the rotary dimension and the position count is taken in
    32 bits: 65536 positions of dimension 65536 ask for no byte at all. *)
Lemma total_bytes_of_wraps : total_bytes_of (Cxx.to_uint32 65536) 65536 = 0.
Proof. reflexivity. Qed.

(** When the product of the rotary dimension and the position count does
    not fit 32 bits, fewer bytes are asked for than the product times
    [sizeof(half)]. *)
Lemma total_bytes_of_short rotary_dim max_position :
  0 <= max_position -> 2 ^ 32 <= rotary_dim * max_position ->
  total_bytes_of rotary_dim max_position < rotary_dim * max_position * Cxx.sizeof_half.
Proof.
  intros Hm Hover.
  unfold total_bytes_of, Cxx.to_uint32, Cxx.to_size_t, Cxx.wrap, Cxx.sizeof_half.
  pose proof (Z.mod_pos_bound (rotary_dim * (max_position mod 2 ^ 32)) (2 ^ 32) ltac:(lia))
    as Hwrapped.
  rewrite Z.mod_small by lia. lia.
Qed.

(** Claim C5.  A run of [AttentionLayer::Init] that returns has sent the
    block manager, after the initialisation of the base class, exactly
    three requests, of which exactly one is an [AllocateContiguous]; its
    size is the value that line 19 computes from the sixth and the second
    parameter, the same for every block manager and every state of it.
    Line 19 multiplies the [uint32_t] rotary dimension by the position
    count in 32 bits: the size is the product [rotary_dim *
    max_position_embeddings * sizeof(half)] of the claim when [rotary_dim *
    max_position_embeddings] fits 32 bits, and it is less than that product
    as soon as [rotary_dim * max_position_embeddings] reaches 2^32 (128
    times 33554432 asks for no byte at all). *)
Theorem C5_rotary_cache_single_allocation parameters context rank s st :
  outcome_of (AttentionLayer_Init parameters context rank s) = Ret st ->
  let base := state_of (BaseLayer_Init parameters context rank s) in
  let final := state_of (AttentionLayer_Init parameters context rank s) in
  exists max_position rotary block_id,
    parameters !! 1%nat = Some (any_int max_position)
    /\ parameters !! 5%nat = Some (any_int rotary)
    /\ calls final
       = calls base ++ [CallSetDeviceId (rank_ (layer base));
                        CallAllocateContiguous (total_bytes_of (Cxx.to_uint32 rotary) max_position);
                        CallGetContiguousPtr block_id]
    /\ filter is_AllocateContiguous (drop (length (calls base)) (calls final))
       = [CallAllocateContiguous (total_bytes_of (Cxx.to_uint32 rotary) max_position)]
    /\ (0 <= rotary -> 0 <= max_position -> rotary * max_position < 2 ^ 32 ->
        total_bytes_of (Cxx.to_uint32 rotary) max_position
        = rotary * max_position * Cxx.sizeof_half)
    /\ (0 <= max_position -> 2 ^ 32 <= Cxx.to_uint32 rotary * max_position ->
        total_bytes_of (Cxx.to_uint32 rotary) max_position
        < Cxx.to_uint32 rotary * max_position * Cxx.sizeof_half).
Proof.
  intros Hret base final. subst base final.
  destruct (AttentionLayer_Init parameters context rank s) as [[o s'] lg] eqn:Hrun.
  unfold outcome_of in Hret. simpl in Hret. subst o.
  apply Init_returns_inv in Hrun
    as (st0 & base & lg0 & mp & rd & id & Hbase & H1 & H5 & Hcalls & _ & _).
  rewrite Hbase. exists mp, rd, id. unfold state_of. simpl.
  repeat split; try assumption.
  - rewrite Hcalls, drop_app_length. reflexivity.
  - apply total_bytes_of_exact.
  - apply total_bytes_of_short.
Qed.

(** Claim C9.  Whenever [AttentionLayer::Init] returns, [block_size_] is 64,
    whatever block size the configuration of the environment carries: the
    configured value is assigned and overwritten by the next statement. *)
Theorem C9_block_size_is_64 parameters context rank s st :
  outcome_of (AttentionLayer_Init parameters context rank s) = Ret st ->
  block_size_ (layer (state_of (AttentionLayer_Init parameters context rank s))) = 64.
Proof.
  intros Hret.
  destruct (AttentionLayer_Init parameters context rank s) as [[o s'] lg] eqn:Hrun.
  unfold outcome_of in Hret. simpl in Hret. subst o.
  apply Init_returns_inv in Hrun as (st0 & base & lg0 & mp & rd & id & _ & _ & _ & _ & Hsize & _).
  exact Hsize.
Qed.

End Layer.
End NumerousFacts.

(* ===================================================================== *)
(** ** ksana_llm: [ParseConfig] *)
(* ===================================================================== *)

Module ParseConfigFacts.

Import Ksana.

Ltac bind_inv H :=
  let a := fresh "a" in
  let s := fresh "s" in
  let l1 := fresh "l" in
  let l2 := fresh "l" in
  let Hm := fresh "Hm" in
  let Hl := fresh "Hl" in
  apply bind_Ret_inv in H; destruct H as (a & s & l1 & l2 & Hm & H & Hl).

Ltac tuple_inv :=
  repeat match goal with
         | Heq : (_, _, _) = (_, _, _) |- _ => injection Heq as ? ? ?
         end;
  repeat match goal with
         | Heq : _ = ?v |- _ =>
             is_var v;
             lazymatch type of v with
             | Proc => subst v
             | Environment => subst v
             | list LogEntry => subst v
             | unit => clear Heq
             end
         end.

(** *** Steps that keep a predicate on the environment *)

Section Stable.

Context `{W : World}.
Variable I : Proc -> Prop.

Lemma stable_assign_env {A : Type} (o : Outcome A) (set : A -> Environment -> Environment) :
  (forall v p, I p -> I (set_this (set v (this p)) p)) -> stable I (assign_env o set).
Proof.
  intros Hset. unfold assign_env. apply stable_bind; [apply stable_lift |].
  intros v. apply stable_modify. auto.
Qed.

Hypothesis I_streams : forall n p, I p -> I (set_streams n p).

Lemma stable_IsFileExists file_path : stable I (IsFileExists file_path).
Proof. intros s a s' l HI [= _ <- _]. auto. Qed.

Lemma stable_open_ifstream file_path : stable I (open_ifstream file_path).
Proof. intros s a s' l HI [= _ <- _]. auto. Qed.

Lemma stable_with_local {L A : Type} (m : M L A) (l0 : L) :
  stable I (with_local (S := Proc) m l0).
Proof.
  intros s a s' l HI. unfold with_local.
  destruct (m l0) as [[[x | e |] l'] lg]; intros [= _ <- _]; auto.
Qed.

Hypothesis I_model_configs :
  forall m p, I p -> I (set_this (set_model_configs_ m (this p)) p).

Lemma stable_ParseModelConfig model_dir : stable I (ParseModelConfig model_dir).
Proof.
  unfold ParseModelConfig.
  apply stable_bind; [apply stable_lift | intros abs_model_dir_path].
  apply stable_bind; [apply stable_IsFileExists | intros ex].
  destruct ex; simpl; [| apply stable_ret].
  apply stable_bind; [apply stable_open_ifstream | intros [text |]].
  - repeat (apply stable_bind; [| intros ?]);
      auto using stable_lift, stable_gets, stable_with_local, stable_log, stable_ret.
    apply stable_modify. auto.
  - apply stable_bind; [apply stable_log | intros _; apply stable_ret].
Qed.

Lemma stable_ReadLoraModels yaml_reader : stable I (ReadLoraModels yaml_reader).
Proof.
  unfold ReadLoraModels. apply stable_bind; [apply stable_gets | intros env].
  destruct (enable_lora_adapter_ env); [| apply stable_ret].
  apply stable_for_each. intros node.
  repeat (apply stable_bind; [| intros ?]); auto using stable_lift, stable_ret.
Qed.

End Stable.

Ltac stable_auto :=
  repeat first
    [ apply stable_ret | apply stable_lift | apply stable_throw | apply stable_gets
    | apply stable_get | apply stable_log
    | apply stable_ParseModelConfig; [intros ? ? Hinv; exact Hinv | intros ? ? Hinv; exact Hinv]
    | apply stable_ReadLoraModels
    | apply stable_assign_env; intros ? ? Hinv; exact Hinv
    | apply stable_modify; intros ? Hinv; exact Hinv
    | match goal with |- stable _ (if ?b then _ else _) => destruct b end
    | match goal with |- stable _ (match ?x with _ => _ end) => destruct x end
    | apply stable_bind; [| intros ?] ].

(** *** Defaults of the batch scheduler and of the block geometry *)

Section Defaults.

Context `{W : World}.

Lemma ReadBatchSchedulerConfig_defaults yaml_reader p u p' lg :
  omits yaml_reader batch_scheduler_options ->
  ReadBatchSchedulerConfig yaml_reader p = (Ret u, p', lg) ->
  scheduler_of p' = default_batch_scheduler_config.
Proof.
  unfold omits, batch_scheduler_options. intros Homit.
  repeat match goal with
         | Hf : Forall _ (_ :: _) |- _ => apply Forall_cons in Hf; destruct Hf as [? Hf]
         end.
  unfold ReadBatchSchedulerConfig, GetScalar_int, GetScalar_size_t, GetScalar_float, GetRootNode.
  repeat match goal with
         | Hk : root_node yaml_reader !! _ = None |- _ => rewrite Hk; clear Hk
         end.
  cbv [bind assign_env lift modify]. simpl. intros [= _ <- _]. reflexivity.
Qed.

Lemma stable_AlignPrefixCacheLen (I : Proc -> Prop) prefix_cache_len_ block_token_num_ :
  stable I (AlignPrefixCacheLen prefix_cache_len_ block_token_num_).
Proof. unfold AlignPrefixCacheLen. stable_auto. Qed.

Lemma ReadBlockManagerConfig_geometry yaml_reader b d :
  GetScalar_size_t (GetRootNode yaml_reader) "setting.block_manager.block_token_num" 16 = Ret b ->
  hoare (fun p => scheduler_of p = d) (ReadBlockManagerConfig yaml_reader)
    (fun _ p _ => scheduler_of p = d /\ geometry_is b p).
Proof.
  intros Hb p u p' lg Hd Hrun. unfold ReadBlockManagerConfig in Hrun.
  rewrite Hb in Hrun.
  bind_inv Hrun. bind_inv Hrun.
  cbv [bind assign_env lift modify] in Hm, Hm0. tuple_inv.
  revert Hrun.
  match goal with
  | |- ?m ?s = _ -> _ =>
      assert (Hst : stable (fun p => scheduler_of p = d /\ geometry_is b p) m)
  end.
  { stable_auto. apply stable_AlignPrefixCacheLen. }
  intros Hrun. eapply Hst; [| exact Hrun].
  split; [exact Hd | split; reflexivity].
Qed.

Lemma stable_ReadProfilerConfig (I : Proc -> Prop) yaml_reader :
  (forall f p, I p -> I (set_this (assign_profiler f (this p)) p)) ->
  stable I (ReadProfilerConfig yaml_reader).
Proof.
  intros HI. unfold ReadProfilerConfig.
  assert (Hstep : forall (o : Outcome Z) (set : Z -> ProfilerConfig -> ProfilerConfig),
             stable I (assign_env o (fun v => assign_profiler (set v)))).
  { intros o set. apply stable_assign_env. intros. apply HI. assumption. }
  apply stable_bind; [apply Hstep | intros _].
  apply stable_bind; [apply Hstep | intros _].
  apply Hstep.
Qed.

Lemma token_size_of_intro env model_config layers heads :
  cxx_div (Cxx.to_size_t (num_layer model_config)) (GetPipeLineParallelSize env) = Ret layers ->
  cxx_div (Cxx.to_size_t (num_key_value_heads model_config)) (GetTensorParallelSize env)
  = Ret heads ->
  token_size_of env model_config
  = Ret (size_t_mul (size_t_mul layers heads) (Cxx.to_size_t (size_per_head model_config))).
Proof. intros Hl Hh. unfold token_size_of. rewrite Hl. simpl. rewrite Hh. reflexivity. Qed.

Lemma InitializeBlockManagerConfig_inv p u p' lg :
  InitializeBlockManagerConfig p = (Ret u, p', lg) ->
  exists model_config token_size,
    unordered_map_begin (model_configs_ (this p)) = Some model_config
    /\ token_size_of (this p) model_config = Ret token_size
    /\ host_block_size p'
       = size_t_mul (size_t_mul (size_t_mul token_size
                                   (block_token_num (device_allocator_config
                                                       (block_manager_config_ (this p))))) 2)
           (GetTypeSize TYPE_FP16)
    /\ device_block_size p' = host_block_size p'
    /\ scheduler_of p' = scheduler_of p
    /\ prefix_cache_len_of p' = prefix_cache_len_of p
    /\ (forall b, geometry_is b p -> geometry_is b p').
Proof.
  unfold InitializeBlockManagerConfig. intros Hrun.
  repeat bind_inv Hrun.
  cbv [gets lift modify ret] in *. tuple_inv.
  destruct (unordered_map_begin (model_configs_ (this p))) as [model_config |] eqn:Hbegin;
    [| discriminate].
  match goal with Hc : Ret _ = Ret _ |- _ => injection Hc as <- end.
  exists model_config. eexists. split; [reflexivity |].
  split; [eapply token_size_of_intro; eassumption |].
  repeat split; try reflexivity; destruct H as [? ?]; assumption.
Qed.

Lemma stable_InitializeBlockManagerConfig x b :
  stable (fun p => scheduler_of p = x /\ geometry_is b p) InitializeBlockManagerConfig.
Proof.
  intros p u p' lg [Hx Hb] Hrun.
  apply InitializeBlockManagerConfig_inv in Hrun
    as (mc & ts & _ & _ & _ & _ & Hs & _ & Hg).
  split; [congruence | auto].
Qed.

Lemma ParseConfig_loaded config_file :
  OK (fst (LoadFile config_file)) = true ->
  ParseConfig config_file = ParseLoadedConfig (snd (LoadFile config_file)).
Proof. intros Hok. unfold ParseConfig. cbv zeta. rewrite Hok. reflexivity. Qed.

Lemma ParseConfig_not_loaded config_file p :
  OK (fst (LoadFile config_file)) = false ->
  outcome_of (ParseConfig config_file p) = Ret (fst (LoadFile config_file))
  /\ state_of (ParseConfig config_file p) = p.
Proof. intros Hok. unfold ParseConfig. cbv zeta. rewrite Hok. split; reflexivity. Qed.

(** Claim C3.  When the loaded configuration file omits the batch-scheduler
    options and [block_token_num], every run of [ParseConfig] that returns a
    status leaves the documented defaults in the environment:
    schedule_strategy 0, waiting_timeout_in_ms 600000, max_waiting_queue_len
    256, max_step_tokens 4096, max_batch_size 8, max_token_len 1024,
    swapout_block_threshold 1.0, swapin_block_threshold 2.0,
    launch_block_threshold 2.0, swap_threadpool_size 8, preempt_mode 0, and
    block_token_num 16 in the host and in the device allocator config. *)
Theorem C3_documented_defaults config_file p st :
  OK (fst (LoadFile config_file)) = true ->
  omits (snd (LoadFile config_file)) (batch_scheduler_options ++ block_geometry_options) ->
  outcome_of (ParseConfig config_file p) = Ret st ->
  scheduler_of (state_of (ParseConfig config_file p)) = default_batch_scheduler_config
  /\ geometry_is 16 (state_of (ParseConfig config_file p)).
Proof.
  intros Hok Homit Hret. unfold omits in Homit.
  apply Forall_app in Homit as [Hsched Hgeom].
  rewrite (ParseConfig_loaded _ Hok) in *.
  set (yaml_reader := snd (LoadFile config_file)) in *.
  destruct (ParseLoadedConfig yaml_reader p) as [[o p'] lg] eqn:Hrun.
  unfold outcome_of in Hret. simpl in Hret. subst o. unfold state_of. simpl.
  unfold ParseLoadedConfig in Hrun.
  do 3 bind_inv Hrun.
  pose proof (ReadBatchSchedulerConfig_defaults _ _ _ _ _ Hsched Hm0) as Hd.
  assert (Hb : GetScalar_size_t (GetRootNode yaml_reader)
                 "setting.block_manager.block_token_num" 16 = Ret 16).
  { unfold GetScalar_size_t, GetRootNode. apply Forall_cons in Hgeom as [-> _]. reflexivity. }
  pose proof (ReadBlockManagerConfig_geometry _ _ _ Hb _ _ _ _ Hd Hm1) as Hinv.
  simpl in Hinv. revert Hrun.
  match goal with
  | |- ?m ?s = _ -> _ =>
      assert (Hst : stable (fun p => scheduler_of p = default_batch_scheduler_config
                                     /\ geometry_is 16 p) m)
  end.
  { apply stable_bind;
      [apply stable_ReadProfilerConfig; intros f q Hq; exact Hq | intros _].
    apply stable_bind; [apply stable_lift | intros dir].
    apply stable_bind;
      [apply stable_ParseModelConfig; intros ? ? Hq; exact Hq | intros status].
    destruct (negb (OK status)); [apply stable_ret |].
    apply stable_bind; [apply stable_ReadLoraModels | intros _].
    apply stable_bind; [apply stable_InitializeBlockManagerConfig | intros _].
    stable_auto. }
  intros Hrun. eapply Hst; eauto.
Qed.

(** *** Block sizes *)

Lemma size_t_mul_chain (token_size block_token_num_ dtype_size : Z) :
  size_t_mul (size_t_mul (size_t_mul token_size block_token_num_) 2) dtype_size
  = Cxx.to_size_t (token_size * block_token_num_ * 2 * dtype_size).
Proof.
  unfold size_t_mul, Cxx.to_size_t, Cxx.wrap.
  rewrite (Z.mul_mod_idemp_l (token_size * block_token_num_)) by lia.
  rewrite Z.mul_mod_idemp_l by lia. reflexivity.
Qed.

(** What [ParseLoadedConfig] returns, and in which state: the status of
    [ParseModelConfig] when that is not OK, the status of [CheckEnvironment]
    after [InitializeBlockManagerConfig] otherwise. *)
Lemma ParseLoadedConfig_inv yaml_reader p st p' lg :
  ParseLoadedConfig yaml_reader p = (Ret st, p', lg) ->
  exists model_dir q status q' lgm,
    GetScalar_string (GetRootNode yaml_reader) "model_spec.base_model.model_dir" "" = Ret model_dir
    /\ ParseModelConfig model_dir q = (Ret status, q', lgm)
    /\ streams q = streams p
    /\ ((OK status = false /\ st = status /\ p' = q')
        \/ (OK status = true
            /\ exists q2 u lg', InitializeBlockManagerConfig q2 = (Ret u, p', lg')
                                /\ st = CheckEnvironment (this p'))).
Proof.
  unfold ParseLoadedConfig. intros Hrun.
  do 6 bind_inv Hrun.
  assert (Hstreams : streams s3 = streams p).
  { assert (Hst : forall yaml_phase : M Proc unit,
               stable (fun q => streams q = streams p) yaml_phase ->
               forall q u q' l', streams q = streams p ->
                                 yaml_phase q = (Ret u, q', l') -> streams q' = streams p).
    { intros ph Hph q u q' l' Hq Hr. eapply Hph; eauto. }
    cbv [lift] in Hm3. injection Hm3 as _ <- _.
    eapply Hst; [| | exact Hm2].
    { apply stable_ReadProfilerConfig. intros f q Hq. exact Hq. }
    eapply Hst; [| | exact Hm1].
    { unfold ReadBlockManagerConfig. stable_auto. apply stable_AlignPrefixCacheLen. }
    eapply Hst; [| | exact Hm0].
    { unfold ReadBatchSchedulerConfig. stable_auto. }
    eapply Hst; [| | exact Hm].
    { unfold ReadGlobalSetting. stable_auto. }
    reflexivity. }
  cbv [lift] in Hm3. injection Hm3 as Hdir _ _.
  match goal with
  | Hp : ParseModelConfig ?d ?q = (Ret ?status, ?q', ?lgm) |- _ =>
      exists d, q, status, q', lgm; destruct (OK status) eqn:Hok
  end; simpl in Hrun.
  - split; [exact Hdir |]. split; [assumption |]. split; [exact Hstreams |].
    right. split; [reflexivity |]. do 3 bind_inv Hrun.
    match goal with Hg : gets this _ = _ |- _ => cbv [gets] in Hg end.
    cbv [ret] in Hrun. tuple_inv.
    match goal with Hc : CheckEnvironment _ = st |- _ => symmetry in Hc end.
    eauto.
  - split; [exact Hdir |]. split; [assumption |]. split; [exact Hstreams |].
    left. cbv [ret] in Hrun. tuple_inv.
    match goal with Hc : ?status = st |- _ => subst status end.
    auto.
Qed.

(** *** A model directory without a readable config.json *)

Lemma ParseModelConfig_missing model_dir abs p :
  fs_absolute model_dir = Ret abs ->
  ifstream_open (streams p) (abs +:+ "/config.json") = None ->
  ParseModelConfig model_dir p
  = (Ret {| code := RET_INVALID_ARGUMENT;
            message := "Model config file: " +:+ (abs +:+ "/config.json")
                       +:+ " is not exists." |},
     set_streams (S (streams p)) p, []).
Proof.
  intros Habs Hopen. unfold ParseModelConfig. rewrite Habs.
  assert (Hex : IsFileExists (abs +:+ "/config.json") p
                = (Ret false, set_streams (S (streams p)) p, [])).
  { unfold IsFileExists. rewrite Hopen.
    rewrite bool_decide_eq_false_2 by (intros [x Hx]; discriminate). reflexivity. }
  unfold bind at 1, lift. cbv zeta.
  rewrite (bind_Ret _ _ _ _ _ _ Hex). reflexivity.
Qed.

Lemma ParseModelConfig_unopenable model_dir abs p text :
  fs_absolute model_dir = Ret abs ->
  ifstream_open (streams p) (abs +:+ "/config.json") = Some text ->
  ifstream_open (S (streams p)) (abs +:+ "/config.json") = None ->
  ParseModelConfig model_dir p
  = (Ret {| code := RET_INVALID_ARGUMENT;
            message := "Load model config file: " +:+ (abs +:+ "/config.json") +:+ " error." |},
     set_streams (S (S (streams p))) p,
     [(LOG_ERROR, "Load model config file: " +:+ (abs +:+ "/config.json") +:+ " error.")]).
Proof.
  intros Habs Hfirst Hsecond. unfold ParseModelConfig. rewrite Habs.
  assert (Hex : IsFileExists (abs +:+ "/config.json") p
                = (Ret true, set_streams (S (streams p)) p, [])).
  { unfold IsFileExists. rewrite Hfirst.
    rewrite bool_decide_eq_true_2 by eauto. reflexivity. }
  assert (Hopen : open_ifstream (abs +:+ "/config.json") (set_streams (S (streams p)) p)
                  = (Ret None, set_streams (S (S (streams p))) p, [])).
  { unfold open_ifstream. simpl. rewrite Hsecond. reflexivity. }
  unfold bind at 1, lift. cbv zeta.
  rewrite (bind_Ret _ _ _ _ _ _ Hex). cbv beta. change (negb true) with false. cbv iota.
  rewrite (bind_Ret _ _ _ _ _ _ Hopen). reflexivity.
Qed.

(** When [std::filesystem::absolute] throws, [ParseModelConfig] has no
    status to return: the exception leaves it. *)
Lemma ParseModelConfig_absolute_throws model_dir e p :
  fs_absolute model_dir = Throw e ->
  ParseModelConfig model_dir p = (Throw e, p, []).
Proof. intros Habs. unfold ParseModelConfig, bind, lift. rewrite Habs. reflexivity. Qed.

(** The failure is not handled on the way out: [ParseConfig] and
    [ParseOptions] hand the status of [ParseModelConfig] to their caller. *)
Lemma ParseConfig_model_config_missing config_file model_dir abs p st :
  OK (fst (LoadFile config_file)) = true ->
  GetScalar_string (GetRootNode (snd (LoadFile config_file)))
    "model_spec.base_model.model_dir" "" = Ret model_dir ->
  fs_absolute model_dir = Ret abs ->
  ifstream_open (streams p) (abs +:+ "/config.json") = None ->
  outcome_of (ParseConfig config_file p) = Ret st ->
  st = {| code := RET_INVALID_ARGUMENT;
          message := "Model config file: " +:+ (abs +:+ "/config.json")
                     +:+ " is not exists." |}.
Proof.
  intros Hok Hdir Habs Hopen Hret. rewrite (ParseConfig_loaded _ Hok) in Hret.
  destruct (ParseLoadedConfig (snd (LoadFile config_file)) p) as [[o p'] lg] eqn:Hrun.
  unfold outcome_of in Hret. simpl in Hret. subst o.
  apply ParseLoadedConfig_inv in Hrun
    as (d & q & status & q' & lgm & Hd & Hparse & Hstreams & Hcase).
  rewrite Hdir in Hd. injection Hd as <-.
  rewrite <- Hstreams in Hopen.
  rewrite (ParseModelConfig_missing _ _ _ Habs Hopen) in Hparse.
  injection Hparse as <- _ _.
  destruct Hcase as [(_ & -> & _) | (Hbad & _)]; [reflexivity | discriminate].
Qed.

Lemma ParseOptions_outcome flags p :
  exists q,
    streams q = streams p
    /\ outcome_of (ParseOptions flags p)
       = match outcome_of (ParseConfig (FLAGS_config_file flags) q) with
         | Ret st => if OK st then Ret Status_default else Ret st
         | Throw e => Throw e
         | Undefined => Undefined
         end.
Proof.
  unfold ParseOptions. cbv [bind modify outcome_of].
  match goal with
  | |- context [ParseConfig ?f ?q] => exists q; split; [reflexivity |]
  end.
  destruct (ParseConfig _ _) as [[[st | e |] q] lg]; simpl; try reflexivity.
  destruct (OK st); reflexivity.
Qed.

Lemma ParseOptions_model_config_missing flags model_dir abs p st :
  OK (fst (LoadFile (FLAGS_config_file flags))) = true ->
  GetScalar_string (GetRootNode (snd (LoadFile (FLAGS_config_file flags))))
    "model_spec.base_model.model_dir" "" = Ret model_dir ->
  fs_absolute model_dir = Ret abs ->
  ifstream_open (streams p) (abs +:+ "/config.json") = None ->
  outcome_of (ParseOptions flags p) = Ret st ->
  st = {| code := RET_INVALID_ARGUMENT;
          message := "Model config file: " +:+ (abs +:+ "/config.json")
                     +:+ " is not exists." |}.
Proof.
  intros Hok Hdir Habs Hopen Hret.
  destruct (ParseOptions_outcome flags p) as (q & Hq & Hout).
  rewrite Hout in Hret. rewrite <- Hq in Hopen.
  destruct (outcome_of (ParseConfig (FLAGS_config_file flags) q)) as [st0 | e |] eqn:Hcfg;
    try discriminate.
  pose proof (ParseConfig_model_config_missing _ _ _ _ _ Hok Hdir Habs Hopen Hcfg) as ->.
  simpl in Hret. injection Hret as <-. reflexivity.
Qed.

(** The two statuses [ParseModelConfig] returns when it fails. *)
Lemma ParseModelConfig_error_inv model_dir p st p' lg :
  ParseModelConfig model_dir p = (Ret st, p', lg) ->
  OK st = false ->
  exists abs,
    fs_absolute model_dir = Ret abs
    /\ (st = {| code := RET_INVALID_ARGUMENT;
                message := "Model config file: " +:+ (abs +:+ "/config.json")
                           +:+ " is not exists." |}
        \/ st = {| code := RET_INVALID_ARGUMENT;
                   message := "Load model config file: " +:+ (abs +:+ "/config.json")
                              +:+ " error." |}).
Proof.
  unfold ParseModelConfig. intros Hrun Hbad.
  bind_inv Hrun. injection Hm as Habs <- _. exists a. split; [exact Habs |].
  cbv zeta in Hrun. bind_inv Hrun. injection Hm as <- <- _.
  destruct (negb _); [injection Hrun as <- _ _; left; reflexivity |].
  bind_inv Hrun. injection Hm as <- <- _.
  destruct (ifstream_open _ _) as [text |].
  - exfalso. do 6 bind_inv Hrun. injection Hrun as <- _ _. discriminate Hbad.
  - bind_inv Hrun. injection Hrun as <- _ _. right. reflexivity.
Qed.

(** Claim C8.  [InitializeBlockManagerConfig] gives the host tier and the
    device tier the same block size, the [size_t] value of
    [token_size * block_token_num * 2 * GetTypeSize(TYPE_FP16)].  A run of
    [ParseConfig] on a file that loads returns in one of two ways: with the
    failure status of [ParseModelConfig], before [CheckEnvironment] is
    called, or after [InitializeBlockManagerConfig], where both block sizes
    of the final environment are the value of the formula,
    [CheckEnvironment] finds them equal and the status is [Status()].  The
    status of the mismatch branch of [CheckEnvironment] is never the status
    [ParseConfig] returns; in particular every successful run ends with
    equal block sizes. *)
Theorem C8_block_sizes_share_one_formula :
  (forall p u p' lg,
      InitializeBlockManagerConfig p = (Ret u, p', lg) ->
      exists model_config token_size,
        unordered_map_begin (model_configs_ (this p)) = Some model_config
        /\ token_size_of (this p) model_config = Ret token_size
        /\ host_block_size p'
           = Cxx.to_size_t (token_size
                            * block_token_num (device_allocator_config
                                                 (block_manager_config_ (this p)))
                            * 2 * GetTypeSize TYPE_FP16)
        /\ device_block_size p' = host_block_size p'
        /\ CheckEnvironment (this p') = Status_default)
  /\ (forall config_file p st p' lg,
         OK (fst (LoadFile config_file)) = true ->
         ParseConfig config_file p = (Ret st, p', lg) ->
         ((exists model_dir q q' lgm,
              ParseModelConfig model_dir q = (Ret st, q', lgm) /\ OK st = false)
          \/ (st = Status_default
              /\ CheckEnvironment (this p') = Status_default
              /\ exists q u lgi model_config token_size,
                  InitializeBlockManagerConfig q = (Ret u, p', lgi)
                  /\ unordered_map_begin (model_configs_ (this q)) = Some model_config
                  /\ token_size_of (this q) model_config = Ret token_size
                  /\ host_block_size p'
                     = Cxx.to_size_t (token_size
                                      * block_token_num (device_allocator_config
                                                           (block_manager_config_ (this q)))
                                      * 2 * GetTypeSize TYPE_FP16)
                  /\ device_block_size p' = host_block_size p'))
         /\ forall host_size device_size : Z,
             st <> {| code := RET_INVALID_ARGUMENT;
                      message := "block size of device and host is not equal, "
                                 +:+ pretty host_size +:+ " vs " +:+ pretty device_size
                                 +:+ "." |})
  /\ (forall config_file p st,
         outcome_of (ParseConfig config_file p) = Ret st ->
         OK st = true ->
         st = Status_default
         /\ host_block_size (state_of (ParseConfig config_file p))
            = device_block_size (state_of (ParseConfig config_file p))).
Proof.
  split; [| split].
  - intros p u p' lg Hrun.
    apply InitializeBlockManagerConfig_inv in Hrun
      as (mc & ts & Hbegin & Hts & Hhost & Hdev & _).
    exists mc, ts. rewrite <- size_t_mul_chain.
    repeat split; try assumption.
    apply KsanaFacts.CheckEnvironment_equal. symmetry. exact Hdev.
  - intros config_file p st p' lg Hok Hrun.
    rewrite (ParseConfig_loaded _ Hok) in Hrun.
    apply ParseLoadedConfig_inv in Hrun
      as (d & q0 & status & q' & lgm & _ & Hparse & _
          & [(Hbad & -> & _) | (_ & q & u & lg' & Hinit & ->)]).
    + split; [left; exists d, q0, q', lgm; split; [exact Hparse | exact Hbad] |].
      intros host_size device_size Heq.
      apply ParseModelConfig_error_inv in Hparse as (abs & _ & [-> | ->]);
        [| | exact Hbad]; injection Heq as Hmsg; simpl in Hmsg; discriminate Hmsg.
    + pose proof Hinit as Hsizes.
      apply InitializeBlockManagerConfig_inv in Hsizes
        as (mc & ts & Hbegin & Hts & Hhost & Hdev & _).
      assert (Hcheck : CheckEnvironment (this p') = Status_default)
        by (apply KsanaFacts.CheckEnvironment_equal; symmetry; exact Hdev).
      rewrite Hcheck. split; [| discriminate].
      right. split; [reflexivity |]. split; [reflexivity |].
      exists q, u, lg', mc, ts. rewrite <- size_t_mul_chain. auto.
  - intros config_file p st Hret Hst.
    destruct (OK (fst (LoadFile config_file))) eqn:Hok.
    + rewrite (ParseConfig_loaded _ Hok) in *.
      destruct (ParseLoadedConfig (snd (LoadFile config_file)) p) as [[o p'] lg] eqn:Hrun.
      unfold outcome_of in Hret. simpl in Hret. subst o. unfold state_of. simpl.
      apply ParseLoadedConfig_inv in Hrun
        as (d & q0 & status & q' & lgm & _ & _ & _
            & [(Hbad & -> & _) | (_ & q & u & lg' & Hinit & ->)]);
        [congruence |].
      apply InitializeBlockManagerConfig_inv in Hinit
        as (mc & ts & _ & _ & _ & Hdev & _).
      split; [| symmetry; exact Hdev].
      apply KsanaFacts.CheckEnvironment_equal. symmetry. exact Hdev.
    + destruct (ParseConfig_not_loaded config_file p Hok) as [Ho _].
      rewrite Ho in Hret. injection Hret as <-. congruence.
Qed.

End Defaults.

End ParseConfigFacts.

(* ===================================================================== *)
(** ** ksana_llm: alignment of [prefix_cache_len] *)
(* ===================================================================== *)

Module PrefixCacheFacts.

Import Ksana.
Import ParseConfigFacts.

(** *** Arithmetic of lines 145-148 *)

Lemma double_of_Z_exact (z : Z) : 0 <= z < 2 ^ 53 -> Cxx.double_of_Z z = z.
Proof.
  intros [Hlo Hhi]. unfold Cxx.double_of_Z.
  assert (Hlog : Z.log2 z - 52 <= 0).
  { destruct (Z.eq_dec z 0) as [-> | Hz]; [simpl; lia |].
    assert (Z.log2 z < 53) by (apply Z.log2_lt_pow2; lia). lia. }
  apply Z.leb_le in Hlog. rewrite Hlog. reflexivity.
Qed.

Lemma retrieve_exact (p0 b : Z) :
  0 < p0 <= Cxx.INT_MAX -> 0 < b ->
  Cxx.double_mul (Cxx.floor_double (Cxx.double_of_Z (Z.quot (Cxx.to_size_t p0) b)))
    (Cxx.double_of_Z b)
  = p0 / b * b.
Proof.
  intros [Hp0 Hmax] Hb. unfold Cxx.INT_MAX in Hmax.
  unfold Cxx.double_mul, Cxx.floor_double, Cxx.to_size_t, Cxx.wrap.
  rewrite (Z.mod_small p0) by lia.
  rewrite Z.quot_div_nonneg by lia.
  assert (Hq : 0 <= p0 / b <= p0).
  { split; [apply Z.div_pos; lia | apply Z.div_le_upper_bound; nia]. }
  rewrite (double_of_Z_exact (p0 / b)) by lia.
  destruct (Z_lt_le_dec p0 b) as [Hlt | Hle].
  - rewrite (Z.div_small p0 b) by lia. simpl. reflexivity.
  - rewrite (double_of_Z_exact b) by lia.
    assert (Hr : p0 / b * b <= p0) by (rewrite Z.mul_comm; apply Z.mul_div_le; lia).
    apply double_of_Z_exact. nia.
Qed.

Lemma rounded_down_largest_multiple (p0 b : Z) :
  0 < p0 -> 0 < b ->
  Z.divide b (p0 / b * b) /\ 0 <= p0 / b * b <= p0 /\ p0 < p0 / b * b + b
  /\ forall m, Z.divide b m -> m <= p0 -> m <= p0 / b * b.
Proof.
  intros Hp0 Hb.
  assert (Hle : p0 / b * b <= p0) by (rewrite Z.mul_comm; apply Z.mul_div_le; lia).
  assert (Hq : 0 <= p0 / b) by (apply Z.div_pos; lia).
  split; [apply Z.divide_factor_r |].
  split; [nia |].
  split.
  - pose proof (Z.mod_pos_bound p0 b Hb). pose proof (Z.div_mod p0 b). nia.
  - intros m [k ->] Hm.
    assert (k <= p0 / b) by (apply Z.div_le_lower_bound; lia). nia.
Qed.

Section Alignment.

Context `{W : World}.

Lemma AlignPrefixCacheLen_misaligned (p0 b : Z) (s : Proc) :
  0 < p0 <= Cxx.INT_MAX -> 0 < b -> p0 mod b <> 0 ->
  AlignPrefixCacheLen p0 b s
  = (Ret (p0 / b * b), s,
     [(LOG_WARNING, prefix_cache_warning p0 b (p0 / b * b))]).
Proof.
  intros Hp0 Hb Hmis. unfold AlignPrefixCacheLen.
  assert (Hpos : (p0 >? 0) = true) by (apply Z.gtb_lt; lia). rewrite Hpos.
  assert (Hsz : Cxx.to_size_t p0 = p0).
  { unfold Cxx.to_size_t, Cxx.wrap, Cxx.INT_MAX in *. apply Z.mod_small. lia. }
  assert (Hrem : cxx_rem (Cxx.to_size_t p0) b = Ret (p0 mod b)).
  { unfold cxx_rem. rewrite Hsz. destruct (Z.eqb_spec b 0); [lia |].
    rewrite Z.rem_mod_nonneg by lia. reflexivity. }
  assert (Hdiv : cxx_div (Cxx.to_size_t p0) b = Ret (Z.quot (Cxx.to_size_t p0) b)).
  { unfold cxx_div. destruct (Z.eqb_spec b 0); [lia | reflexivity]. }
  assert (Hint : double_to_int (p0 / b * b) = Ret (p0 / b * b)).
  { unfold double_to_int, Cxx.is_int, Cxx.INT_MIN, Cxx.INT_MAX in *.
    destruct (rounded_down_largest_multiple p0 b) as (_ & Hr & _); [lia | lia |].
    replace (- 2 ^ 31 <=? p0 / b * b) with true by (symmetry; apply Z.leb_le; lia).
    replace (p0 / b * b <=? 2 ^ 31 - 1) with true by (symmetry; apply Z.leb_le; lia).
    reflexivity. }
  apply Z.eqb_neq in Hmis.
  rewrite Hrem. cbv [bind lift log ret]. rewrite Hmis. simpl negb. cbv iota.
  rewrite Hdiv. cbv iota beta.
  rewrite retrieve_exact by assumption. rewrite Hint. reflexivity.
Qed.

(** With a [block_token_num] of zero the remainder of line 145 is taken by
    zero, which C++ leaves undefined. *)
Lemma AlignPrefixCacheLen_zero_block_token_num (p0 : Z) (s : Proc) :
  0 < p0 -> AlignPrefixCacheLen p0 0 s = (Undefined, s, []).
Proof.
  intros Hp0. unfold AlignPrefixCacheLen.
  assert (Hpos : (p0 >? 0) = true) by (apply Z.gtb_lt; lia). rewrite Hpos.
  reflexivity.
Qed.

Lemma AlignPrefixCacheLen_aligned (r b : Z) (s : Proc) :
  0 <= r <= Cxx.INT_MAX -> 0 < b -> r mod b = 0 ->
  AlignPrefixCacheLen r b s = (Ret r, s, []).
Proof.
  intros Hr Hb Hal. unfold AlignPrefixCacheLen.
  destruct (Z.gtb_spec r 0) as [Hpos | Hneg]; [| reflexivity].
  assert (Hsz : Cxx.to_size_t r = r).
  { unfold Cxx.to_size_t, Cxx.wrap, Cxx.INT_MAX in *. apply Z.mod_small. lia. }
  unfold cxx_rem. rewrite Hsz. destruct (Z.eqb_spec b 0); [lia |].
  rewrite Z.rem_mod_nonneg by lia. rewrite Hal. reflexivity.
Qed.

Ltac subst_logs :=
  repeat match goal with
         | Heq : ?v = _ |- _ =>
             is_var v;
             lazymatch type of v with list LogEntry => subst v end
         end.

(** Lines 128-154 on a misaligned [prefix_cache_len]. *)
Lemma ReadBlockManagerConfig_misaligned yaml_reader (p0 b : Z) :
  root_node yaml_reader !! "setting.block_manager.prefix_cache_len" = Some (YInt p0) ->
  GetScalar_size_t (root_node yaml_reader) "setting.block_manager.block_token_num" 16 = Ret b ->
  0 < p0 <= Cxx.INT_MAX -> 0 < b -> p0 mod b <> 0 ->
  hoare (fun _ => True) (ReadBlockManagerConfig yaml_reader)
    (fun _ s l =>
       prefix_cache_len_of s = p0 / b * b
       /\ In (LOG_WARNING, prefix_cache_warning p0 b (p0 / b * b)) l).
Proof.
  intros Hkey Hb Hp0 Hbpos Hmis s u s' lg _ Hrun.
  assert (Hread : GetScalar_int (root_node yaml_reader)
                    "setting.block_manager.prefix_cache_len" 0 = Ret p0).
  { unfold GetScalar_int. rewrite Hkey.
    unfold Cxx.is_int, Cxx.INT_MIN, Cxx.INT_MAX in *.
    replace (- 2 ^ 31 <=? p0) with true by (symmetry; apply Z.leb_le; lia).
    replace (p0 <=? 2 ^ 31 - 1) with true by (symmetry; apply Z.leb_le; lia).
    reflexivity. }
  unfold ReadBlockManagerConfig, GetRootNode in Hrun. cbv zeta in Hrun.
  rewrite Hb, Hread in Hrun.
  bind_inv Hrun. bind_inv Hrun.
  cbv [bind assign_env lift modify] in Hm, Hm0. tuple_inv.
  match type of Hrun with
  | _ ?q = _ => assert (Hgeom : geometry_is b q) by (split; reflexivity)
  end.
  do 5 (bind_inv Hrun;
        match goal with
        | Ha : assign_env _ _ _ = (_, ?q, _) |- _ =>
            let Hq := fresh "Hq" in
            assert (Hq : geometry_is b q)
              by (eapply (stable_assign_env (geometry_is b));
                  [| exact Hgeom | exact Ha]; intros ? ? Hinv; exact Hinv);
            clear Hgeom Ha; rename Hq into Hgeom
        end).
  do 3 bind_inv Hrun.
  cbv [lift gets modify] in *. tuple_inv.
  repeat match goal with Hr : p0 = ?v |- _ => subst v end.
  destruct Hgeom as [_ Hdev].
  match goal with
  | Ha : AlignPrefixCacheLen p0 ?x ?q = _ |- _ =>
      assert (Halign : AlignPrefixCacheLen p0 b q = (Ret (p0 / b * b), q,
                [(LOG_WARNING, prefix_cache_warning p0 b (p0 / b * b))]))
        by (apply AlignPrefixCacheLen_misaligned; assumption);
      assert (Ha' : AlignPrefixCacheLen p0 b q = AlignPrefixCacheLen p0 x q)
        by (rewrite <- Hdev; reflexivity);
      rewrite Ha', Ha in Halign; clear Ha'
  end.
  injection Halign as -> -> ->.
  split; [reflexivity |].
  subst_logs. rewrite !in_app_iff. simpl. intuition auto.
Qed.

Lemma stable_prefix_InitializeBlockManagerConfig r :
  stable (fun p => prefix_cache_len_of p = r) InitializeBlockManagerConfig.
Proof.
  intros p u p' lg Hr Hrun.
  apply InitializeBlockManagerConfig_inv in Hrun as (mc & ts & _ & _ & _ & _ & _ & Hp & _).
  congruence.
Qed.

(** After the block manager config is read, nothing writes
    [prefix_cache_len]. *)
Lemma ParseLoadedConfig_misaligned yaml_reader (p0 b : Z) :
  root_node yaml_reader !! "setting.block_manager.prefix_cache_len" = Some (YInt p0) ->
  GetScalar_size_t (root_node yaml_reader) "setting.block_manager.block_token_num" 16 = Ret b ->
  0 < p0 <= Cxx.INT_MAX -> 0 < b -> p0 mod b <> 0 ->
  hoare (fun _ => True) (ParseLoadedConfig yaml_reader)
    (fun _ s l =>
       prefix_cache_len_of s = p0 / b * b
       /\ In (LOG_WARNING, prefix_cache_warning p0 b (p0 / b * b)) l).
Proof.
  intros Hkey Hb Hp0 Hbpos Hmis s st s' lg _ Hrun.
  unfold ParseLoadedConfig in Hrun. do 3 bind_inv Hrun.
  pose proof (ReadBlockManagerConfig_misaligned _ _ _ Hkey Hb Hp0 Hbpos Hmis
                _ _ _ _ Logic.I Hm1) as [Hpre Hin].
  split.
  - revert Hrun.
    match goal with
    | |- ?m ?q = _ -> _ =>
        assert (Hst : stable (fun p => prefix_cache_len_of p = p0 / b * b) m)
    end.
    { apply stable_bind;
        [apply stable_ReadProfilerConfig; intros f q Hq; exact Hq | intros _].
      apply stable_bind; [apply stable_lift | intros dir].
      apply stable_bind;
        [apply stable_ParseModelConfig; intros ? ? Hq; exact Hq | intros status].
      destruct (negb (OK status)); [apply stable_ret |].
      apply stable_bind; [apply stable_ReadLoraModels | intros _].
      apply stable_bind; [apply stable_prefix_InitializeBlockManagerConfig | intros _].
      stable_auto. }
    intros Hrun. eapply Hst; eauto.
  - subst_logs. rewrite !in_app_iff. auto.
Qed.

(** *** The same configuration with the aligned value *)

Lemma GetScalar_size_t_insert_ne (m : gmap string YamlScalar) K v k d :
  K <> k -> GetScalar_size_t (<[K := v]> m) k d = GetScalar_size_t m k d.
Proof. intros Hne. unfold GetScalar_size_t. rewrite lookup_insert_ne by exact Hne. reflexivity. Qed.

Lemma GetScalar_int_insert_ne (m : gmap string YamlScalar) K v k d :
  K <> k -> GetScalar_int (<[K := v]> m) k d = GetScalar_int m k d.
Proof. intros Hne. unfold GetScalar_int. rewrite lookup_insert_ne by exact Hne. reflexivity. Qed.

Lemma GetScalar_float_insert_ne (m : gmap string YamlScalar) K v k d :
  K <> k -> GetScalar_float (<[K := v]> m) k d = GetScalar_float m k d.
Proof. intros Hne. unfold GetScalar_float. rewrite lookup_insert_ne by exact Hne. reflexivity. Qed.

Lemma GetScalar_bool_insert_ne (m : gmap string YamlScalar) K v k d :
  K <> k -> GetScalar_bool (<[K := v]> m) k d = GetScalar_bool m k d.
Proof. intros Hne. unfold GetScalar_bool. rewrite lookup_insert_ne by exact Hne. reflexivity. Qed.

Lemma GetScalar_string_insert_ne (m : gmap string YamlScalar) K v k d :
  K <> k -> GetScalar_string (<[K := v]> m) k d = GetScalar_string m k d.
Proof. intros Hne. unfold GetScalar_string. rewrite lookup_insert_ne by exact Hne. reflexivity. Qed.

Ltac other_keys :=
  cbn [root_node sequences];
  rewrite ?GetScalar_size_t_insert_ne, ?GetScalar_int_insert_ne, ?GetScalar_float_insert_ne,
    ?GetScalar_bool_insert_ne, ?GetScalar_string_insert_ne by discriminate.

Lemma ReadGlobalSetting_with_prefix r yaml_reader :
  ReadGlobalSetting (with_prefix_cache_len r yaml_reader) = ReadGlobalSetting yaml_reader.
Proof.
  unfold ReadGlobalSetting, with_prefix_cache_len, GetRootNode. other_keys. reflexivity.
Qed.

Lemma ReadBatchSchedulerConfig_with_prefix r yaml_reader :
  ReadBatchSchedulerConfig (with_prefix_cache_len r yaml_reader)
  = ReadBatchSchedulerConfig yaml_reader.
Proof.
  unfold ReadBatchSchedulerConfig, with_prefix_cache_len, GetRootNode. other_keys. reflexivity.
Qed.

Lemma ReadProfilerConfig_with_prefix r yaml_reader :
  ReadProfilerConfig (with_prefix_cache_len r yaml_reader) = ReadProfilerConfig yaml_reader.
Proof.
  unfold ReadProfilerConfig, with_prefix_cache_len, GetRootNode. other_keys. reflexivity.
Qed.

Lemma ReadLoraModels_with_prefix r yaml_reader :
  ReadLoraModels (with_prefix_cache_len r yaml_reader) = ReadLoraModels yaml_reader.
Proof. reflexivity. Qed.

Lemma GetScalar_int_in_range (m : gmap string YamlScalar) k d z :
  m !! k = Some (YInt z) -> Cxx.INT_MIN <= z <= Cxx.INT_MAX -> GetScalar_int m k d = Ret z.
Proof.
  intros Hk Hz. unfold GetScalar_int, Cxx.is_int. rewrite Hk.
  replace (Cxx.INT_MIN <=? z) with true by (symmetry; apply Z.leb_le; lia).
  replace (z <=? Cxx.INT_MAX) with true by (symmetry; apply Z.leb_le; lia).
  reflexivity.
Qed.

(** Reading the block manager config of the file with the aligned value
    ends like reading the one with the misaligned value. *)
Lemma ReadBlockManagerConfig_with_aligned yaml_reader (p0 b : Z) s :
  root_node yaml_reader !! "setting.block_manager.prefix_cache_len" = Some (YInt p0) ->
  GetScalar_size_t (root_node yaml_reader) "setting.block_manager.block_token_num" 16 = Ret b ->
  0 < p0 <= Cxx.INT_MAX -> 0 < b -> p0 mod b <> 0 ->
  run (ReadBlockManagerConfig yaml_reader) s
  = run (ReadBlockManagerConfig (with_prefix_cache_len (p0 / b * b) yaml_reader)) s.
Proof.
  intros Hkey Hb Hp0 Hbpos Hmis.
  destruct (rounded_down_largest_multiple p0 b) as (Hdiv & Hr & _); [lia | lia |].
  assert (Hread : GetScalar_int (root_node yaml_reader)
                    "setting.block_manager.prefix_cache_len" 0 = Ret p0).
  { apply GetScalar_int_in_range; [exact Hkey | unfold Cxx.INT_MIN, Cxx.INT_MAX in *; lia]. }
  assert (Hread' : GetScalar_int
                     (<["setting.block_manager.prefix_cache_len" := YInt (p0 / b * b)]>
                        (root_node yaml_reader))
                     "setting.block_manager.prefix_cache_len" 0 = Ret (p0 / b * b)).
  { apply GetScalar_int_in_range; [apply lookup_insert_eq |].
    unfold Cxx.INT_MIN, Cxx.INT_MAX in *. lia. }
  unfold ReadBlockManagerConfig, with_prefix_cache_len, GetRootNode. other_keys.
  rewrite Hb, Hread, Hread'.
  apply run_bind_cong_r. intros u1 s1 l1 H1.
  apply run_bind_cong_r. intros u2 s2 l2 H2.
  cbv [bind assign_env lift modify] in H1, H2. tuple_inv.
  match goal with
  | |- run _ ?q = _ => assert (Hgeom : geometry_is b q) by (split; reflexivity)
  end.
  do 5 (apply run_bind_cong_r; intros ? ? ? ?;
        match goal with
        | Ha : assign_env _ _ _ = (_, ?q, _) |- _ =>
            let Hq := fresh "Hq" in
            assert (Hq : geometry_is b q)
              by (eapply (stable_assign_env (geometry_is b));
                  [| exact Hgeom | exact Ha]; intros ? ? Hinv; exact Hinv);
            clear Hgeom Ha; rename Hq into Hgeom
        end).
  destruct Hgeom as [_ Hdev].
  match goal with
  | |- run _ ?q = _ =>
      pose proof (AlignPrefixCacheLen_misaligned p0 b q Hp0 Hbpos Hmis) as Hmisaligned;
      assert (Haligned : AlignPrefixCacheLen (p0 / b * b) b q = (Ret (p0 / b * b), q, []))
        by (apply AlignPrefixCacheLen_aligned;
            [unfold Cxx.INT_MAX in *; lia | lia
            | apply Z.mod_divide in Hdiv; [exact Hdiv | lia]])
  end.
  unfold run, outcome_of, state_of.
  cbv [bind lift gets modify].
  repeat match goal with
         | |- context [AlignPrefixCacheLen _ ?x _] =>
             lazymatch x with
             | b => fail
             | _ => replace x with b by (symmetry; exact Hdev)
             end
         end.
  rewrite Hmisaligned, Haligned. reflexivity.
Qed.

(** The whole of [ParseLoadedConfig] ends alike on the two files. *)
Lemma ParseLoadedConfig_with_aligned yaml_reader (p0 b : Z) s :
  root_node yaml_reader !! "setting.block_manager.prefix_cache_len" = Some (YInt p0) ->
  GetScalar_size_t (root_node yaml_reader) "setting.block_manager.block_token_num" 16 = Ret b ->
  0 < p0 <= Cxx.INT_MAX -> 0 < b -> p0 mod b <> 0 ->
  run (ParseLoadedConfig yaml_reader) s
  = run (ParseLoadedConfig (with_prefix_cache_len (p0 / b * b) yaml_reader)) s.
Proof.
  intros Hkey Hb Hp0 Hbpos Hmis. unfold ParseLoadedConfig.
  rewrite ReadGlobalSetting_with_prefix, ReadBatchSchedulerConfig_with_prefix,
    ReadProfilerConfig_with_prefix, ReadLoraModels_with_prefix.
  replace (GetScalar_string (GetRootNode (with_prefix_cache_len (p0 / b * b) yaml_reader))
             "model_spec.base_model.model_dir" "")
    with (GetScalar_string (GetRootNode yaml_reader) "model_spec.base_model.model_dir" "")
    by (unfold with_prefix_cache_len, GetRootNode; other_keys; reflexivity).
  apply run_bind_cong_r. intros u1 s1 l1 _.
  apply run_bind_cong_r. intros u2 s2 l2 _.
  apply run_bind_cong_l.
  apply ReadBlockManagerConfig_with_aligned; assumption.
Qed.

(** Lines 128-154 with a positive [prefix_cache_len] and a
    [block_token_num] of zero: the remainder of line 145 is taken by zero,
    and no run returns. *)
Lemma ReadBlockManagerConfig_zero_block_token_num yaml_reader (p0 : Z) :
  root_node yaml_reader !! "setting.block_manager.prefix_cache_len" = Some (YInt p0) ->
  GetScalar_size_t (root_node yaml_reader) "setting.block_manager.block_token_num" 16 = Ret 0 ->
  0 < p0 <= Cxx.INT_MAX ->
  hoare (fun _ => True) (ReadBlockManagerConfig yaml_reader) (fun _ _ _ => False).
Proof.
  intros Hkey Hb Hp0 s u s' lg _ Hrun.
  assert (Hread : GetScalar_int (root_node yaml_reader)
                    "setting.block_manager.prefix_cache_len" 0 = Ret p0).
  { apply GetScalar_int_in_range; [exact Hkey | unfold Cxx.INT_MIN, Cxx.INT_MAX in *; lia]. }
  unfold ReadBlockManagerConfig, GetRootNode in Hrun. cbv zeta in Hrun.
  rewrite Hb, Hread in Hrun.
  bind_inv Hrun. bind_inv Hrun.
  cbv [bind assign_env lift modify] in Hm, Hm0. tuple_inv.
  match type of Hrun with
  | _ ?q = _ => assert (Hgeom : geometry_is 0 q) by (split; reflexivity)
  end.
  do 5 (bind_inv Hrun;
        match goal with
        | Ha : assign_env _ _ _ = (_, ?q, _) |- _ =>
            let Hq := fresh "Hq" in
            assert (Hq : geometry_is 0 q)
              by (eapply (stable_assign_env (geometry_is 0));
                  [| exact Hgeom | exact Ha]; intros ? ? Hinv; exact Hinv);
            clear Hgeom Ha; rename Hq into Hgeom
        end).
  do 3 bind_inv Hrun.
  cbv [lift gets modify] in *. tuple_inv.
  repeat match goal with Hr : p0 = ?v |- _ => subst v end.
  destruct Hgeom as [_ Hdev].
  match goal with
  | Ha : AlignPrefixCacheLen p0 ?x ?q = _ |- _ =>
      assert (Hzero : AlignPrefixCacheLen p0 0 q = (Undefined, q, []))
        by (apply AlignPrefixCacheLen_zero_block_token_num; lia);
      assert (Ha' : AlignPrefixCacheLen p0 0 q = AlignPrefixCacheLen p0 x q)
        by (rewrite <- Hdev; reflexivity);
      rewrite Ha', Ha in Hzero; discriminate Hzero
  end.
Qed.

(** Claim C1.  Let the loaded configuration carry a positive
    [prefix_cache_len] [p0] that is not a multiple of the [block_token_num]
    [b] it carries (16 when the key is absent).  For [b > 0], (1)
    [p0 / b * b] is the largest multiple of [b] that does not exceed [p0];
    (2) every run of [ParseConfig] that returns a status has stored
    [p0 / b * b] as [prefix_cache_len] and has logged the warning; (3) the
    misalignment raises no error: [ParseConfig] ends with the outcome and
    the environment it ends with on the same file with [prefix_cache_len]
    already aligned, so it returns success whenever that file does.  With
    [p0 = 17] and [b = 16] the stored value is 16.  For [b = 0], which the
    code accepts unchecked and of which no positive number is a multiple,
    no run of [ParseConfig] returns: line 145 takes a remainder by zero. *)
Theorem C1_prefix_cache_len_rounded_down config_file (p0 b : Z) (p : Proc) :
  OK (fst (LoadFile config_file)) = true ->
  root_node (snd (LoadFile config_file)) !! "setting.block_manager.prefix_cache_len"
  = Some (YInt p0) ->
  GetScalar_size_t (root_node (snd (LoadFile config_file)))
    "setting.block_manager.block_token_num" 16 = Ret b ->
  0 < p0 <= Cxx.INT_MAX -> p0 mod b <> 0 ->
  (0 < b ->
   (Z.divide b (p0 / b * b) /\ p0 / b * b <= p0
    /\ forall m, Z.divide b m -> m <= p0 -> m <= p0 / b * b)
   /\ (forall st,
          outcome_of (ParseConfig config_file p) = Ret st ->
          prefix_cache_len_of (state_of (ParseConfig config_file p)) = p0 / b * b
          /\ In (LOG_WARNING, prefix_cache_warning p0 b (p0 / b * b))
               (log_of (ParseConfig config_file p)))
   /\ run (ParseConfig config_file) p
      = run (ParseLoadedConfig
               (with_prefix_cache_len (p0 / b * b) (snd (LoadFile config_file)))) p)
  /\ (b = 0 -> forall st, outcome_of (ParseConfig config_file p) <> Ret st).
Proof.
  intros Hok Hkey Hb Hp0 Hmis.
  rewrite (ParseConfig_loaded _ Hok).
  split.
  - intros Hbpos. split; [| split].
    + destruct (rounded_down_largest_multiple p0 b) as (Hdiv & Hr & _ & Hmax); [lia | lia |].
      repeat split; [exact Hdiv | lia | exact Hmax].
    + intros st Hret.
      destruct (ParseLoadedConfig (snd (LoadFile config_file)) p) as [[o p'] lg] eqn:Hrun.
      unfold outcome_of in Hret. simpl in Hret. subst o.
      exact (ParseLoadedConfig_misaligned _ _ _ Hkey Hb Hp0 Hbpos Hmis _ _ _ _ Logic.I Hrun).
    + apply ParseLoadedConfig_with_aligned; assumption.
  - intros -> st Hret.
    destruct (ParseLoadedConfig (snd (LoadFile config_file)) p) as [[o p'] lg] eqn:Hrun.
    unfold outcome_of in Hret. simpl in Hret. subst o.
    unfold ParseLoadedConfig in Hrun. do 3 bind_inv Hrun.
    exact (ReadBlockManagerConfig_zero_block_token_num _ _ Hkey Hb Hp0 _ _ _ _ Logic.I Hm1).
Qed.

End Alignment.

End PrefixCacheFacts.

(* ===================================================================== *)
(** ** Missing model configuration, in both trees *)
(* ===================================================================== *)

Module StartupFacts.

(** Claim C4.  When the configuration file cannot be opened, the two entry
    points fail with different codes.  [Environment::ParseModelConfig] of
    ksana_llm returns [RET_INVALID_ARGUMENT], at the existence test as well
    as at the second open, provided [std::filesystem::absolute] gave it a
    path to test; when that call throws (as libstdc++ does on the empty
    model directory that line 166 defaults to), the exception leaves
    [ParseModelConfig] and there is no status.  [Environment::ParseOptions]
    of numerous_llm returns [RET_SEGMENT_FAULT], which is not
    [RET_INVALID_ARGUMENT]. *)
Theorem C4_missing_config_file_status :
  (forall (W : Ksana.World) (model_dir abs : string) (p : Ksana.Proc),
      Ksana.fs_absolute model_dir = Ret abs ->
      Ksana.ifstream_open (Ksana.streams p) (abs +:+ "/config.json") = None
      \/ Ksana.ifstream_open (S (Ksana.streams p)) (abs +:+ "/config.json") = None ->
      exists st, outcome_of (Ksana.ParseModelConfig model_dir p) = Ret st
                 /\ code st = RET_INVALID_ARGUMENT)
  /\ (forall (W : Ksana.World) (model_dir : string) (e : Exn) (p : Ksana.Proc),
         Ksana.fs_absolute model_dir = Throw e ->
         outcome_of (Ksana.ParseModelConfig model_dir p) = Throw e)
  /\ (forall (W : Numerous.World) (FLAGS_model_config : string) (p : Numerous.Proc),
         Numerous.ifstream_open (Numerous.streams p) FLAGS_model_config = None ->
         exists st, outcome_of (Numerous.ParseOptions FLAGS_model_config p) = Ret st
                    /\ code st = RET_SEGMENT_FAULT
                    /\ code st <> RET_INVALID_ARGUMENT).
Proof.
  split; [| split].
  - intros W model_dir abs p Habs Hopen.
    destruct (Ksana.ifstream_open (Ksana.streams p) (abs +:+ "/config.json"))
      as [text |] eqn:Hfirst.
    + destruct Hopen as [Hnone | Hsecond]; [discriminate |].
      rewrite (ParseConfigFacts.ParseModelConfig_unopenable _ _ _ _ Habs Hfirst Hsecond).
      eexists. split; reflexivity.
    + rewrite (ParseConfigFacts.ParseModelConfig_missing _ _ _ Habs Hfirst).
      eexists. split; reflexivity.
  - intros W model_dir e p Habs.
    rewrite (ParseConfigFacts.ParseModelConfig_absolute_throws _ _ _ Habs). reflexivity.
  - intros W flag p Hopen.
    rewrite (NumerousFacts.ParseOptions_missing _ _ Hopen).
    eexists. split; [reflexivity |]. split; [reflexivity | discriminate].
Qed.

End StartupFacts.

(* ===================================================================== *)
(** ** The block manager: swap-out followed by swap-in *)
(* ===================================================================== *)

Module BlockManagerFacts.

Import BlockManagerSpec.

Implicit Types (memory : gmap BlockId BlockContent) (pool : BlockPool)
  (table : list BlockId).

Lemma Copy_lookup_dst src_memory src dst_memory dst :
  Copy src_memory src dst_memory dst !! dst = src_memory !! src.
Proof.
  unfold Copy. destruct (src_memory !! src) as [content |].
  - apply lookup_insert_eq.
  - apply lookup_delete_eq.
Qed.

Lemma Copy_lookup_other src_memory src dst_memory dst b :
  b <> dst -> Copy src_memory src dst_memory dst !! b = dst_memory !! b.
Proof.
  intros Hne. unfold Copy. destruct (src_memory !! src) as [content |].
  - apply lookup_insert_ne. congruence.
  - apply lookup_delete_ne. congruence.
Qed.

Lemma Allocate_Some pool b pool' :
  Allocate pool = Some (b, pool') ->
  free_list pool = b :: free_list pool' /\ Capacity pool' = Capacity pool.
Proof.
  unfold Allocate. destruct (free_list pool) as [| b0 rest] eqn:Hfree; [discriminate |].
  intros [= <- <-]. auto.
Qed.

(** A successful copy phase takes the destination blocks from the head of
    the free list, one per block of the table, fills them with the content
    of the source blocks and leaves every other block as it was. *)
Lemma copy_blocks_Some table src_memory :
  forall pool memory dsts pool' memory',
    pool_wf pool ->
    copy_blocks table src_memory pool memory = (Some dsts, pool', memory') ->
    free_list pool = dsts ++ free_list pool'
    /\ Capacity pool' = Capacity pool
    /\ length dsts = length table
    /\ map (fun b => memory' !! b) dsts = map (fun b => src_memory !! b) table
    /\ (forall b, b ∉ dsts -> memory' !! b = memory !! b).
Proof.
  induction table as [| src rest IH]; intros pool memory dsts pool' memory' Hwf Hcopy.
  - injection Hcopy as <- <- <-. auto.
  - simpl in Hcopy.
    destruct (Allocate pool) as [[dst pool1] |] eqn:Halloc; [| discriminate].
    apply Allocate_Some in Halloc as [Hfree Hcap].
    destruct (copy_blocks rest src_memory pool1 (Copy src_memory src memory dst))
      as [[[dsts1 |] pool2] memory2] eqn:Hrest; [| discriminate].
    injection Hcopy as <- <- <-.
    unfold pool_wf in Hwf. rewrite Hfree in Hwf. apply NoDup_cons in Hwf as [Hfresh Hwf1].
    destruct (IH _ _ _ _ _ Hwf1 Hrest) as (Hfree1 & Hcap1 & Hlen & Hmap & Hframe).
    assert (Hdst : dst ∉ dsts1).
    { intros Hin. apply Hfresh. rewrite Hfree1. apply elem_of_app. auto. }
    repeat split.
    + rewrite Hfree, Hfree1. reflexivity.
    + congruence.
    + simpl. congruence.
    + simpl. rewrite Hmap, (Hframe dst Hdst), Copy_lookup_dst. reflexivity.
    + intros b Hb. apply not_elem_of_cons in Hb as [Hne Hb].
      rewrite (Hframe b Hb). apply Copy_lookup_other. exact Hne.
Qed.

(** The free lists stay duplicate-free. *)
Lemma pool_wf_Allocate pool b pool' :
  pool_wf pool -> Allocate pool = Some (b, pool') -> pool_wf pool' /\ b ∉ free_list pool'.
Proof.
  unfold pool_wf. intros Hwf Halloc. apply Allocate_Some in Halloc as [Hfree _].
  rewrite Hfree in Hwf. apply NoDup_cons in Hwf. tauto.
Qed.

Lemma pool_wf_Free pool b : pool_wf pool -> pool_wf (Free b pool).
Proof.
  unfold pool_wf, Free. intros Hwf. case_bool_decide; [exact Hwf |].
  simpl. apply NoDup_cons. auto.
Qed.

Lemma pool_wf_FreeAll pool bs : pool_wf pool -> pool_wf (FreeAll bs pool).
Proof.
  intros Hwf. unfold FreeAll. induction bs as [| b bs IH]; simpl; [exact Hwf |].
  apply pool_wf_Free. exact IH.
Qed.

(** A copy phase writes only to blocks it takes from the free list. *)
Lemma copy_blocks_frame table src_memory :
  forall pool memory result pool' memory' b,
    copy_blocks table src_memory pool memory = (result, pool', memory') ->
    b ∉ free_list pool -> memory' !! b = memory !! b.
Proof.
  induction table as [| src rest IH]; intros pool memory result pool' memory' b Hcopy Hheld.
  - injection Hcopy as _ _ <-. reflexivity.
  - simpl in Hcopy.
    destruct (Allocate pool) as [[dst pool1] |] eqn:Halloc.
    + apply Allocate_Some in Halloc as [Hfree _].
      assert (Hne : b <> dst) by (intros ->; apply Hheld; rewrite Hfree; left).
      assert (Hheld1 : b ∉ free_list pool1).
      { intros Hin. apply Hheld. rewrite Hfree. right. exact Hin. }
      destruct (copy_blocks rest src_memory pool1 (Copy src_memory src memory dst))
        as [[[dsts1 |] pool2] memory2] eqn:Hrest;
        injection Hcopy as _ _ <-;
        rewrite (IH _ _ _ _ _ b Hrest Hheld1); apply Copy_lookup_other; exact Hne.
    + injection Hcopy as _ _ <-. reflexivity.
Qed.

(** A copy phase that fails gives back every block it took: the free list
    is the one it started from. *)
Lemma copy_blocks_None table src_memory :
  forall pool memory pool' memory',
    pool_wf pool ->
    copy_blocks table src_memory pool memory = (None, pool', memory') ->
    free_list pool' = free_list pool /\ Capacity pool' = Capacity pool.
Proof.
  induction table as [| src rest IH]; intros pool memory pool' memory' Hwf Hcopy.
  - discriminate.
  - simpl in Hcopy.
    destruct (Allocate pool) as [[dst pool1] |] eqn:Halloc.
    + destruct (pool_wf_Allocate _ _ _ Hwf Halloc) as [Hwf1 Hfresh].
      apply Allocate_Some in Halloc as [Hfree Hcap].
      destruct (copy_blocks rest src_memory pool1 (Copy src_memory src memory dst))
        as [[[dsts1 |] pool2] memory2] eqn:Hrest; [discriminate |].
      injection Hcopy as <- _.
      destruct (IH _ _ _ _ Hwf1 Hrest) as [Hfree2 Hcap2].
      unfold Free. rewrite bool_decide_eq_false_2 by (rewrite Hfree2; exact Hfresh).
      simpl. split; congruence.
    + injection Hcopy as <- _. auto.
Qed.

(** [SwapOut] is all-or-nothing: when it fails, the request and both free
    lists are what they were, and so is the content of every block in use. *)
Lemma SwapOut_OUT_OF_MEMORY bm req bm1 req1 :
  pool_wf (host_pool bm) ->
  SwapOut bm req = (OUT_OF_MEMORY, bm1, req1) ->
  req1 = req
  /\ free_list (host_pool bm1) = free_list (host_pool bm)
  /\ device_pool bm1 = device_pool bm
  /\ device_memory bm1 = device_memory bm
  /\ (forall b, b ∉ free_list (host_pool bm) -> host_memory bm1 !! b = host_memory bm !! b).
Proof.
  intros Hwf. unfold SwapOut.
  destruct (copy_blocks _ _ _ _) as [[[host_blocks |] pool1] memory1] eqn:Hcopy;
    [discriminate |].
  intros [= <- <-]. simpl.
  destruct (copy_blocks_None _ _ _ _ _ _ Hwf Hcopy) as [Hfree _].
  repeat split; try assumption.
  intros b Hb. eapply copy_blocks_frame; eauto.
Qed.

(** Whatever [SwapOut] and [SwapIn] do for one request, the HOST blocks in
    use by the others keep their content. *)
Lemma SwapOut_keeps_host_blocks_in_use bm req st bm1 req1 b :
  SwapOut bm req = (st, bm1, req1) ->
  b ∉ free_list (host_pool bm) -> host_memory bm1 !! b = host_memory bm !! b.
Proof.
  unfold SwapOut.
  destruct (copy_blocks _ _ _ _) as [[[host_blocks |] pool1] memory1] eqn:Hcopy;
    intros [= _ <- _] Hb; simpl; eapply copy_blocks_frame; eauto.
Qed.

Lemma SwapIn_keeps_host_memory bm req st bm1 req1 :
  SwapIn bm req = (st, bm1, req1) -> host_memory bm1 = host_memory bm.
Proof.
  unfold SwapIn.
  destruct (copy_blocks _ _ _ _) as [[[device_blocks |] pool1] memory1];
    intros [= _ <- _]; reflexivity.
Qed.

(** The blocks [SwapOut] hands to the request are in use afterwards. *)
Lemma SwapOut_blocks_in_use bm req bm1 req1 b :
  pool_wf (host_pool bm) ->
  SwapOut bm req = (SWAP_OK, bm1, req1) ->
  b ∈ block_table req1 -> b ∉ free_list (host_pool bm1).
Proof.
  intros Hwf. unfold SwapOut.
  destruct (copy_blocks _ _ _ _) as [[[host_blocks |] pool1] memory1] eqn:Hcopy;
    [| discriminate].
  intros [= <- <-]. simpl. intros Hb Hfree.
  apply copy_blocks_Some in Hcopy as (Hsplit & _); [| exact Hwf].
  unfold pool_wf in Hwf. rewrite Hsplit in Hwf.
  apply NoDup_app in Hwf as (_ & Hdisjoint & _). exact (Hdisjoint b Hb Hfree).
Qed.

Lemma SwapOut_pool_wf bm req st bm1 req1 :
  pool_wf (host_pool bm) -> pool_wf (device_pool bm) ->
  SwapOut bm req = (st, bm1, req1) ->
  pool_wf (host_pool bm1) /\ pool_wf (device_pool bm1).
Proof.
  intros Hhost Hdevice. unfold SwapOut.
  destruct (copy_blocks _ _ _ _) as [[[host_blocks |] pool1] memory1] eqn:Hcopy;
    intros [= _ <- _]; simpl.
  - apply copy_blocks_Some in Hcopy as (Hsplit & _); [| exact Hhost].
    split; [| apply pool_wf_FreeAll; exact Hdevice].
    unfold pool_wf in *. rewrite Hsplit in Hhost. apply NoDup_app in Hhost. tauto.
  - destruct (copy_blocks_None _ _ _ _ _ _ Hhost Hcopy) as [Hfree _].
    split; [| exact Hdevice]. unfold pool_wf in *. rewrite Hfree. exact Hhost.
Qed.

Lemma SwapOut_OK bm req bm1 req1 :
  pool_wf (host_pool bm) ->
  SwapOut bm req = (SWAP_OK, bm1, req1) ->
  tier req1 = HOST
  /\ length (block_table req1) = length (block_table req)
  /\ map (fun b => host_memory bm1 !! b) (block_table req1)
     = map (fun b => device_memory bm !! b) (block_table req).
Proof.
  intros Hwf. unfold SwapOut.
  destruct (copy_blocks _ _ _ _) as [[[host_blocks |] pool1] memory1] eqn:Hcopy;
    [| discriminate].
  intros [= <- <-]. simpl.
  apply copy_blocks_Some in Hcopy as (_ & _ & Hlen & Hmap & _); auto.
Qed.

Lemma SwapIn_OK bm req bm1 req1 :
  pool_wf (device_pool bm) ->
  SwapIn bm req = (SWAP_OK, bm1, req1) ->
  tier req1 = DEVICE
  /\ length (block_table req1) = length (block_table req)
  /\ map (fun b => device_memory bm1 !! b) (block_table req1)
     = map (fun b => host_memory bm !! b) (block_table req).
Proof.
  intros Hwf. unfold SwapIn.
  destruct (copy_blocks _ _ _ _) as [[[device_blocks |] pool1] memory1] eqn:Hcopy;
    [| discriminate].
  intros [= <- <-]. simpl.
  apply copy_blocks_Some in Hcopy as (_ & _ & Hlen & Hmap & _); auto.
Qed.

(** Claim C6.  Let [SwapOut] succeed on a request whose table refers to the
    DEVICE tier, and let the matching [SwapIn] succeed in any later state of
    the block manager in which the HOST blocks of the swapped request still
    hold what [SwapOut] wrote.  Then after [SwapIn] the content of the
    request's blocks, in table order, and the length of its BlockTable are
    what they were before [SwapOut]; nothing is said of the block ids. *)
Theorem C6_swap_out_swap_in_round_trip bm req bm1 req1 bm2 bm3 req2 :
  tier req = DEVICE ->
  pool_wf (host_pool bm) ->
  SwapOut bm req = (SWAP_OK, bm1, req1) ->
  pool_wf (device_pool bm2) ->
  (forall b, b ∈ block_table req1 -> host_memory bm2 !! b = host_memory bm1 !! b) ->
  SwapIn bm2 req1 = (SWAP_OK, bm3, req2) ->
  cache_content bm3 req2 = cache_content bm req
  /\ length (block_table req2) = length (block_table req).
Proof.
  intros Htier Hhost Hout Hdevice Hkept Hin.
  apply SwapOut_OK in Hout as (Htier1 & Hlen1 & Hmap1); [| exact Hhost].
  apply SwapIn_OK in Hin as (Htier2 & Hlen2 & Hmap2); [| exact Hdevice].
  split; [| congruence].
  unfold cache_content. rewrite Htier2, Htier. simpl.
  rewrite Hmap2, <- Hmap1.
  apply map_ext_in. intros b Hb. apply Hkept. apply list_elem_of_In. exact Hb.
Qed.

End BlockManagerFacts.

(* ===================================================================== *)
(** ** The theorems on concrete inputs *)
(* ===================================================================== *)

Module Witnesses.

Import Examples.

(** The scenario of the specification: [prefix_cache_len] 17 with the
    default [block_token_num] 16 is stored as 16, and the parse succeeds.
    With [block_token_num] 0 in the file, the parse is undefined. *)
Lemma C1_17_over_16_and_17_over_0 :
  (Ksana.prefix_cache_len_of
     (state_of (@Ksana.ParseConfig llama_world "ksana_llm.yaml" fresh_process)) = 16
   /\ outcome_of (@Ksana.ParseConfig llama_world "ksana_llm.yaml" fresh_process)
      = Ret Status_default)
  /\ outcome_of (@Ksana.ParseConfig (llama_world_with yaml_prefix_17_block_0)
                   "ksana_llm.yaml" fresh_process) = Undefined.
Proof.
  assert (Hret : outcome_of (@Ksana.ParseConfig llama_world "ksana_llm.yaml" fresh_process)
                 = Ret Status_default) by (vm_compute; reflexivity).
  split; [split; [| exact Hret] | vm_compute; reflexivity].
  destruct (@PrefixCacheFacts.C1_prefix_cache_len_rounded_down llama_world
              "ksana_llm.yaml" 17 16 fresh_process)
    as [Hpositive _];
    [reflexivity | reflexivity | reflexivity | vm_compute; split; [reflexivity | discriminate]
    | vm_compute; discriminate |].
  destruct (Hpositive ltac:(lia)) as (_ & Hstored & _).
  exact (proj1 (Hstored _ Hret)).
Defined.

Lemma C2_mismatch_and_match :
  code (Ksana.CheckEnvironment mismatched_environment) = RET_INVALID_ARGUMENT
  /\ Ksana.CheckEnvironment zero_environment = Status_default.
Proof.
  split.
  - refine (proj1 (proj1 (KsanaFacts.C2_CheckEnvironment_block_size mismatched_environment) _)).
    vm_compute. discriminate.
  - refine (proj1 (proj2 (KsanaFacts.C2_CheckEnvironment_block_size zero_environment) _)).
    reflexivity.
Defined.

Lemma C3_defaults_of_a_bare_file :
  Ksana.scheduler_of
    (state_of (@Ksana.ParseConfig llama_world "ksana_llm.yaml" fresh_process))
  = Ksana.default_batch_scheduler_config
  /\ Ksana.geometry_is 16
       (state_of (@Ksana.ParseConfig llama_world "ksana_llm.yaml" fresh_process)).
Proof.
  apply (@ParseConfigFacts.C3_documented_defaults llama_world "ksana_llm.yaml"
           fresh_process Status_default).
  - reflexivity.
  - repeat constructor.
  - vm_compute. reflexivity.
Defined.

Lemma C4_two_codes_for_a_missing_file :
  (exists st, outcome_of (@Ksana.ParseModelConfig empty_disk_world "/models/llama" fresh_process)
              = Ret st /\ code st = RET_INVALID_ARGUMENT)
  /\ outcome_of (@Ksana.ParseModelConfig empty_disk_world "" fresh_process)
     = Throw filesystem_error
  /\ outcome_of (@Ksana.ParseConfig (llama_world_with yaml_without_model_dir)
                   "ksana_llm.yaml" fresh_process) = Throw filesystem_error
  /\ (exists st, outcome_of (@Numerous.ParseOptions numerous_empty_disk "./config.ini"
                               numerous_fresh_process) = Ret st
                 /\ code st = RET_SEGMENT_FAULT /\ code st <> RET_INVALID_ARGUMENT).
Proof.
  destruct StartupFacts.C4_missing_config_file_status as (Hksana & Hthrow & Hnumerous).
  split; [| split; [| split]].
  - apply (Hksana empty_disk_world "/models/llama"%string "/models/llama"%string).
    + reflexivity.
    + left. reflexivity.
  - apply (Hthrow empty_disk_world). reflexivity.
  - vm_compute. reflexivity.
  - apply (Hnumerous numerous_empty_disk). reflexivity.
Defined.

Lemma C5_llama_and_long_context_rotary_cache :
  Numerous.calls
    (state_of (@Numerous.Init (list Z) recording_block_manager cuda_success
                 raise_on_cuda_error configured_block_size keep_context_and_rank
                 llama_layer_parameters one_stream_context 0 layer_start))
  = [Numerous.CallSetDeviceId 0; Numerous.CallAllocateContiguous (128 * 2048 * 2);
     Numerous.CallGetContiguousPtr 0]
  /\ Numerous.calls
       (state_of (@Numerous.Init (list Z) recording_block_manager cuda_success
                    raise_on_cuda_error configured_block_size keep_context_and_rank
                    long_context_layer_parameters one_stream_context 0 layer_start))
     = [Numerous.CallSetDeviceId 0; Numerous.CallAllocateContiguous 0;
        Numerous.CallGetContiguousPtr 0]
  /\ outcome_of (@Numerous.Init (list Z) recording_block_manager cuda_success
                   raise_on_cuda_error configured_block_size keep_context_and_rank
                   long_context_layer_parameters one_stream_context 0 layer_start)
     = Ret Status_default
  /\ 128 * 33554432 * Cxx.sizeof_half = 8589934592.
Proof.
  destruct (@NumerousFacts.C5_rotary_cache_single_allocation (list Z) recording_block_manager
              cuda_success raise_on_cuda_error configured_block_size keep_context_and_rank
              llama_layer_parameters one_stream_context 0 layer_start Status_default)
    as (max_position & rotary & block_id & _ & _ & _ & _ & _);
    [vm_compute; reflexivity |].
  repeat split; vm_compute; reflexivity.
Defined.

Lemma C6_round_trip_with_new_block_ids :
  let swapped := BlockManagerSpec.SwapOut two_block_manager two_block_request in
  let resumed := BlockManagerSpec.SwapIn (after_another_allocation (snd (fst swapped)))
                   (snd swapped) in
  BlockManagerSpec.cache_content (snd (fst resumed)) (snd resumed)
  = BlockManagerSpec.cache_content two_block_manager two_block_request
  /\ length (BlockManagerSpec.block_table (snd resumed)) = 2%nat
  /\ BlockManagerSpec.block_table (snd resumed) = [2; 3]%nat.
Proof.
  intros swapped resumed.
  destruct (BlockManagerFacts.C6_swap_out_swap_in_round_trip
              two_block_manager two_block_request (snd (fst swapped)) (snd swapped)
              (after_another_allocation (snd (fst swapped)))
              (snd (fst resumed)) (snd resumed)) as [Hcontent Hlength].
  - reflexivity.
  - unfold BlockManagerSpec.pool_wf. apply (bool_decide_eq_true_1 (NoDup _)).
    vm_compute. reflexivity.
  - vm_compute. reflexivity.
  - unfold BlockManagerSpec.pool_wf. apply (bool_decide_eq_true_1 (NoDup _)).
    vm_compute. reflexivity.
  - intros b Hb. reflexivity.
  - vm_compute. reflexivity.
  - split; [exact Hcontent | split; [exact Hlength | vm_compute; reflexivity]].
Defined.

Lemma C8_llama_block_sizes :
  Ksana.host_block_size
    (state_of (@Ksana.ParseConfig llama_world "ksana_llm.yaml" fresh_process))
  = 8388608
  /\ Ksana.device_block_size
       (state_of (@Ksana.ParseConfig llama_world "ksana_llm.yaml" fresh_process))
     = Ksana.host_block_size
         (state_of (@Ksana.ParseConfig llama_world "ksana_llm.yaml" fresh_process))
  /\ Ksana.CheckEnvironment
       (Ksana.this (state_of (@Ksana.ParseConfig llama_world "ksana_llm.yaml" fresh_process)))
     = Status_default.
Proof.
  destruct (proj1 (proj2 (@ParseConfigFacts.C8_block_sizes_share_one_formula llama_world))
              "ksana_llm.yaml"%string fresh_process Status_default
              (state_of (@Ksana.ParseConfig llama_world "ksana_llm.yaml" fresh_process))
              (log_of (@Ksana.ParseConfig llama_world "ksana_llm.yaml" fresh_process)))
    as [[(model_dir & q & q' & lgm & _ & Hbad)
        | (_ & Hcheck & q & u & lgi & mc & ts & _ & _ & _ & _ & Hdev)] _].
  - reflexivity.
  - vm_compute. reflexivity.
  - discriminate Hbad.
  - split; [vm_compute; reflexivity |]. split; [exact Hdev | exact Hcheck].
Defined.

Lemma C9_configured_block_size_is_dropped :
  Numerous.block_size_
    (Numerous.layer
       (state_of (@Numerous.Init (list Z) recording_block_manager cuda_success
                    raise_on_cuda_error configured_block_size keep_context_and_rank
                    llama_layer_parameters one_stream_context 0 layer_start)))
  = 64.
Proof.
  apply (@NumerousFacts.C9_block_size_is_64 (list Z) recording_block_manager cuda_success
           raise_on_cuda_error configured_block_size keep_context_and_rank
           llama_layer_parameters one_stream_context 0 layer_start Status_default).
  vm_compute. reflexivity.
Defined.

Lemma C10_mixed_case_float16 :
  @Ksana.GetModelDataType llama_world llama_config_json = Ret Ksana.TYPE_FP16.
Proof.
  refine (proj1 (proj2 (@KsanaFacts.C10_GetModelDataType llama_world _)
                   "Float16"%string _) _).
  - reflexivity.
  - reflexivity.
Defined.

End Witnesses.

(* ===================================================================== *)
(** ** ksana_llm: the model config, from config.json to [GetModelConfig] *)
(* ===================================================================== *)

Module ModelConfigFacts.

Import Ksana.
Import ParseConfigFacts.

(** *** What a returning step did *)

Section Steps.

Context {S : Type}.

Lemma assign_Ret_inv {A : Type} (o : Outcome A) (set : A -> S -> S) s u s' l :
  assign o set s = (Ret u, s', l) -> exists v, o = Ret v /\ s' = set v s /\ l = [].
Proof.
  unfold assign, bind, lift, modify. destruct o as [v | e |]; try discriminate.
  intros [= _ <- <-]. eauto.
Qed.

Lemma gets_Ret_inv {A : Type} (f : S -> A) s a s' l :
  gets f s = (Ret a, s', l) -> a = f s /\ s' = s /\ l = [].
Proof. intros [= <- <- <-]. auto. Qed.

Lemma lift_Ret_inv {A : Type} (o : Outcome A) (s : S) a s' l :
  lift o s = (Ret a, s', l) -> o = Ret a /\ s' = s /\ l = [].
Proof. intros [= -> <- <-]. auto. Qed.

Lemma modify_Ret_inv (f : S -> S) s u s' l :
  modify f s = (Ret u, s', l) -> s' = f s /\ l = [].
Proof. intros [= _ <- <-]. auto. Qed.

Lemma with_local_Ret_inv {L A : Type} (m : M L A) (l0 : L) (s : S) r s' lg :
  with_local m l0 s = (Ret r, s', lg) -> s' = s /\ m l0 = (Ret (fst r), snd r, lg).
Proof.
  unfold with_local. destruct (m l0) as [[[a | e |] l'] lg']; intros [= <- <- <-].
  auto.
Qed.

End Steps.

Ltac assign_inv H :=
  let v := fresh "v" in
  let Ho := fresh "Ho" in
  let Hs := fresh "Hs" in
  let Hl := fresh "Hl" in
  apply assign_Ret_inv in H; destruct H as (v & Ho & Hs & Hl).

(** *** [PrepareModeAttirbutes] *)

Section Attributes.

Context `{W : World}.

(** The optional rope-scaling block changes the rope-scaling config only. *)
Lemma rope_scaling_block_frame (rope_scaling_setting : Json) c u c' l :
  (if negb (is_null rope_scaling_setting) then
     (assign (json_value json_get_string rope_scaling_setting "type" "default") set_rope_type ;;
      assign (json_value json_get_float rope_scaling_setting "factor" 1.0%Q) set_rope_factor ;;
      rope <- gets rope_scaling_factor_config ;;
      log LOG_DEBUG ("rope_scaling type: " +:+ rope_scaling_type rope +:+ " factor: "
                     +:+ fmt_float (rope_scaling_factor rope)))
   else ret tt)%cxx c = (Ret u, c', l) ->
  exists r, c' = set_rope_scaling_factor_config r c.
Proof.
  destruct (negb (is_null rope_scaling_setting)).
  - intros Hrun. do 3 bind_inv Hrun.
    assign_inv Hm. assign_inv Hm0. apply gets_Ret_inv in Hm1 as (_ & -> & _).
    injection Hrun as _ <- _. subst s s0.
    eexists. unfold set_rope_type, set_rope_factor. destruct c. reflexivity.
  - intros [= _ <- _]. exists (rope_scaling_factor_config c). destruct c. reflexivity.
Qed.

(** A returning [PrepareModeAttirbutes]: what each field of the filled
    config was read from, and the fields it leaves alone. *)
Lemma PrepareModeAttirbutes_inv config_json c u c' lg :
  PrepareModeAttirbutes config_json c = (Ret u, c', lg) ->
  (v <~ json_at config_json "model_type" ;; json_get_string v)%cxx = Ret (type c')
  /\ (v <~ json_at config_json "num_attention_heads" ;; json_get_integer v)%cxx
     = Ret (head_num c')
  /\ json_value json_get_integer config_json "num_key_value_heads" (head_num c')
     = Ret (num_key_value_heads c')
  /\ (v <~ json_at config_json "intermediate_size" ;; json_get_integer v)%cxx
     = Ret (inter_size c')
  /\ (v <~ json_at config_json "vocab_size" ;; json_get_integer v)%cxx = Ret (vocab_size c')
  /\ (v <~ json_at config_json "num_hidden_layers" ;; json_get_integer v)%cxx
     = Ret (num_layer c')
  /\ (v <~ json_at config_json "hidden_size" ;; json_get_integer v)%cxx
     = Ret (hidden_units c')
  /\ (exists rms_norm_eps,
         (d <~ json_value json_get_double config_json "rms_norm_eps" (Cxx.to_double 1e-6%Q) ;;
          static_cast_float d)%cxx = Ret rms_norm_eps
         /\ json_value json_get_float config_json "layer_norm_epsilon" rms_norm_eps
            = Ret (layernorm_eps c'))
  /\ cxx_div (hidden_units c') (head_num c') = Ret (size_per_head c')
  /\ rotary_embedding c' = size_per_head c'
  /\ name c' = name c /\ path c' = path c /\ weight_data_type c' = weight_data_type c
  /\ tensor_para_size c' = tensor_para_size c.
Proof.
  unfold PrepareModeAttirbutes. intros Hrun.
  do 22 bind_inv Hrun.
  assign_inv Hm. assign_inv Hm0.
  apply gets_Ret_inv in Hm1 as (-> & -> & _).
  assign_inv Hm2. assign_inv Hm3. assign_inv Hm4. assign_inv Hm5. assign_inv Hm6.
  assign_inv Hm7. assign_inv Hm8.
  apply gets_Ret_inv in Hm9 as (-> & -> & _).
  assign_inv Hm10. assign_inv Hm11. assign_inv Hm12. assign_inv Hm13. assign_inv Hm14.
  apply lift_Ret_inv in Hm15 as (_ & -> & _).
  apply rope_scaling_block_frame in Hm16 as (rope & Hrope).
  apply gets_Ret_inv in Hm17 as (-> & -> & _).
  apply gets_Ret_inv in Hm18 as (-> & -> & _).
  apply lift_Ret_inv in Hm19 as (Hdiv & -> & _).
  apply modify_Ret_inv in Hm20 as (-> & _).
  apply modify_Ret_inv in Hrun as (-> & _).
  repeat match goal with Hs : ?x = _ |- _ => is_var x; subst x end.
  destruct c. cbv - [json_at json_value json_get_integer json_get_string json_get_float
                      json_get_double json_get_int static_cast_float Cxx.to_double
                      outcome_bind cxx_div] in *.
  repeat split; try assumption; try reflexivity. eauto.
Qed.

(** Property X1.
    [PrepareModeAttirbutes] returns only for a JSON object that has the six
    keys it reads with [at] (model_type, num_attention_heads,
    intermediate_size, vocab_size, num_hidden_layers, hidden_size), and with a
    number of attention heads other than zero; the head size it stores is
    then the truncated quotient hidden_size / num_attention_heads, and the
    rotary dimension is the head size. *)
Theorem PrepareModeAttirbutes_required_keys config_json c u c' lg :
  PrepareModeAttirbutes config_json c = (Ret u, c', lg) ->
  (exists fields,
      config_json = JObject fields
      /\ Forall (fun key => is_Some (json_find key fields)) required_model_keys)
  /\ head_num c' <> 0
  /\ size_per_head c' = Z.quot (hidden_units c') (head_num c')
  /\ rotary_embedding c' = size_per_head c'.
Proof.
  intros Hrun.
  apply PrepareModeAttirbutes_inv in Hrun
    as (Ht & Hh & _ & Hi & Hv & Hn & Hu & _ & Hdiv & Hrot & _).
  split.
  - destruct config_json as [| | | | | | fields]; try discriminate Ht.
    exists fields. split; [reflexivity |].
    unfold json_at in *.
    repeat constructor;
      match goal with
      | |- is_Some (json_find ?k fields) =>
          destruct (json_find k fields); [eauto | discriminate]
      end.
  - unfold cxx_div in Hdiv. destruct (head_num c' =? 0) eqn:Hz; [discriminate |].
    apply Z.eqb_neq in Hz. injection Hdiv as Hdiv. auto.
Qed.

(** Property X2.
    A config.json without num_key_value_heads gives as many key-value heads
    as attention heads: [value] hands back the head count it was given as
    the default. *)
Theorem PrepareModeAttirbutes_num_key_value_heads fields c u c' lg :
  PrepareModeAttirbutes (JObject fields) c = (Ret u, c', lg) ->
  json_find "num_key_value_heads" fields = None ->
  num_key_value_heads c' = head_num c'.
Proof.
  intros Hrun Habsent.
  apply PrepareModeAttirbutes_inv in Hrun as (_ & _ & Hkv & _).
  unfold json_value in Hkv. rewrite Habsent in Hkv.
  injection Hkv as Hkv. auto.
Qed.


End Attributes.

(** *** [ParseModelConfig] *)

Section Registration.

Context `{W : World}.

(** A run of [ParseModelConfig] that returns an OK status. *)
Lemma ParseModelConfig_OK_inv model_dir p st p' lg :
  ParseModelConfig model_dir p = (Ret st, p', lg) ->
  OK st = true ->
  exists abs text config_json weight_data_type_ filled lgc,
    fs_absolute model_dir = Ret abs
    /\ ifstream_open (S (streams p)) (abs +:+ "/config.json") = Some text
    /\ json_parse text = Some config_json
    /\ GetModelDataType config_json = Ret weight_data_type_
    /\ PrepareModeAttirbutes config_json
         (set_tensor_para_size (tensor_parallel_size_ (this p))
            (set_weight_data_type weight_data_type_
               (set_path abs ModelConfig_default)))
       = (Ret tt, filled, lgc)
    /\ st = Status_default
    /\ p' = {| this :=
                 set_model_configs_
                   (<[name filled :=
                        set_max_token_num (max_token_len (scheduler_of p))
                          (set_max_scheduler_token_num (max_step_tokens (scheduler_of p))
                             (set_model_max_batch_size (max_batch_size (scheduler_of p))
                                (set_model_block_token_num
                                   (block_token_num
                                      (device_allocator_config (block_manager_config_ (this p))))
                                   filled)))]> (model_configs_ (this p)))
                   (this p);
               streams := S (S (streams p)) |}.
Proof.
  unfold ParseModelConfig. intros Hrun Hok.
  bind_inv Hrun. injection Hm as Habs <- _. cbv zeta in Hrun.
  bind_inv Hrun. injection Hm as <- <- <-.
  destruct (negb _); [injection Hrun as <- _ _; discriminate Hok |].
  bind_inv Hrun. injection Hm as <- <- <-.
  change (streams (set_streams (S (streams p)) p)) with (S (streams p)) in Hrun.
  destruct (ifstream_open (S (streams p)) _) as [text |] eqn:Hopen.
  2:{ bind_inv Hrun. injection Hrun as <- _ _. discriminate Hok. }
  do 6 bind_inv Hrun.
  apply lift_Ret_inv in Hm as (Hparse & -> & _).
  apply lift_Ret_inv in Hm0 as (Hdtype & -> & _).
  apply gets_Ret_inv in Hm1 as (-> & -> & _).
  apply with_local_Ret_inv in Hm2 as (-> & Hprep).
  apply modify_Ret_inv in Hm3 as (-> & _).
  injection Hm4 as _ <- _. injection Hrun as <- <- _.
  destruct (json_parse text) as [config_json |] eqn:Hjson; [| discriminate Hparse].
  injection Hparse as <-.
  match goal with r : (unit * ModelConfig)%type |- _ => destruct r as [[] filled] end.
  simpl in Hprep.
  eexists _, text, config_json, _, filled, _.
  split; [exact Habs |].
  split; [exact Hopen |]. split; [exact Hjson |]. split; [exact Hdtype |].
  split; [exact Hprep |]. split; [reflexivity |].
  destruct p as [env n]. destruct filled. reflexivity.
Qed.

(** What an OK [ParseModelConfig] has written. *)
Lemma ParseModelConfig_OK_registered model_dir p st p' lg :
  ParseModelConfig model_dir p = (Ret st, p', lg) ->
  OK st = true ->
  exists registered,
    model_configs_ (this p')
    = <[name ModelConfig_default := registered]> (model_configs_ (this p))
    /\ name registered = name ModelConfig_default
    /\ fs_absolute model_dir = Ret (path registered)
    /\ tensor_para_size registered = tensor_parallel_size_ (this p)
    /\ model_block_token_num registered
       = block_token_num (device_allocator_config (block_manager_config_ (this p)))
    /\ model_max_batch_size registered = max_batch_size (scheduler_of p)
    /\ max_scheduler_token_num registered = max_step_tokens (scheduler_of p)
    /\ max_token_num registered = max_token_len (scheduler_of p)
    /\ set_model_configs_ (model_configs_ (this p)) (this p') = this p.
Proof.
  intros Hrun Hok.
  apply ParseModelConfig_OK_inv in Hrun
    as (abs & text & cj & dt & filled & lgc & Habs & _ & _ & _ & Hprep & _ & ->);
    [| exact Hok].
  apply PrepareModeAttirbutes_inv in Hprep
    as (_ & _ & _ & _ & _ & _ & _ & _ & _ & _ & Hname & Hpath & _ & Htp).
  assert (Hn : name filled = name ModelConfig_default) by (rewrite Hname; reflexivity).
  assert (Hp : path filled = abs) by (rewrite Hpath; reflexivity).
  match goal with |- context [<[_ := ?r]> _] => exists r end.
  split; [rewrite <- Hn; reflexivity |].
  split; [rewrite <- Hn; reflexivity |].
  split; [rewrite Habs, <- Hp; reflexivity |].
  split; [exact Htp |].
  repeat split; reflexivity.
Qed.

(** Property X4.
    After a [ParseModelConfig] that returns OK, the model is registered
    under the name a default-constructed [ModelConfig] has (the function
    never assigns the name): [GetModelConfig] of that name returns the new
    config, whose path is the absolute model directory, and answers for
    every other name as it did before. *)
Theorem ParseModelConfig_registers_default_name model_dir p st p' lg :
  ParseModelConfig model_dir p = (Ret st, p', lg) ->
  OK st = true ->
  exists registered,
    name registered = name ModelConfig_default
    /\ fs_absolute model_dir = Ret (path registered)
    /\ (forall previous,
           GetModelConfig (this p') (name ModelConfig_default) previous
           = (Status_default, registered))
    /\ (forall model_name previous,
           model_name <> name ModelConfig_default ->
           GetModelConfig (this p') model_name previous
           = GetModelConfig (this p) model_name previous).
Proof.
  intros Hrun Hok.
  apply ParseModelConfig_OK_registered in Hrun
    as (registered & Hmap & Hname & Hpath & _); [| exact Hok].
  exists registered. split; [exact Hname |]. split; [exact Hpath |].
  unfold GetModelConfig. rewrite Hmap. split.
  - intros previous. rewrite lookup_insert_eq. reflexivity.
  - intros model_name previous Hne. rewrite lookup_insert_ne by congruence. reflexivity.
Qed.

(** Property X5.
    The config that [ParseModelConfig] registers carries the values the
    environment holds at that moment: the tensor-parallel size, the device
    [block_token_num], and the scheduler's max_batch_size, max_step_tokens
    and max_token_len; apart from the map of model configs the environment
    is as before. *)
Theorem ParseModelConfig_registered_copy model_dir p st p' lg previous :
  ParseModelConfig model_dir p = (Ret st, p', lg) ->
  OK st = true ->
  let registered := snd (GetModelConfig (this p') (name ModelConfig_default) previous) in
  tensor_para_size registered = tensor_parallel_size_ (this p')
  /\ model_block_token_num registered
     = block_token_num (device_allocator_config (block_manager_config_ (this p')))
  /\ model_max_batch_size registered = max_batch_size (scheduler_of p')
  /\ max_scheduler_token_num registered = max_step_tokens (scheduler_of p')
  /\ max_token_num registered = max_token_len (scheduler_of p')
  /\ set_model_configs_ (model_configs_ (this p)) (this p') = this p.
Proof.
  intros Hrun Hok.
  apply ParseModelConfig_OK_registered in Hrun
    as (registered & Hmap & _ & _ & Htp & Hbtn & Hbatch & Hstep & Hlen & Hframe);
    [| exact Hok].
  unfold GetModelConfig. rewrite Hmap, lookup_insert_eq. cbv zeta.
  change (snd (Status_default, registered)) with registered.
  rewrite Htp, Hbtn, Hbatch, Hstep, Hlen. unfold scheduler_of.
  rewrite <- Hframe. repeat split; reflexivity.
Qed.

(** Property X6.
    A second [ParseModelConfig] that returns OK replaces what the first one
    registered: the map of model configs is the one from before the first
    call with a single entry written, and that entry has the path of the
    second model directory. *)
Theorem ParseModelConfig_twice_keeps_last first_dir second_dir p st1 p1 lg1 st2 p2 lg2 :
  ParseModelConfig first_dir p = (Ret st1, p1, lg1) ->
  OK st1 = true ->
  ParseModelConfig second_dir p1 = (Ret st2, p2, lg2) ->
  OK st2 = true ->
  exists registered,
    model_configs_ (this p2)
    = <[name ModelConfig_default := registered]> (model_configs_ (this p))
    /\ fs_absolute second_dir = Ret (path registered).
Proof.
  intros Hfirst Hok1 Hsecond Hok2.
  apply ParseModelConfig_OK_registered in Hfirst as (r1 & Hmap1 & _); [| exact Hok1].
  apply ParseModelConfig_OK_registered in Hsecond
    as (r2 & Hmap2 & _ & Hpath & _); [| exact Hok2].
  exists r2. split; [| exact Hpath].
  rewrite Hmap2, Hmap1. apply insert_insert_eq.
Qed.

(** *** What [ParseModelConfig] leaves of the environment when it fails *)

Lemma bind_this_or {A B : Type} (m : M Proc A) (f : A -> M Proc B) (Q : Outcome B -> Prop) p :
  this (state_of (m p)) = this p ->
  (forall a q l, m p = (Ret a, q, l) ->
                 this (state_of (f a q)) = this q \/ Q (outcome_of (f a q))) ->
  this (state_of (bind m f p)) = this p \/ Q (outcome_of (bind m f p)).
Proof.
  unfold bind, state_of, outcome_of. intros Hm Hf.
  destruct (m p) as [[[a | e |] q] l]; simpl in *; auto.
  specialize (Hf a q l eq_refl).
  destruct (f a q) as [[o q'] l']; simpl in *.
  destruct Hf as [Hf | Hf]; [left; congruence | right; exact Hf].
Qed.

(** Property X7.
    [ParseModelConfig] writes the environment as its last step: a run that
    does not return the OK status, whether it returns an error status,
    throws or is undefined, leaves every field of the environment as it
    was. *)
Theorem ParseModelConfig_failure_keeps_environment model_dir p :
  this (state_of (ParseModelConfig model_dir p)) = this p
  \/ outcome_of (ParseModelConfig model_dir p) = Ret Status_default.
Proof.
  unfold ParseModelConfig.
  pose proof (fun A m f => @bind_this_or A Status m f (fun o => o = Ret Status_default))
    as Hstep.
  apply Hstep; [reflexivity |]. intros abs_model_dir_path q0 l0 _. cbv zeta.
  apply Hstep; [reflexivity |]. intros exists_ q l _.
  destruct (negb exists_); [left; reflexivity |].
  apply Hstep; [reflexivity |]. intros [text |] q1 l1 _.
  2:{ left. reflexivity. }
  apply Hstep; [reflexivity |]. intros config_json q2 l2 _.
  apply Hstep; [reflexivity |]. intros dt q3 l3 _.
  apply Hstep; [reflexivity |]. intros env q4 l4 _.
  apply Hstep.
  { unfold with_local, state_of.
    destruct (PrepareModeAttirbutes _ _) as [[[x | e |] c] lg]; reflexivity. }
  intros r q5 l5 _. right. reflexivity.
Qed.

End Registration.

End ModelConfigFacts.

(* ===================================================================== *)
(** ** ksana_llm: what a returning [ParseConfig] leaves in the environment *)
(* ===================================================================== *)

Module EnvironmentFacts.

Import Ksana.
Import ParseConfigFacts.
Import PrefixCacheFacts.

(** *** Computations that do not warn *)

Section Silent.

Context {S : Type}.
Variable lvl : LogLevel.

Lemma silent_bind {A B : Type} (m : M S A) (f : A -> M S B) :
  silent lvl m -> (forall a, silent lvl (f a)) -> silent lvl (bind m f).
Proof.
  intros Hm Hf s. specialize (Hm s). unfold bind, log_of in *.
  destruct (m s) as [[[a | e |] s1] l1]; simpl in *; try exact Hm.
  specialize (Hf a s1). destruct (f a s1) as [[o s2] l2]; simpl in *.
  apply Forall_app. auto.
Qed.

Lemma silent_ret {A : Type} (a : A) : silent lvl (ret (S := S) a).
Proof. intros s. constructor. Qed.

Lemma silent_lift {A : Type} (o : Outcome A) : silent lvl (lift (S := S) o).
Proof. intros s. constructor. Qed.

Lemma silent_throw {A : Type} e : silent lvl (throw (S := S) (A := A) e).
Proof. intros s. constructor. Qed.

Lemma silent_gets {A : Type} (f : S -> A) : silent lvl (gets f).
Proof. intros s. constructor. Qed.

Lemma silent_modify (f : S -> S) : silent lvl (modify f).
Proof. intros s. constructor. Qed.

Lemma silent_log other msg : other <> lvl -> silent lvl (log (S := S) other msg).
Proof. intros Hne s. repeat constructor. exact Hne. Qed.

Lemma silent_assign {A : Type} (o : Outcome A) (set : A -> S -> S) :
  silent lvl (assign o set).
Proof.
  unfold assign. apply silent_bind; [apply silent_lift | intros v; apply silent_modify].
Qed.

Lemma silent_for_each {A : Type} (f : A -> M S unit) (xs : list A) :
  (forall a, silent lvl (f a)) -> silent lvl (for_each f xs).
Proof.
  intros Hf. induction xs as [| x xs IH]; simpl.
  - apply silent_ret.
  - apply silent_bind; auto.
Qed.

Lemma silent_with_local {L A : Type} (m : M L A) (l0 : L) :
  silent lvl m -> silent lvl (with_local (S := S) m l0).
Proof.
  intros Hm s. specialize (Hm l0). unfold with_local, log_of in *.
  destruct (m l0) as [[[a | e |] l'] lg]; exact Hm.
Qed.

End Silent.

Ltac silent_auto :=
  repeat first
    [ apply silent_ret | apply silent_lift | apply silent_throw | apply silent_gets
    | apply silent_modify | apply silent_assign
    | apply silent_log; discriminate
    | apply silent_with_local
    | apply silent_for_each; intros ?
    | match goal with |- silent _ (if ?b then _ else _) => destruct b end
    | match goal with |- silent _ (match ?x with _ => _ end) => destruct x end
    | apply silent_bind; [| intros ?] ].

Ltac subst_logs :=
  repeat match goal with
         | Heq : ?v = _ |- _ =>
             is_var v;
             lazymatch type of v with list LogEntry => subst v end
         end.

Section Phases.

Context `{W : World}.

Lemma silent_assign_env lvl {A : Type} (o : Outcome A) (set : A -> Environment -> Environment) :
  silent lvl (assign_env o set).
Proof.
  unfold assign_env. apply silent_bind; [apply silent_lift | intros v; apply silent_modify].
Qed.

Lemma silent_IsFileExists lvl file_path : silent lvl (IsFileExists file_path).
Proof. intros s. constructor. Qed.

Lemma silent_open_ifstream lvl file_path : silent lvl (open_ifstream file_path).
Proof. intros s. constructor. Qed.

(** Apart from the prefix-cache warning, [ParseConfig] writes errors and
    debug lines only. *)
Lemma silent_ParseModelConfig model_dir : silent LOG_WARNING (ParseModelConfig model_dir).
Proof.
  unfold ParseModelConfig, PrepareModeAttirbutes.
  apply silent_bind; [apply silent_lift | intros abs_model_dir_path]. cbv zeta.
  apply silent_bind; [apply silent_IsFileExists | intros ex].
  destruct (negb ex); [apply silent_ret |].
  apply silent_bind; [apply silent_open_ifstream | intros file].
  silent_auto.
Qed.

Lemma silent_after_block_manager yaml_reader :
  silent LOG_WARNING
    (ReadProfilerConfig yaml_reader ;;
     base_model_dir <-
       lift (GetScalar_string (GetRootNode yaml_reader) "model_spec.base_model.model_dir" "") ;;
     status <- ParseModelConfig base_model_dir ;;
     if negb (OK status) then ret status
     else
       (ReadLoraModels yaml_reader ;;
        InitializeBlockManagerConfig ;;
        env <- gets this ;;
        ret (CheckEnvironment env)))%cxx.
Proof.
  apply silent_bind; [| intros _].
  { unfold ReadProfilerConfig. cbv zeta.
    repeat (apply silent_bind; [| intros _]); apply silent_assign_env. }
  apply silent_bind; [apply silent_lift | intros base_model_dir].
  apply silent_bind; [apply silent_ParseModelConfig | intros status].
  destruct (negb (OK status)); [apply silent_ret |].
  unfold ReadLoraModels, InitializeBlockManagerConfig. cbv zeta.
  silent_auto.
Qed.

Lemma silent_before_block_manager yaml_reader :
  silent LOG_WARNING (ReadGlobalSetting yaml_reader)
  /\ silent LOG_WARNING (ReadBatchSchedulerConfig yaml_reader).
Proof.
  unfold ReadGlobalSetting, ReadBatchSchedulerConfig. cbv zeta.
  split; repeat first [ apply silent_assign_env | progress silent_auto ].
Qed.

(** *** The phases of [ParseLoadedConfig] *)

Lemma assign_env_Ret_inv {A : Type} (o : Outcome A) (set : A -> Environment -> Environment)
    p u p' l :
  assign_env o set p = (Ret u, p', l) ->
  exists v, o = Ret v /\ p' = set_this (set v (this p)) p /\ l = [].
Proof.
  unfold assign_env, bind, lift, modify. destruct o as [v | e |]; try discriminate.
  intros [= _ <- <-]. eauto.
Qed.

Lemma GetScalar_int_Ret_range (m : gmap string YamlScalar) k d z :
  GetScalar_int m k d = Ret z -> Cxx.is_int d = true -> Cxx.INT_MIN <= z <= Cxx.INT_MAX.
Proof.
  unfold GetScalar_int. intros Hget Hd.
  assert (Hrange : forall x, Cxx.is_int x = true -> Cxx.INT_MIN <= x <= Cxx.INT_MAX).
  { intros x Hx. unfold Cxx.is_int in Hx. apply andb_true_iff in Hx as [Hlo Hhi].
    apply Z.leb_le in Hlo, Hhi. lia. }
  destruct (m !! k) as [[x | | |] |]; try discriminate.
  - destruct (Cxx.is_int x) eqn:Hx; [| discriminate]. injection Hget as <-. auto.
  - injection Hget as <-. auto.
Qed.

Lemma GetScalar_size_t_Ret_range (m : gmap string YamlScalar) k d z :
  GetScalar_size_t m k d = Ret z -> 0 <= d -> 0 <= z.
Proof.
  unfold GetScalar_size_t. intros Hget Hd.
  destruct (m !! k) as [[x | | |] |]; try discriminate.
  - destruct (Cxx.is_size_t x) eqn:Hx; [| discriminate]. injection Hget as <-.
    unfold Cxx.is_size_t in Hx. apply andb_true_iff in Hx as [Hlo _].
    apply Z.leb_le in Hlo. exact Hlo.
  - injection Hget as <-. exact Hd.
Qed.

(** The three ways [AlignPrefixCacheLen] returns. *)
Lemma AlignPrefixCacheLen_Ret_inv (p0 b : Z) (s : Proc) r s' l :
  Cxx.INT_MIN <= p0 <= Cxx.INT_MAX -> 0 <= b ->
  AlignPrefixCacheLen p0 b s = (Ret r, s', l) ->
  s' = s
  /\ ((p0 <= 0 /\ r = p0 /\ l = [])
      \/ (0 < p0 /\ 0 < b /\ p0 mod b = 0 /\ r = p0 /\ l = [])
      \/ (0 < p0 /\ 0 < b /\ p0 mod b <> 0 /\ r = p0 / b * b
          /\ l = [(LOG_WARNING, prefix_cache_warning p0 b (p0 / b * b))])).
Proof.
  intros Hp0 Hb Hrun.
  destruct (Z_le_gt_dec p0 0) as [Hneg | Hpos].
  - unfold AlignPrefixCacheLen in Hrun.
    destruct (Z.gtb_spec p0 0) as [Hgt | _]; [lia |]. injection Hrun as <- <- <-. auto.
  - destruct (Z.eq_dec b 0) as [-> | Hbz].
    { rewrite AlignPrefixCacheLen_zero_block_token_num in Hrun by lia. discriminate. }
    destruct (Z.eq_dec (p0 mod b) 0) as [Hal | Hmis].
    + rewrite AlignPrefixCacheLen_aligned in Hrun by lia.
      injection Hrun as <- <- <-. split; [reflexivity |]. right. left.
      repeat split; try reflexivity; lia.
    + rewrite AlignPrefixCacheLen_misaligned in Hrun by lia.
      injection Hrun as <- <- <-. split; [reflexivity |]. right. right.
      repeat split; try reflexivity; lia.
Qed.

(** A returning [ReadGlobalSetting] has passed the check of line 100. *)
Lemma ReadGlobalSetting_Ret_inv yaml_reader p u p' lg :
  ReadGlobalSetting yaml_reader p = (Ret u, p', lg) ->
  0 < tensor_parallel_size_ (this p') /\ 0 < pipeline_parallel_size_ (this p').
Proof.
  unfold ReadGlobalSetting. cbv zeta. intros Hrun.
  do 5 bind_inv Hrun.
  apply ModelConfigFacts.gets_Ret_inv in Hm3 as (-> & -> & _).
  match type of Hrun with
  | context [negb (?pp && ?tp)] => destruct pp eqn:Hpp; destruct tp eqn:Htp
  end; cbv [negb andb throw lift ret] in Hrun; try discriminate Hrun.
  injection Hrun as _ <- _.
  apply Z.gtb_lt in Hpp, Htp. auto.
Qed.

(** A returning [ReadBlockManagerConfig]: the one [block_token_num] it read
    for both tiers, and the alignment it stored. *)
Lemma ReadBlockManagerConfig_Ret_inv yaml_reader p u p' lg :
  ReadBlockManagerConfig yaml_reader p = (Ret u, p', lg) ->
  exists b p0 q,
    GetScalar_size_t (GetRootNode yaml_reader) "setting.block_manager.block_token_num" 16
    = Ret b
    /\ GetScalar_int (GetRootNode yaml_reader) "setting.block_manager.prefix_cache_len" 0
       = Ret p0
    /\ AlignPrefixCacheLen p0 b q = (Ret (prefix_cache_len_of p'), q, lg)
    /\ geometry_is b p'.
Proof.
  unfold ReadBlockManagerConfig. cbv zeta. intros Hrun.
  do 10 bind_inv Hrun.
  apply assign_env_Ret_inv in Hm as (b & Hb & -> & ->).
  apply assign_env_Ret_inv in Hm0 as (b' & Hb' & -> & ->).
  apply assign_env_Ret_inv in Hm1 as (? & _ & -> & ->).
  apply assign_env_Ret_inv in Hm2 as (? & _ & -> & ->).
  apply assign_env_Ret_inv in Hm3 as (? & _ & -> & ->).
  apply assign_env_Ret_inv in Hm4 as (? & _ & -> & ->).
  apply assign_env_Ret_inv in Hm5 as (? & _ & -> & ->).
  apply ModelConfigFacts.lift_Ret_inv in Hm6 as (Hp0 & -> & ->).
  apply ModelConfigFacts.gets_Ret_inv in Hm7 as (-> & -> & ->).
  apply ModelConfigFacts.modify_Ret_inv in Hrun as (-> & ->).
  assert (b' = b) as -> by congruence.
  pose proof (stable_AlignPrefixCacheLen (fun q => q = _) _ _ _ _ _ _ eq_refl Hm8) as ->.
  subst_logs. simpl. rewrite app_nil_r.
  eexists b, _, _. split; [exact Hb |]. split; [exact Hp0 |].
  split; [exact Hm8 |]. split; reflexivity.
Qed.

(** From the profiler config on, a predicate that the profiler config, the
    stream counter, the map of model configs and
    [InitializeBlockManagerConfig] keep is kept. *)
Lemma stable_after_block_manager (I : Proc -> Prop) yaml_reader :
  (forall f p, I p -> I (set_this (assign_profiler f (this p)) p)) ->
  (forall n p, I p -> I (set_streams n p)) ->
  (forall m p, I p -> I (set_this (set_model_configs_ m (this p)) p)) ->
  stable I InitializeBlockManagerConfig ->
  stable I
    (ReadProfilerConfig yaml_reader ;;
     base_model_dir <-
       lift (GetScalar_string (GetRootNode yaml_reader) "model_spec.base_model.model_dir" "") ;;
     status <- ParseModelConfig base_model_dir ;;
     if negb (OK status) then ret status
     else
       (ReadLoraModels yaml_reader ;;
        InitializeBlockManagerConfig ;;
        env <- gets this ;;
        ret (CheckEnvironment env)))%cxx.
Proof.
  intros Hprofiler Hstreams Hmodels Hinit.
  apply stable_bind; [apply stable_ReadProfilerConfig; exact Hprofiler | intros _].
  apply stable_bind; [apply stable_lift | intros dir].
  apply stable_bind; [apply stable_ParseModelConfig; assumption | intros status].
  destruct (negb (OK status)); [apply stable_ret |].
  apply stable_bind; [apply stable_ReadLoraModels | intros _].
  apply stable_bind; [exact Hinit | intros _].
  apply stable_bind; [apply stable_gets | intros env]. apply stable_ret.
Qed.

Lemma ParseConfig_parallel_sizes config_file p st p' lg :
  OK (fst (LoadFile config_file)) = true ->
  ParseConfig config_file p = (Ret st, p', lg) ->
  0 < tensor_parallel_size_ (this p') /\ 0 < pipeline_parallel_size_ (this p').
Proof.
  intros Hok Hrun. rewrite (ParseConfig_loaded _ Hok) in Hrun.
  unfold ParseLoadedConfig in Hrun. bind_inv Hrun.
  apply ReadGlobalSetting_Ret_inv in Hm.
  revert Hrun.
  match goal with
  | |- ?m _ = _ -> _ =>
      assert (Hst : stable (fun q => 0 < tensor_parallel_size_ (this q)
                                     /\ 0 < pipeline_parallel_size_ (this q)) m)
  end.
  { apply stable_bind; [unfold ReadBatchSchedulerConfig; stable_auto | intros _].
    apply stable_bind;
      [unfold ReadBlockManagerConfig; stable_auto; apply stable_AlignPrefixCacheLen
      | intros _].
    apply stable_after_block_manager; try (intros ? ? Hinv; exact Hinv).
    unfold InitializeBlockManagerConfig. stable_auto. }
  intros Hrun. eapply Hst; eauto.
Qed.

(** Property X8.
    In every run of [ParseConfig] on a file that loads, a returned status
    means the tensor-parallel and the pipeline-parallel size are positive
    (line 100 throws otherwise), so [InitializeBlockManagerConfig] divided
    by neither zero. *)
Theorem ParseConfig_parallel_sizes_positive config_file p st p' lg :
  OK (fst (LoadFile config_file)) = true ->
  ParseConfig config_file p = (Ret st, p', lg) ->
  0 < tensor_parallel_size_ (this p') /\ 0 < pipeline_parallel_size_ (this p')
  /\ GetTensorParallelSize (this p') <> 0 /\ GetPipeLineParallelSize (this p') <> 0.
Proof.
  intros Hok Hrun. destruct (ParseConfig_parallel_sizes _ _ _ _ _ Hok Hrun) as [Htp Hpp].
  unfold GetTensorParallelSize, GetPipeLineParallelSize. repeat split; lia.
Qed.

(** Property X9.
    In every run of [ParseConfig] on a file that loads, a returned status
    means the host and the device allocator config hold the same
    [block_token_num], the one the file gives (16 without the key), and the
    stored [prefix_cache_len] is either not positive or a multiple of it. *)
Theorem ParseConfig_prefix_cache_len_aligned config_file p st p' lg :
  OK (fst (LoadFile config_file)) = true ->
  ParseConfig config_file p = (Ret st, p', lg) ->
  exists b,
    GetScalar_size_t (GetRootNode (snd (LoadFile config_file)))
      "setting.block_manager.block_token_num" 16 = Ret b
    /\ geometry_is b p'
    /\ (prefix_cache_len_of p' <= 0 \/ (0 < b /\ Z.divide b (prefix_cache_len_of p'))).
Proof.
  intros Hok Hrun. rewrite (ParseConfig_loaded _ Hok) in Hrun.
  unfold ParseLoadedConfig in Hrun. do 3 bind_inv Hrun.
  apply ReadBlockManagerConfig_Ret_inv in Hm1 as (b & p0 & q & Hb & Hp0 & Halign & Hgeom).
  exists b. split; [exact Hb |].
  assert (Haligned : prefix_cache_len_of s1 <= 0
                     \/ (0 < b /\ Z.divide b (prefix_cache_len_of s1))).
  { apply AlignPrefixCacheLen_Ret_inv in Halign as (_ & Hcase).
    - destruct Hcase as [(Hneg & -> & _) | [(Hpos & Hbpos & Hal & -> & _)
                                           | (Hpos & Hbpos & _ & -> & _)]].
      + left. exact Hneg.
      + right. split; [exact Hbpos |]. apply Z.mod_divide; [lia | exact Hal].
      + right. split; [exact Hbpos |]. apply Z.divide_factor_r.
    - eapply GetScalar_int_Ret_range; [exact Hp0 | reflexivity].
    - eapply GetScalar_size_t_Ret_range; [exact Hb | lia]. }
  revert Hrun.
  match goal with
  | |- ?m _ = _ -> _ =>
      assert (Hst : stable (fun q => geometry_is b q
                                     /\ prefix_cache_len_of q = prefix_cache_len_of s1) m)
  end.
  { apply stable_after_block_manager; try (intros ? ? Hinv; exact Hinv).
    unfold InitializeBlockManagerConfig. stable_auto. }
  intros Hrun.
  destruct (Hst _ _ _ _ (conj Hgeom eq_refl) Hrun) as [Hgeom' Hprefix].
  split; [exact Hgeom' |]. rewrite Hprefix. exact Haligned.
Qed.

(** Property X10.
    A [prefix_cache_len] that is not positive, or that is a multiple of
    [block_token_num], is stored as the file gives it, and no run of
    [ParseConfig] that returns has written a warning. *)
Theorem ParseConfig_aligned_prefix_kept_silently config_file (p0 b : Z) p st p' lg :
  OK (fst (LoadFile config_file)) = true ->
  GetScalar_int (GetRootNode (snd (LoadFile config_file)))
    "setting.block_manager.prefix_cache_len" 0 = Ret p0 ->
  GetScalar_size_t (GetRootNode (snd (LoadFile config_file)))
    "setting.block_manager.block_token_num" 16 = Ret b ->
  p0 <= 0 \/ p0 mod b = 0 ->
  ParseConfig config_file p = (Ret st, p', lg) ->
  prefix_cache_len_of p' = p0
  /\ Forall (fun entry => fst entry <> LOG_WARNING) lg.
Proof.
  intros Hok Hp0 Hb Haligned Hrun. rewrite (ParseConfig_loaded _ Hok) in Hrun.
  unfold ParseLoadedConfig in Hrun. do 3 bind_inv Hrun.
  apply ReadBlockManagerConfig_Ret_inv in Hm1
    as (b' & p0' & q & Hb' & Hp0' & Halign & Hgeom).
  assert (b' = b) as -> by congruence. assert (p0' = p0) as -> by congruence.
  apply AlignPrefixCacheLen_Ret_inv in Halign as (_ & Hcase);
    [| eapply GetScalar_int_Ret_range; [exact Hp0 | reflexivity]
     | eapply GetScalar_size_t_Ret_range; [exact Hb | lia]].
  assert (Hkept : prefix_cache_len_of s1 = p0 /\ l3 = []).
  { destruct Hcase as [(_ & -> & ->) | [(_ & _ & _ & -> & ->) | (Hpos & _ & Hmis & _)]];
      [auto | auto |].
    destruct Haligned; [lia | contradiction]. }
  destruct Hkept as [Hkept ->].
  split.
  - revert Hrun.
    match goal with
    | |- ?m _ = _ -> _ =>
        assert (Hst : stable (fun q => prefix_cache_len_of q = p0) m)
    end.
    { apply stable_after_block_manager; try (intros ? ? Hinv; exact Hinv).
      unfold InitializeBlockManagerConfig. stable_auto. }
    intros Hrun. eapply Hst; eauto.
  - destruct (silent_before_block_manager (snd (LoadFile config_file))) as [Hg Hs].
    specialize (Hg p). specialize (Hs s).
    pose proof (silent_after_block_manager (snd (LoadFile config_file)) s1) as Ht.
    rewrite Hm in Hg. rewrite Hm0 in Hs. rewrite Hrun in Ht.
    unfold log_of in *. simpl in *. subst lg l0 l2.
    repeat (apply Forall_app; split); auto.
Qed.

(** Property X11.
    The model config that [GetModelConfig] hands out after a [ParseConfig]
    that returned OK agrees with the environment it is handed out from:
    its tensor-parallel size (which is positive), block_token_num,
    max_batch_size, max_scheduler_token_num and max_token_num are those of
    the final environment; what [InitializeBlockManagerConfig] wrote after
    the registration did not touch them. *)
Theorem ParseConfig_OK_model_config_agrees config_file p st p' lg previous :
  OK (fst (LoadFile config_file)) = true ->
  ParseConfig config_file p = (Ret st, p', lg) ->
  OK st = true ->
  exists registered,
    GetModelConfig (this p') (name ModelConfig_default) previous
    = (Status_default, registered)
    /\ tensor_para_size registered = tensor_parallel_size_ (this p')
    /\ 0 < tensor_para_size registered
    /\ model_block_token_num registered
       = block_token_num (device_allocator_config (block_manager_config_ (this p')))
    /\ model_max_batch_size registered = max_batch_size (scheduler_of p')
    /\ max_scheduler_token_num registered = max_step_tokens (scheduler_of p')
    /\ max_token_num registered = max_token_len (scheduler_of p').
Proof.
  intros Hok Hrun Hst.
  destruct (ParseConfig_parallel_sizes _ _ _ _ _ Hok Hrun) as [Htp _].
  rewrite (ParseConfig_loaded _ Hok) in Hrun.
  unfold ParseLoadedConfig in Hrun. do 6 bind_inv Hrun.
  destruct (OK a4) eqn:Hparse; simpl in Hrun;
    [| injection Hrun as <- _ _; congruence].
  apply ModelConfigFacts.ParseModelConfig_OK_registered in Hm4
    as (registered & Hmap & _ & _ & Htps & Hbtn & Hbatch & Hstep & Hlen & Hframe);
    [| exact Hparse].
  exists registered.
  revert Hrun.
  match goal with
  | |- ?m _ = _ -> _ =>
      assert (Hstable :
               stable (fun q =>
                         model_configs_ (this q) = model_configs_ (this s4)
                         /\ tensor_parallel_size_ (this q) = tensor_parallel_size_ (this s3)
                         /\ block_token_num (device_allocator_config
                                               (block_manager_config_ (this q)))
                            = block_token_num (device_allocator_config
                                                 (block_manager_config_ (this s3)))
                         /\ scheduler_of q = scheduler_of s3) m)
  end.
  { apply stable_bind; [apply stable_ReadLoraModels | intros _].
    unfold InitializeBlockManagerConfig. stable_auto. }
  intros Hrun.
  destruct (Hstable s4 st p' l10) as (Hmodels & Htp' & Hbtn' & Hsched); [| exact Hrun |].
  { unfold scheduler_of. rewrite <- Hframe. repeat split; reflexivity. }
  unfold GetModelConfig. rewrite Hmodels, Hmap, lookup_insert_eq.
  rewrite Htp' in Htp |- *. rewrite Hbtn', Hsched.
  repeat split; auto. rewrite Htps. exact Htp.
Qed.

End Phases.

(** *** [ParseOptions] *)

Section Options.

Context `{W : World}.

(** Property X12.
    [ParseOptions] stores the endpoint before it parses anything: whatever
    status it returns, the environment holds the host of the command line
    and the port converted to [uint32_t], which for a negative flag is the
    flag plus 2^32.  An OK result is [Status()]; any other is the status of
    [ParseConfig], in the state [ParseConfig] left, after an error line
    that carries its message. *)
Theorem ParseOptions_endpoint flags p st p' lg :
  ParseOptions flags p = (Ret st, p', lg) ->
  host (endpoint_config_ (this p')) = FLAGS_host flags
  /\ port (endpoint_config_ (this p')) = FLAGS_port flags mod 2 ^ 32
  /\ (OK st = true -> st = Status_default)
  /\ (OK st = false ->
      In (LOG_ERROR, "Parse config file " +:+ FLAGS_config_file flags +:+ " error: "
                     +:+ message st) lg
      /\ exists q lgc, ParseConfig (FLAGS_config_file flags) q = (Ret st, p', lgc)).
Proof.
  unfold ParseOptions. intros Hrun. do 5 bind_inv Hrun.
  apply ModelConfigFacts.modify_Ret_inv in Hm as (-> & _).
  apply ModelConfigFacts.modify_Ret_inv in Hm0 as (-> & _).
  apply ModelConfigFacts.modify_Ret_inv in Hm1 as (-> & _).
  apply ModelConfigFacts.modify_Ret_inv in Hm2 as (-> & _).
  assert (Hend : host (endpoint_config_ (this s3)) = FLAGS_host flags
                 /\ port (endpoint_config_ (this s3)) = FLAGS_port flags mod 2 ^ 32).
  { revert Hm3.
    match goal with
    | |- ?m _ = _ -> _ =>
        assert (Hst : stable (fun q => host (endpoint_config_ (this q)) = FLAGS_host flags
                                       /\ port (endpoint_config_ (this q))
                                          = FLAGS_port flags mod 2 ^ 32) m)
    end.
    { unfold ParseConfig. cbv zeta.
      destruct (negb (OK (fst (LoadFile (FLAGS_config_file flags))))); [stable_auto |].
      unfold ParseLoadedConfig.
      apply stable_bind; [unfold ReadGlobalSetting; stable_auto | intros _].
      apply stable_bind; [unfold ReadBatchSchedulerConfig; stable_auto | intros _].
      apply stable_bind;
        [unfold ReadBlockManagerConfig; stable_auto; apply stable_AlignPrefixCacheLen
        | intros _].
      apply stable_after_block_manager; try (intros ? ? Hinv; exact Hinv).
      unfold InitializeBlockManagerConfig. stable_auto. }
    intros Hm3. eapply Hst; [| exact Hm3]. split; reflexivity. }
  destruct (OK a3) eqn:Hok; simpl in Hrun.
  - injection Hrun as <- <- _. destruct Hend. repeat split; auto; discriminate.
  - bind_inv Hrun. injection Hm as _ <- <-. injection Hrun as <- <- <-.
    destruct Hend. repeat split; auto; [congruence | | eauto].
    subst_logs. rewrite !in_app_iff. simpl. auto 10.
Qed.

End Options.

End EnvironmentFacts.

(* ===================================================================== *)
(** ** numerous_llm: the list of models *)
(* ===================================================================== *)

Module ModelListFacts.

Import Numerous.
Import NumerousFacts.

Section Options.

Context `{W : World}.

(** A returning [ParseOptions]: either the file opened and the reader did
    not report a negative error, and one model is added, or the status is
    the segment-fault code and the environment is untouched. *)
Lemma ParseOptions_Ret_inv FLAGS_model_config p st p' lg :
  ParseOptions FLAGS_model_config p = (Ret st, p', lg) ->
  (st = Status_default
   /\ is_Some (ifstream_open (streams p) FLAGS_model_config)
   /\ 0 <= ParseError (INIReader_new (S (streams p)) FLAGS_model_config)
   /\ exists name_,
       Get (INIReader_new (S (streams p)) FLAGS_model_config)
         "ft_instance_hyperparameter" "model_name" = Ret name_
       /\ model_configs_ (this p')
          = model_configs_ (this p) ++ [{| name := name_; path := FLAGS_model_config |}])
  \/ (st = {| code := RET_SEGMENT_FAULT; message := "" |} /\ this p' = this p).
Proof.
  unfold ParseOptions. intros Hrun.
  bind_inv Hrun. injection Hm as <- <- <-.
  destruct (bool_decide _) eqn:Hex; simpl in Hrun.
  2:{ right. bind_inv Hrun. injection Hm as _ <- _. injection Hrun as <- <- _. auto. }
  apply bool_decide_eq_true_1 in Hex.
  bind_inv Hrun. injection Hm as <- <- <-. simpl in Hrun.
  destruct (Z.ltb_spec (ParseError (INIReader_new (S (streams p)) FLAGS_model_config)) 0)
    as [Hneg | Hnonneg].
  { right. bind_inv Hrun. injection Hm as _ <- _. injection Hrun as <- <- _. auto. }
  left. do 3 bind_inv Hrun.
  injection Hm as Hget <- _. injection Hm0 as _ <- _. injection Hm1 as _ <- _.
  injection Hrun as <- <- _.
  split; [reflexivity |]. split; [exact Hex |]. split; [exact Hnonneg |].
  eexists. split; [exact Hget | reflexivity].
Qed.

(** Property X13.
    [ParseOptions] adds at most one model, at the end of the list that
    [GetModelList] hands out: on success the model named by the ini file
    with the flag as its path; on failure, which is always the
    segment-fault code, the list is as before. *)
Theorem ParseOptions_appends_one_model FLAGS_model_config p st p' lg previous :
  ParseOptions FLAGS_model_config p = (Ret st, p', lg) ->
  (OK st = true
   /\ exists name_,
       Get (INIReader_new (S (streams p)) FLAGS_model_config)
         "ft_instance_hyperparameter" "model_name" = Ret name_
       /\ snd (GetModelList (this p') previous)
          = snd (GetModelList (this p) previous)
            ++ [{| name := name_; path := FLAGS_model_config |}])
  \/ (code st = RET_SEGMENT_FAULT
      /\ GetModelList (this p') previous = GetModelList (this p) previous).
Proof.
  intros Hrun.
  apply ParseOptions_Ret_inv in Hrun
    as [(-> & _ & _ & name_ & Hget & Hlist) | (-> & Henv)].
  - left. split; [reflexivity |]. exists name_. split; [exact Hget | exact Hlist].
  - right. split; [reflexivity |]. unfold GetModelList. rewrite Henv. reflexivity.
Qed.

(** Property X14.
    Only a negative [ParseError] is a failure: when the file opens, the
    reader reports zero or a positive number (a line of the file it could
    not parse) and the model name can be read, [ParseOptions] returns
    [Status()] and registers the model. *)
Theorem ParseOptions_accepts_nonnegative_ParseError FLAGS_model_config p text name_ :
  ifstream_open (streams p) FLAGS_model_config = Some text ->
  0 <= ParseError (INIReader_new (S (streams p)) FLAGS_model_config) ->
  Get (INIReader_new (S (streams p)) FLAGS_model_config)
    "ft_instance_hyperparameter" "model_name" = Ret name_ ->
  outcome_of (ParseOptions FLAGS_model_config p) = Ret Status_default
  /\ model_configs_ (this (state_of (ParseOptions FLAGS_model_config p)))
     = model_configs_ (this p) ++ [{| name := name_; path := FLAGS_model_config |}].
Proof.
  intros Hopen Herr Hget. unfold ParseOptions.
  assert (Hex : IsFileExists FLAGS_model_config p
                = (Ret true, {| this := this p; streams := S (streams p) |}, [])).
  { unfold IsFileExists. rewrite Hopen. rewrite bool_decide_eq_true_2 by eauto. reflexivity. }
  rewrite (bind_Ret _ _ _ _ _ _ Hex). cbv beta. change (negb true) with false. cbv iota.
  apply Z.ltb_ge in Herr.
  unfold outcome_of, state_of, bind, new_INIReader, lift, modify, log, ret. simpl.
  rewrite Herr, Hget. split; reflexivity.
Qed.

End Options.

End ModelListFacts.

(* ===================================================================== *)
(** ** ksana_llm: the model instance *)
(* ===================================================================== *)

Module ModelInstanceFacts.

Import ModelInstance.

(** *** [std::string::find] *)

Lemma contains_true (s needle : string) :
  contains s needle = true ->
  exists position, substring position (String.length needle) s = needle.
Proof.
  unfold contains. destruct (String.index 0 needle s) as [position |] eqn:Hindex;
    [| discriminate].
  intros _. exists position. eapply index_correct1. exact Hindex.
Qed.

Lemma contains_false (s needle : string) :
  contains s needle = false -> needle <> ""%string ->
  forall position, substring position (String.length needle) s <> needle.
Proof.
  unfold contains. destruct (String.index 0 needle s) as [found |] eqn:Hindex;
    [discriminate |].
  intros _ Hne position. eapply index_correct3; [exact Hindex | exact Hne | lia].
Qed.

Lemma contains_occurrence (s needle : string) position :
  needle <> ""%string ->
  substring position (String.length needle) s = needle -> contains s needle = true.
Proof.
  intros Hne Hsub. destruct (contains s needle) eqn:Hc; [reflexivity |].
  exfalso. exact (contains_false _ _ Hc Hne position Hsub).
Qed.

Lemma contains_no_occurrence (s needle : string) :
  (forall position, substring position (String.length needle) s <> needle) ->
  contains s needle = false.
Proof.
  intros Hno. destruct (contains s needle) eqn:Hc; [| reflexivity].
  apply contains_true in Hc as [position Hsub]. exfalso. exact (Hno position Hsub).
Qed.

Section Code.

Context {BaseModel BaseWeight InferStage ForwardRequest : Type}.
Variable CreateModelInstance :
  Architecture -> string -> M (@Instance BaseModel BaseWeight) unit.
Variable Model_GetLogitsPtr : BaseModel -> Z.
Variable Worker_Forward :
  Z -> BaseModel -> BaseWeight -> InferStage -> M (list ForwardRequest) Status.

Implicit Types (this : @Instance BaseModel BaseWeight).

Lemma Load_without_word this :
  contains (Cxx.transform_tolower (Ksana.name (model_config_ this))) "llama" = false ->
  contains (Cxx.transform_tolower (Ksana.name (model_config_ this))) "qwen" = false ->
  contains (Cxx.transform_tolower (Ksana.name (model_config_ this))) "baichuan" = false ->
  exists what, Load CreateModelInstance this = (Throw (runtime_error what), this, []).
Proof.
  intros Hl Hq Hb. unfold Load, bind, get. cbv zeta. rewrite Hl, Hq, Hb.
  eexists. reflexivity.
Qed.

(** Property X15.
    [Load] looks for the words in the lower-cased name of the config, in
    the order llama, qwen, baichuan, and the first word found decides: the
    instance is named by it and the models of that architecture are created
    under the lower-cased name.  A name with none of the words makes [Load]
    throw, with the instance untouched. *)
Theorem Load_dispatch this :
  let unified_model_name := Cxx.transform_tolower (Ksana.name (model_config_ this)) in
  let occurs word :=
    exists position, substring position (String.length word) unified_model_name = word in
  (occurs "llama"%string ->
   Load CreateModelInstance this
   = CreateModelInstance Llama unified_model_name (set_name "llama" this))
  /\ (~ occurs "llama"%string -> occurs "qwen"%string ->
      Load CreateModelInstance this
      = CreateModelInstance Qwen unified_model_name (set_name "qwen" this))
  /\ (~ occurs "llama"%string -> ~ occurs "qwen"%string -> occurs "baichuan"%string ->
      Load CreateModelInstance this
      = CreateModelInstance Baichuan unified_model_name (set_name "baichuan" this))
  /\ (~ occurs "llama"%string -> ~ occurs "qwen"%string -> ~ occurs "baichuan"%string ->
      exists what, Load CreateModelInstance this = (Throw (runtime_error what), this, [])).
Proof.
  intros unified_model_name occurs.
  assert (Hyes : forall word, word <> ""%string -> occurs word ->
                              contains unified_model_name word = true).
  { intros word Hne [position Hsub]. eapply contains_occurrence; eauto. }
  assert (Hno : forall word, ~ occurs word -> contains unified_model_name word = false).
  { intros word Hnot. apply contains_no_occurrence. intros position Hsub.
    apply Hnot. exists position. exact Hsub. }
  assert (Hrun : forall arch word,
             (modify (set_name word) ;; CreateModelInstance arch unified_model_name)%cxx this
             = CreateModelInstance arch unified_model_name (set_name word this)).
  { intros arch word. unfold bind, modify.
    destruct (CreateModelInstance arch unified_model_name (set_name word this))
      as [[[[] | e |] i] l]; reflexivity. }
  assert (Hload : forall body : M (@Instance BaseModel BaseWeight) unit,
             (this0 <- get ;; body)%cxx this = body this).
  { intros body. unfold bind, get. destruct (body this) as [[[[] | e |] i] l]; reflexivity. }
  unfold Load.
  match goal with
  | |- context [bind get ?f] =>
      change (bind get f this) with
        (bind get (fun _ : @Instance BaseModel BaseWeight => f this) this)
  end.
  rewrite Hload. cbv beta zeta. fold unified_model_name.
  split; [| split; [| split]].
  - intros Hl. rewrite (Hyes "llama"%string) by (discriminate || exact Hl). apply Hrun.
  - intros Hl Hq. rewrite (Hno _ Hl), (Hyes "qwen"%string) by (discriminate || exact Hq).
    apply Hrun.
  - intros Hl Hq Hb.
    rewrite (Hno _ Hl), (Hno _ Hq), (Hyes "baichuan"%string) by (discriminate || exact Hb).
    apply Hrun.
  - intros Hl Hq Hb. rewrite (Hno _ Hl), (Hno _ Hq), (Hno _ Hb).
    eexists. reflexivity.
Qed.

(** Property X16.
    [ParseModelConfig] leaves the name of the config it registers as a
    default-constructed [ModelConfig] has it, and [Load] chooses by that
    name alone: unless the default name contains llama, qwen or baichuan,
    [Load] throws on the config of every model directory, whatever its
    config.json says. *)
Theorem Load_of_parsed_config_needs_a_name `{W : Ksana.World} model_dir p st p' lg previous
    instance_name models weights :
  Ksana.ParseModelConfig model_dir p = (Ret st, p', lg) ->
  OK st = true ->
  (forall word position,
      In word ["llama"; "qwen"; "baichuan"]%string ->
      substring position (String.length word)
        (Cxx.transform_tolower (Ksana.name Ksana.ModelConfig_default)) <> word) ->
  let this :=
    {| model_config_ :=
         snd (Ksana.GetModelConfig (Ksana.this p') (Ksana.name Ksana.ModelConfig_default)
                previous);
       name := instance_name; models_ := models; weights_ := weights |} in
  exists what, Load CreateModelInstance this = (Throw (runtime_error what), this, []).
Proof.
  intros Hrun Hok Hno this.
  apply ModelConfigFacts.ParseModelConfig_OK_registered in Hrun
    as (registered & Hmap & Hname & _); [| exact Hok].
  assert (Hconfig : Ksana.name (model_config_ this) = Ksana.name Ksana.ModelConfig_default).
  { subst this. unfold Ksana.GetModelConfig. rewrite Hmap, lookup_insert_eq. exact Hname. }
  apply Load_without_word; rewrite Hconfig; apply contains_no_occurrence;
    intros position; apply Hno; simpl; auto.
Qed.

(** *** [GetLogitsPtr] and [Forward] *)

Lemma GetLogitsPtr_map this :
  GetLogitsPtr Model_GetLogitsPtr this = map Model_GetLogitsPtr (models_ this).
Proof.
  unfold GetLogitsPtr.
  assert (Hgen : forall models results,
             foldl (fun results model => results ++ [Model_GetLogitsPtr model]) results models
             = results ++ map Model_GetLogitsPtr models).
  { induction models as [| model models IH]; intros results; simpl.
    - rewrite app_nil_r. reflexivity.
    - rewrite IH, <- app_assoc. reflexivity. }
  apply Hgen.
Qed.

Lemma vector_at_Ret_inv {A : Type} (v : list A) (i : Z) a :
  Numerous.vector_at v i = Ret a -> 0 <= i /\ v !! Z.to_nat i = Some a.
Proof.
  unfold Numerous.vector_at. destruct (Z.ltb_spec i 0); [discriminate |].
  destruct (v !! Z.to_nat i); [| discriminate]. intros [= ->]. auto.
Qed.

Lemma Forward_loop_Ret_inv this stage remaining :
  forall worker_id results forward_reqs final forward_reqs' lg,
    0 <= worker_id ->
    Forward_loop Worker_Forward this stage remaining worker_id results forward_reqs
    = (Ret final, forward_reqs', lg) ->
    length final = (length results + remaining)%nat
    /\ (remaining = 0%nat
        \/ (Z.to_nat worker_id + remaining <= length (models_ this)
            /\ Z.to_nat worker_id + remaining <= length (weights_ this))%nat).
Proof.
  induction remaining as [| remaining IH];
    intros worker_id results forward_reqs final forward_reqs' lg Hid Hrun.
  - injection Hrun as <- _ _. split; [lia | left; reflexivity].
  - simpl in Hrun.
    apply bind_Ret_inv in Hrun as (model & s1 & l1 & l2 & Hmodel & Hrun & _).
    apply bind_Ret_inv in Hrun as (weight & s2 & l3 & l4 & Hweight & Hrun & _).
    apply bind_Ret_inv in Hrun as (status & s3 & l5 & l6 & _ & Hrun & _).
    injection Hmodel as Hmodel _ _. injection Hweight as Hweight _ _.
    apply vector_at_Ret_inv in Hmodel as [_ Hmodel].
    apply vector_at_Ret_inv in Hweight as [_ Hweight].
    apply lookup_lt_Some in Hmodel, Hweight.
    apply IH in Hrun as [Hlen Hbound]; [| lia].
    rewrite length_app in Hlen. simpl in Hlen.
    split; [lia |]. right.
    destruct Hbound as [-> | [Hm Hw]]; [lia |].
    replace (Z.to_nat (worker_id + 1)) with (S (Z.to_nat worker_id)) in * by lia. lia.
Qed.

(** Property X17.
    A [Forward] that returns has one status per worker of the
    tensor-parallel group, and found a model and a weight for each of them
    in the static vectors; with fewer models or weights than workers it
    does not return (the index is out of range).  [GetLogitsPtr] has one
    pointer per model, so never fewer than [Forward] has statuses. *)
Theorem Forward_one_status_per_worker this tensor_parallel_size stage forward_reqs
    results forward_reqs' lg :
  Forward Worker_Forward this tensor_parallel_size stage forward_reqs
  = (Ret results, forward_reqs', lg) ->
  length results = Z.to_nat tensor_parallel_size
  /\ (Z.to_nat tensor_parallel_size <= length (models_ this))%nat
  /\ (Z.to_nat tensor_parallel_size <= length (weights_ this))%nat
  /\ (length results <= length (GetLogitsPtr Model_GetLogitsPtr this))%nat.
Proof.
  unfold Forward. intros Hrun.
  apply Forward_loop_Ret_inv in Hrun as [Hlen Hbound]; [| lia].
  simpl in Hlen. rewrite GetLogitsPtr_map, length_map.
  destruct Hbound as [Hzero | [Hm Hw]]; simpl in *; lia.
Qed.

Lemma Forward_loop_returns this stage remaining :
  (forall worker_id model weight forward_reqs,
      exists status forward_reqs' lg,
        Worker_Forward worker_id model weight stage forward_reqs
        = (Ret status, forward_reqs', lg)) ->
  forall worker_id results forward_reqs,
    0 <= worker_id ->
    (Z.to_nat worker_id + remaining <= length (models_ this))%nat ->
    (Z.to_nat worker_id + remaining <= length (weights_ this))%nat ->
    exists final forward_reqs' lg,
      Forward_loop Worker_Forward this stage remaining worker_id results forward_reqs
      = (Ret final, forward_reqs', lg).
Proof.
  intros Hworkers.
  induction remaining as [| remaining IH]; intros worker_id results forward_reqs Hid Hm Hw.
  - simpl. eexists _, _, _. reflexivity.
  - simpl.
    destruct (lookup_lt_is_Some_2 (models_ this) (Z.to_nat worker_id)) as [model Hmodel];
      [lia |].
    destruct (lookup_lt_is_Some_2 (weights_ this) (Z.to_nat worker_id)) as [weight Hweight];
      [lia |].
    destruct (Hworkers worker_id model weight forward_reqs) as (status & reqs1 & l1 & Hrun).
    destruct (IH (worker_id + 1) (results ++ [status]) reqs1) as (final & reqs2 & l2 & Hrest);
      [lia | | |].
    { replace (Z.to_nat (worker_id + 1)) with (S (Z.to_nat worker_id)) by lia. lia. }
    { replace (Z.to_nat (worker_id + 1)) with (S (Z.to_nat worker_id)) by lia. lia. }
    exists final, reqs2, (l1 ++ l2).
    unfold bind, lift, Numerous.vector_at.
    destruct (Z.ltb_spec worker_id 0); [lia |].
    rewrite Hmodel, Hweight, Hrun, Hrest. reflexivity.
Qed.

(** Property X18.
    [Forward] does not stop at a worker that reports a failure: when every
    worker returns a status, OK or not, and the static vectors hold a model
    and a weight for each worker, [Forward] returns, with as many statuses
    as there are workers. *)
Theorem Forward_runs_every_worker this tensor_parallel_size stage forward_reqs :
  (forall worker_id model weight reqs,
      exists status reqs' lg,
        Worker_Forward worker_id model weight stage reqs = (Ret status, reqs', lg)) ->
  (Z.to_nat tensor_parallel_size <= length (models_ this))%nat ->
  (Z.to_nat tensor_parallel_size <= length (weights_ this))%nat ->
  exists results forward_reqs' lg,
    Forward Worker_Forward this tensor_parallel_size stage forward_reqs
    = (Ret results, forward_reqs', lg)
    /\ length results = Z.to_nat tensor_parallel_size.
Proof.
  intros Hworkers Hm Hw. unfold Forward.
  destruct (Forward_loop_returns this stage (Z.to_nat tensor_parallel_size) Hworkers
              0 [] forward_reqs) as (results & reqs' & lg & Hrun); [lia | simpl; lia .. |].
  exists results, reqs', lg. split; [exact Hrun |].
  apply Forward_loop_Ret_inv in Hrun as [Hlen _]; [| lia]. exact Hlen.
Qed.

End Code.

End ModelInstanceFacts.

(* ===================================================================== *)
(** ** numerous_llm: what [AttentionLayer::Init] does with its parameters *)
(* ===================================================================== *)

Module AttentionLayerFacts.

Import Numerous.
Import NumerousFacts.

Lemma parameter_float_inv (parameters : list any) (i : Z) (v : Q) :
  0 <= i ->
  outcome_bind (vector_at parameters i) any_cast_float = Ret v ->
  parameters !! Z.to_nat i = Some (any_float v).
Proof.
  intros Hi. unfold vector_at.
  destruct (i <? 0) eqn:Hneg; [lia |].
  destruct (parameters !! Z.to_nat i) as [[z | q | b |] |]; simpl; congruence.
Qed.

Lemma parameter_bool_inv (parameters : list any) (i : Z) (v : bool) :
  0 <= i ->
  outcome_bind (vector_at parameters i) any_cast_bool = Ret v ->
  parameters !! Z.to_nat i = Some (any_bool v).
Proof.
  intros Hi. unfold vector_at.
  destruct (i <? 0) eqn:Hneg; [lia |].
  destruct (parameters !! Z.to_nat i) as [[z | q | b |] |]; simpl; congruence.
Qed.

Section Layer.

Context {BM : Type} `{BlockManagerInterface BM}.
Variable cudaStreamSynchronize : Z -> Z.
Variable CUDA_CHECK : Z -> Outcome unit.
Variable GetBlockManagerConfig : BlockManagerConfig.
Variable BaseLayer_Init : list any -> Context -> Z -> M (@InitState BM) Status.

Implicit Types (s : @InitState BM) (parameters : list any) (context : Context) (rank : Z).

Abbreviation AttentionLayer_Init :=
  (Init cudaStreamSynchronize CUDA_CHECK GetBlockManagerConfig BaseLayer_Init).

Ltac exec_in H :=
  cbv - [vector_at any_cast_int any_cast_float any_cast_bool outcome_bind total_bytes_of
         Cxx.to_uint32 Cxx.to_int pretty String.append app Z.add fst snd
         SetDeviceId AllocateContiguous GetContiguousPtr] in H.

Ltac stuck_outcome H :=
  match type of H with
  | context [match ?x with Ret _ => _ | Throw _ => _ | Undefined => _ end] =>
      lazymatch x with
      | context [match _ with _ => _ end] => fail
      | _ => destruct x eqn:?; try discriminate H
      end
  | context [match ?x with Some _ => _ | None => _ end] =>
      lazymatch x with
      | context [match _ with _ => _ end] => fail
      | _ => destruct x eqn:?; try discriminate H
      end
  end.

(** Property X19.
    A run of [Init] that returns has read eight parameters, by position:
    the layer index, the number of positions, the numbers of heads and of
    key-value heads, the head size and the rotary dimension as [int], the
    base as [float] and the neox flag as [bool].  The first five are the
    fields of the layer; the rotary embedding is configured with the
    rotary dimension as a [uint32_t], the positions, the base, the head
    size, the heads, the key-value heads and the flag. *)
Theorem Init_reads_eight_parameters parameters context rank s st s' lg :
  AttentionLayer_Init parameters context rank s = (Ret st, s', lg) ->
  exists layer_index positions num_heads num_kv_heads head_size rotary base_ is_neox_
         config,
    parameters !! 0%nat = Some (any_int layer_index)
    /\ parameters !! 1%nat = Some (any_int positions)
    /\ parameters !! 2%nat = Some (any_int num_heads)
    /\ parameters !! 3%nat = Some (any_int num_kv_heads)
    /\ parameters !! 4%nat = Some (any_int head_size)
    /\ parameters !! 5%nat = Some (any_int rotary)
    /\ parameters !! 6%nat = Some (any_float base_)
    /\ parameters !! 7%nat = Some (any_bool is_neox_)
    /\ layer_index_ (layer s') = layer_index
    /\ max_position_embeddings_ (layer s') = positions
    /\ num_heads_ (layer s') = num_heads
    /\ num_kv_heads_ (layer s') = num_kv_heads
    /\ head_size_ (layer s') = head_size
    /\ rotary_embedding_cuda_ (layer s') = Some config
    /\ rotary_dim config = Cxx.to_uint32 rotary
    /\ max_position config = positions
    /\ base config = base_
    /\ rope_head_size config = head_size
    /\ rope_num_heads config = num_heads
    /\ rope_num_kv_heads config = num_kv_heads
    /\ is_neox config = is_neox_.
Proof.
  intros Hrun. unfold Init in Hrun.
  bind_inv Hrun. rename Hm into Hbase.
  destruct s0 as [[ctx rk li mp nh nkv hs cid rot bs] bm cs].
  exec_in Hrun.
  repeat (stuck_outcome Hrun; cbv beta iota in Hrun).
  injection Hrun as <- <- _.
  match goal with
  | H0 : outcome_bind (vector_at parameters 0) _ = Ret ?p0,
    H1 : outcome_bind (vector_at parameters (0 + 1)) _ = Ret ?p1,
    H2 : outcome_bind (vector_at parameters (0 + 1 + 1)) _ = Ret ?p2,
    H3 : outcome_bind (vector_at parameters (0 + 1 + 1 + 1)) _ = Ret ?p3,
    H4 : outcome_bind (vector_at parameters (0 + 1 + 1 + 1 + 1)) _ = Ret ?p4,
    H5 : outcome_bind (vector_at parameters (0 + 1 + 1 + 1 + 1 + 1)) _ = Ret ?p5,
    H6 : outcome_bind (vector_at parameters (0 + 1 + 1 + 1 + 1 + 1 + 1)) _ = Ret ?p6,
    H7 : outcome_bind (vector_at parameters (0 + 1 + 1 + 1 + 1 + 1 + 1 + 1)) _ = Ret ?p7
    |- _ =>
      apply parameter_int_inv in H0; [| lia];
      apply parameter_int_inv in H1; [| lia];
      apply parameter_int_inv in H2; [| lia];
      apply parameter_int_inv in H3; [| lia];
      apply parameter_int_inv in H4; [| lia];
      apply parameter_int_inv in H5; [| lia];
      apply parameter_float_inv in H6; [| lia];
      apply parameter_bool_inv in H7; [| lia];
      eexists p0, p1, p2, p3, p4, p5, p6, p7, _
  end.
  repeat (split; [eassumption || reflexivity |]). reflexivity.
Qed.

(** Property X20.
    [Init] consults no status.  On a well-typed parameter list, when
    [BaseLayer::Init] returns, the rank names a stream of the context and
    the synchronisations pass [CUDA_CHECK], the run is decided by what the
    block manager wrote, not by what it reported.  If [GetContiguousPtr]
    wrote the pointer, [Init] returns [Status()], keeps the block id
    [AllocateContiguous] left in [cos_sin_cache_block_id_] (the value from
    before when it wrote none) and configures the rotary embedding with
    that pointer.  If [GetContiguousPtr] left the pointer unwritten, [Init]
    hands an uninitialised pointer to [SetConfig]: undefined behaviour. *)
Theorem Init_ignores_every_status layer_index positions num_heads num_kv_heads head_size
    rotary base_ is_neox_ rest context rank stream_ s st0 base lg0 :
  let parameters :=
    any_int layer_index :: any_int positions :: any_int num_heads
    :: any_int num_kv_heads :: any_int head_size :: any_int rotary
    :: any_float base_ :: any_bool is_neox_ :: rest in
  BaseLayer_Init parameters context rank s = (Ret st0, base, lg0) ->
  0 <= rank_ (layer base) ->
  GetMemoryManageStreams (context_ (layer base)) !! Z.to_nat (rank_ (layer base))
  = Some stream_ ->
  CUDA_CHECK (cudaStreamSynchronize stream_) = Ret tt ->
  let allocation :=
    AllocateContiguous (total_bytes_of (Cxx.to_uint32 rotary) positions)
      (cos_sin_cache_block_id_ (layer base))
      (snd (SetDeviceId (rank_ (layer base)) (block_manager base))) in
  let final := state_of (AttentionLayer_Init parameters context rank s) in
  match snd (fst (GetContiguousPtr (snd (fst allocation)) None (snd allocation))) with
  | Some ptr =>
      outcome_of (AttentionLayer_Init parameters context rank s) = Ret Status_default
      /\ cos_sin_cache_block_id_ (layer final) = snd (fst allocation)
      /\ exists config,
          rotary_embedding_cuda_ (layer final) = Some config
          /\ cos_sin_cache config = ptr
  | None => outcome_of (AttentionLayer_Init parameters context rank s) = Undefined
  end.
Proof.
  intros parameters Hbase Hrank Hstream Hsync allocation final.
  assert (Hvec : vector_at (GetMemoryManageStreams (context_ (layer base))) (rank_ (layer base))
                 = Ret stream_).
  { unfold vector_at. apply Z.ltb_ge in Hrank. rewrite Hrank, Hstream. reflexivity. }
  subst final allocation. unfold Init. rewrite (bind_Ret _ _ _ _ _ _ Hbase).
  destruct base as [[ctx rk li mp nh nkv hs cid rot bs] bm cs].
  unfold outcome_of, state_of, parameters.
  cbv - [vector_at any_cast_int any_cast_float any_cast_bool outcome_bind total_bytes_of
         Cxx.to_uint32 Cxx.to_int pretty String.append app Z.add fst snd
         SetDeviceId AllocateContiguous GetContiguousPtr].
  repeat match goal with
         | |- context [outcome_bind (vector_at (?x :: ?l) ?i) ?f] =>
             let t := constr:(outcome_bind (vector_at (x :: l) i) f) in
             let r := eval cbv in t in
             change t with r; cbv beta iota
         end.
  cbv - [vector_at] in Hvec.
  match goal with
  | |- context [GetContiguousPtr ?block_id None ?bm'] =>
      destruct (snd (fst (GetContiguousPtr block_id None bm'))) as [ptr |]
  end; repeat (rewrite ?Hvec, ?Hsync; cbv beta iota).
  - split; [reflexivity |]. split; [reflexivity |]. eexists. split; reflexivity.
  - reflexivity.
Qed.

Ltac bad_parameter :=
  lazy - [pretty String.append total_bytes_of Cxx.to_uint32 Cxx.to_int];
  first [ left; split; [reflexivity | split; reflexivity] | right; reflexivity ].

(** Property X21.
    [Init] reads all eight parameters before it turns to the block manager.
    When one of the first eight entries has another type than its position
    asks for, [Init] throws [bad_any_cast], and the block manager has
    received no request and is in the state [BaseLayer::Init] left it in;
    when the list ends before such an entry, the subscript is out of range
    and the behaviour is undefined. *)
Theorem Init_checks_parameters_first parameters context rank s st0 base lg0 :
  BaseLayer_Init parameters context rank s = (Ret st0, base, lg0) ->
  ~ (exists layer_index positions num_heads num_kv_heads head_size rotary base_ is_neox_ rest,
        parameters
        = any_int layer_index :: any_int positions :: any_int num_heads
          :: any_int num_kv_heads :: any_int head_size :: any_int rotary
          :: any_float base_ :: any_bool is_neox_ :: rest) ->
  (outcome_of (AttentionLayer_Init parameters context rank s) = Throw bad_any_cast
   /\ calls (state_of (AttentionLayer_Init parameters context rank s)) = calls base
   /\ block_manager (state_of (AttentionLayer_Init parameters context rank s))
      = block_manager base)
  \/ outcome_of (AttentionLayer_Init parameters context rank s) = Undefined.
Proof.
  intros Hbase Hbad. unfold Init. rewrite (bind_Ret _ _ _ _ _ _ Hbase).
  destruct base as [[ctx rk li mp nh nkv hs cid rot bs] bm cs].
  unfold outcome_of, state_of.
  destruct parameters as [| [p0 | | |] parameters]; [bad_parameter | | bad_parameter ..].
  destruct parameters as [| [p1 | | |] parameters]; [bad_parameter | | bad_parameter ..].
  destruct parameters as [| [p2 | | |] parameters]; [bad_parameter | | bad_parameter ..].
  destruct parameters as [| [p3 | | |] parameters]; [bad_parameter | | bad_parameter ..].
  destruct parameters as [| [p4 | | |] parameters]; [bad_parameter | | bad_parameter ..].
  destruct parameters as [| [p5 | | |] parameters]; [bad_parameter | | bad_parameter ..].
  destruct parameters as [| [| p6 | |] parameters];
    [bad_parameter | bad_parameter | | bad_parameter ..].
  destruct parameters as [| [| | p7 |] parameters];
    [bad_parameter | bad_parameter | bad_parameter | | bad_parameter].
  exfalso. apply Hbad. eexists _, _, _, _, _, _, _, _, _. reflexivity.
Qed.

End Layer.

End AttentionLayerFacts.

(* ===================================================================== *)
(** ** Further theorems on concrete inputs *)
(* ===================================================================== *)

Module ConcreteRuns.

Import Examples.

Local Abbreviation llama_attributes :=
  (@Ksana.PrepareModeAttirbutes llama_world llama_config_json zero_model_config).
Local Abbreviation llama2_attributes :=
  (@Ksana.PrepareModeAttirbutes llama_world (Ksana.JObject llama2_config_fields)
     zero_model_config).
Local Abbreviation neox_attributes :=
  (@Ksana.PrepareModeAttirbutes llama_world (Ksana.JObject (neox_config_fields 4096 1e-5%Q))
     zero_model_config).
Local Abbreviation llama_fields :=
  (match llama_config_json with Ksana.JObject fields => fields | _ => [] end).
Local Abbreviation llama_model_parse :=
  (@Ksana.ParseModelConfig llama_world "/models/llama" fresh_process).
Local Abbreviation llama_parse :=
  (@Ksana.ParseConfig llama_world "ksana_llm.yaml" fresh_process).
Local Abbreviation llama_parse_32 :=
  (@Ksana.ParseConfig llama_world_32 "ksana_llm.yaml" fresh_process).

Lemma Ret_eq_inv {A : Type} (a b : A) : Ret a = Ret b -> a = b.
Proof. intros H. injection H as H. exact H. Defined.

(** The llama config: 4096 hidden units over 32 heads give a head size and
    a rotary dimension of 128. *)
Lemma llama_head_size_128 :
  Ksana.size_per_head (state_of llama_attributes) = 128
  /\ Ksana.rotary_embedding (state_of llama_attributes) = 128.
Proof.
  destruct (@ModelConfigFacts.PrepareModeAttirbutes_required_keys llama_world
              llama_config_json zero_model_config tt (state_of llama_attributes)
              (log_of llama_attributes)) as (_ & _ & Hsize & Hrotary);
    [vm_compute; reflexivity |].
  rewrite Hrotary, Hsize. vm_compute. split; reflexivity.
Defined.

(** The llama config has no num_key_value_heads: 32 key-value heads. *)
Lemma llama_key_value_heads_32 :
  Ksana.num_key_value_heads (state_of llama_attributes) = 32.
Proof.
  rewrite (@ModelConfigFacts.PrepareModeAttirbutes_num_key_value_heads llama_world
             llama_fields zero_model_config tt (state_of llama_attributes)
             (log_of llama_attributes)).
  - vm_compute. reflexivity.
  - vm_compute. reflexivity.
  - reflexivity.
Defined.


(** The llama directory is registered under the empty name. *)
Lemma llama_registered_under_empty_name :
  exists registered,
    Ksana.GetModelConfig (Ksana.this (state_of llama_model_parse)) "" zero_model_config
    = (Status_default, registered)
    /\ Ksana.path registered = "/models/llama"%string.
Proof.
  destruct (@ModelConfigFacts.ParseModelConfig_registers_default_name llama_world
              "/models/llama" fresh_process Status_default (state_of llama_model_parse)
              (log_of llama_model_parse))
    as (registered & _ & Hpath & Hget & _);
    [vm_compute; reflexivity | reflexivity |].
  exists registered. split; [exact (Hget zero_model_config) |].
  injection Hpath as Hpath. symmetry. exact Hpath.
Defined.

(** Parsed again after the whole configuration was read, the llama
    directory is registered with the tensor-parallel size 1 and the
    [block_token_num] 16 of the environment. *)
Lemma llama_registered_copy_after_parse :
  let again := @Ksana.ParseModelConfig llama_world "/models/llama" (state_of llama_parse) in
  let registered :=
    snd (Ksana.GetModelConfig (Ksana.this (state_of again)) "" zero_model_config) in
  Ksana.tensor_para_size registered = 1
  /\ Ksana.model_block_token_num registered = 16.
Proof.
  intros again registered.
  destruct (@ModelConfigFacts.ParseModelConfig_registered_copy llama_world
              "/models/llama" (state_of llama_parse) Status_default (state_of again)
              (log_of again) zero_model_config)
    as (Htp & Hbtn & _); [vm_compute; reflexivity | reflexivity |].
  split.
  - etransitivity; [exact Htp | vm_compute; reflexivity].
  - etransitivity; [exact Hbtn | vm_compute; reflexivity].
Defined.

(** Parsing the llama directory twice leaves one model. *)
Lemma llama_parsed_twice_is_one_model :
  size (Ksana.model_configs_
          (Ksana.this
             (state_of (@Ksana.ParseModelConfig llama_world "/models/llama"
                          (state_of llama_model_parse))))) = 1%nat.
Proof.
  destruct (@ModelConfigFacts.ParseModelConfig_twice_keeps_last llama_world
              "/models/llama" "/models/llama" fresh_process
              Status_default (state_of llama_model_parse) (log_of llama_model_parse)
              Status_default
              (state_of (@Ksana.ParseModelConfig llama_world "/models/llama"
                           (state_of llama_model_parse)))
              (log_of (@Ksana.ParseModelConfig llama_world "/models/llama"
                         (state_of llama_model_parse))))
    as (registered & Hmap & _);
    [vm_compute; reflexivity | reflexivity | vm_compute; reflexivity | reflexivity |].
  rewrite Hmap.
  change (Ksana.model_configs_ (Ksana.this fresh_process)) with (∅ : gmap string Ksana.ModelConfig).
  rewrite insert_empty. apply map_size_singleton.
Defined.

Lemma llama_parallel_sizes_positive :
  0 < Ksana.tensor_parallel_size_ (Ksana.this (state_of llama_parse))
  /\ 0 < Ksana.pipeline_parallel_size_ (Ksana.this (state_of llama_parse)).
Proof.
  destruct (@EnvironmentFacts.ParseConfig_parallel_sizes_positive llama_world
              "ksana_llm.yaml" fresh_process Status_default (state_of llama_parse)
              (log_of llama_parse)) as (Htp & Hpp & _);
    [reflexivity | vm_compute; reflexivity |].
  split; [exact Htp | exact Hpp].
Defined.

(** [prefix_cache_len] 17 is stored as a multiple of 16. *)
Lemma llama_prefix_is_a_multiple_of_16 :
  Ksana.geometry_is 16 (state_of llama_parse)
  /\ Z.divide 16 (Ksana.prefix_cache_len_of (state_of llama_parse)).
Proof.
  destruct (@EnvironmentFacts.ParseConfig_prefix_cache_len_aligned llama_world
              "ksana_llm.yaml" fresh_process Status_default (state_of llama_parse)
              (log_of llama_parse)) as (b & Hb & Hgeometry & _);
    [reflexivity | vm_compute; reflexivity |].
  injection Hb as <-. split; [exact Hgeometry |].
  exists 1. vm_compute. reflexivity.
Defined.

(** [prefix_cache_len] 32 is stored as it is, without a warning. *)
Lemma llama_prefix_32_kept_silently :
  Ksana.prefix_cache_len_of (state_of llama_parse_32) = 32
  /\ Forall (fun entry => fst entry <> LOG_WARNING) (log_of llama_parse_32).
Proof.
  apply (@EnvironmentFacts.ParseConfig_aligned_prefix_kept_silently llama_world_32
           "ksana_llm.yaml" 32 16 fresh_process Status_default (state_of llama_parse_32)
           (log_of llama_parse_32)).
  - reflexivity.
  - reflexivity.
  - reflexivity.
  - right. reflexivity.
  - vm_compute. reflexivity.
Defined.

Lemma llama_model_config_agrees :
  exists registered,
    Ksana.GetModelConfig (Ksana.this (state_of llama_parse)) "" zero_model_config
    = (Status_default, registered)
    /\ Ksana.model_block_token_num registered = 16
    /\ Ksana.model_max_batch_size registered = 8.
Proof.
  destruct (@EnvironmentFacts.ParseConfig_OK_model_config_agrees llama_world
              "ksana_llm.yaml" fresh_process Status_default (state_of llama_parse)
              (log_of llama_parse) zero_model_config)
    as (registered & Hget & _ & _ & Hbtn & Hbatch & _);
    [reflexivity | vm_compute; reflexivity | reflexivity |].
  exists registered. split; [exact Hget |].
  rewrite Hbtn, Hbatch. vm_compute. split; reflexivity.
Defined.

(** The port -1 is stored as 4294967295. *)
Lemma port_minus_one_is_stored_as_4294967295 :
  Ksana.port (Ksana.endpoint_config_
                (Ksana.this (state_of (@Ksana.ParseOptions llama_world flags_port_minus_one
                                         fresh_process)))) = 4294967295.
Proof.
  destruct (@EnvironmentFacts.ParseOptions_endpoint llama_world flags_port_minus_one
              fresh_process Status_default
              (state_of (@Ksana.ParseOptions llama_world flags_port_minus_one fresh_process))
              (log_of (@Ksana.ParseOptions llama_world flags_port_minus_one fresh_process)))
    as (_ & Hport & _); [vm_compute; reflexivity |].
  rewrite Hport. reflexivity.
Defined.

(** numerous_llm: the ini file with a syntax error on line 3 is accepted,
    and llama-7b is the one model of the list. *)
Lemma ini_with_syntax_error_is_accepted :
  outcome_of (@Numerous.ParseOptions numerous_ini_world "./config.ini" numerous_fresh_process)
  = Ret Status_default
  /\ Numerous.model_configs_
       (Numerous.this
          (state_of (@Numerous.ParseOptions numerous_ini_world "./config.ini"
                       numerous_fresh_process)))
     = [] ++ [{| Numerous.name := "llama-7b"; Numerous.path := "./config.ini" |}].
Proof.
  apply (@ModelListFacts.ParseOptions_accepts_nonnegative_ParseError numerous_ini_world
           "./config.ini" numerous_fresh_process "ini"%string "llama-7b"%string).
  - reflexivity.
  - simpl. lia.
  - reflexivity.
Defined.

Lemma ini_model_is_appended :
  snd (Numerous.GetModelList
         (Numerous.this
            (state_of (@Numerous.ParseOptions numerous_ini_world "./config.ini"
                         numerous_fresh_process))) [])
  = [{| Numerous.name := "llama-7b"; Numerous.path := "./config.ini" |}].
Proof.
  destruct (@ModelListFacts.ParseOptions_appends_one_model numerous_ini_world
              "./config.ini" numerous_fresh_process Status_default
              (state_of (@Numerous.ParseOptions numerous_ini_world "./config.ini"
                           numerous_fresh_process))
              (log_of (@Numerous.ParseOptions numerous_ini_world "./config.ini"
                         numerous_fresh_process)) [])
    as [(_ & name_ & Hget & Hlist) | (Hcode & _)];
    [vm_compute; reflexivity | | discriminate Hcode].
  rewrite Hlist. injection Hget as <-. reflexivity.
Defined.

(** A name with qwen before llama is a llama model. *)
Lemma mixed_name_is_llama :
  ModelInstance.name (state_of (ModelInstance.Load create_one mixed_name_instance))
  = "llama"%string.
Proof.
  rewrite (proj1 (ModelInstanceFacts.Load_dispatch create_one mixed_name_instance)).
  - reflexivity.
  - exists 5%nat. reflexivity.
Defined.

(** The llama directory, once parsed, cannot be loaded: its config has the
    empty name. *)
Lemma parsed_llama_config_is_not_loaded :
  exists what,
    outcome_of
      (ModelInstance.Load create_one
         {| ModelInstance.model_config_ :=
              snd (Ksana.GetModelConfig (Ksana.this (state_of llama_model_parse)) ""
                     zero_model_config);
            ModelInstance.name := ""; ModelInstance.models_ := [];
            ModelInstance.weights_ := [] |})
    = Throw (runtime_error what).
Proof.
  destruct (@ModelInstanceFacts.Load_of_parsed_config_needs_a_name Z Z create_one llama_world
              "/models/llama" fresh_process Status_default (state_of llama_model_parse)
              (log_of llama_model_parse) zero_model_config ""%string [] [])
    as (what & Hload).
  - vm_compute. reflexivity.
  - reflexivity.
  - intros word position Hword. simpl.
    destruct Hword as [<- | [<- | [<- | []]]]; destruct position; discriminate.
  - exists what. exact (f_equal outcome_of Hload).
Defined.

(** Two workers, of which the first fails: two statuses, for the first two
    models and weights. *)
Lemma two_workers_two_statuses :
  ModelInstance.Forward first_worker_fails mixed_name_instance 2 tt []
  = (Ret [{| code := RET_OTHER 1; message := "failed" |}; Status_default], [10; 11], [])
  /\ (Z.to_nat 2 <= length (ModelInstance.models_ mixed_name_instance))%nat
  /\ (Z.to_nat 2 <= length (ModelInstance.weights_ mixed_name_instance))%nat.
Proof.
  assert (Hrun : ModelInstance.Forward first_worker_fails mixed_name_instance 2 tt []
                 = (Ret [{| code := RET_OTHER 1; message := "failed" |}; Status_default],
                    [10; 11], [])) by (vm_compute; reflexivity).
  split; [exact Hrun |].
  destruct (ModelInstanceFacts.Forward_one_status_per_worker (fun _ : Z => 0)
              first_worker_fails mixed_name_instance 2 tt [] _ _ _ Hrun)
    as (_ & Hmodels & Hweights & _).
  split; [exact Hmodels | exact Hweights].
Defined.

Lemma failing_first_worker_does_not_stop_forward :
  exists results forward_reqs' lg,
    ModelInstance.Forward first_worker_fails mixed_name_instance 2 tt []
    = (Ret results, forward_reqs', lg)
    /\ length results = 2%nat.
Proof.
  apply (ModelInstanceFacts.Forward_runs_every_worker first_worker_fails
           mixed_name_instance 2 tt []).
  - intros worker_id model weight reqs. eexists _, _, _. reflexivity.
  - simpl. lia.
  - simpl. lia.
Defined.

(** The llama layer: 32 heads of size 128 over 2048 positions. *)
Lemma llama_layer_fields :
  exists config,
    Numerous.rotary_embedding_cuda_
      (Numerous.layer
         (state_of (@Numerous.Init (list Z) recording_block_manager cuda_success
                      raise_on_cuda_error configured_block_size keep_context_and_rank
                      llama_layer_parameters one_stream_context 0 layer_start)))
    = Some config
    /\ Numerous.rope_head_size config = 128
    /\ Numerous.rope_num_heads config = 32.
Proof.
  destruct (@AttentionLayerFacts.Init_reads_eight_parameters (list Z) recording_block_manager
              cuda_success raise_on_cuda_error configured_block_size keep_context_and_rank
              llama_layer_parameters one_stream_context 0 layer_start Status_default
              (state_of (@Numerous.Init (list Z) recording_block_manager cuda_success
                           raise_on_cuda_error configured_block_size keep_context_and_rank
                           llama_layer_parameters one_stream_context 0 layer_start))
              (log_of (@Numerous.Init (list Z) recording_block_manager cuda_success
                         raise_on_cuda_error configured_block_size keep_context_and_rank
                         llama_layer_parameters one_stream_context 0 layer_start)))
    as (li & mp & nh & nkv & hs & rd & bs & nx & config & _ & _ & H2 & _ & H4 & _ & _ & _
        & _ & _ & _ & _ & _ & Hconfig & _ & _ & _ & Hhs & Hnh & _);
    [vm_compute; reflexivity |].
  exists config. split; [exact Hconfig |].
  injection H2 as <-. injection H4 as <-. auto.
Defined.

(** A block manager that refuses every request but writes the address 4096
    does not fail the layer; one that writes nothing makes it undefined. *)
Lemma refused_requests_are_not_reported :
  outcome_of (@Numerous.Init (list Z) refusing_block_manager cuda_success
                raise_on_cuda_error configured_block_size keep_context_and_rank
                llama_layer_parameters one_stream_context 0 layer_start)
  = Ret Status_default
  /\ outcome_of (@Numerous.Init (list Z) silent_refusing_block_manager cuda_success
                   raise_on_cuda_error configured_block_size keep_context_and_rank
                   llama_layer_parameters one_stream_context 0 layer_start)
     = Undefined.
Proof.
  split.
  - refine (proj1 (@AttentionLayerFacts.Init_ignores_every_status (list Z)
                     refusing_block_manager cuda_success raise_on_cuda_error
                     configured_block_size keep_context_and_rank
                     0 2048 32 32 128 128 10000.0%Q true [] one_stream_context 0 7
                     layer_start Status_default
                     (state_of (keep_context_and_rank llama_layer_parameters
                                  one_stream_context 0 layer_start)) [] _ _ _ _)).
    + reflexivity.
    + simpl. lia.
    + reflexivity.
    + reflexivity.
  - refine (@AttentionLayerFacts.Init_ignores_every_status (list Z)
              silent_refusing_block_manager cuda_success raise_on_cuda_error
              configured_block_size keep_context_and_rank
              0 2048 32 32 128 128 10000.0%Q true [] one_stream_context 0 7
              layer_start Status_default
              (state_of (keep_context_and_rank llama_layer_parameters
                           one_stream_context 0 layer_start)) [] _ _ _ _).
    + reflexivity.
    + simpl. lia.
    + reflexivity.
    + reflexivity.
Defined.

(** A float where the number of heads is expected: no request is sent. *)
Lemma mistyped_parameter_sends_no_request :
  Numerous.calls
    (state_of (@Numerous.Init (list Z) recording_block_manager cuda_success
                 raise_on_cuda_error configured_block_size keep_context_and_rank
                 mistyped_layer_parameters one_stream_context 0 layer_start)) = [].
Proof.
  destruct (@AttentionLayerFacts.Init_checks_parameters_first (list Z)
              recording_block_manager cuda_success raise_on_cuda_error
              configured_block_size keep_context_and_rank
              mistyped_layer_parameters one_stream_context 0 layer_start Status_default
              (state_of (keep_context_and_rank mistyped_layer_parameters
                           one_stream_context 0 layer_start)) [])
    as [(_ & Hcalls & _) | Hundefined].
  - reflexivity.
  - intros (li & mp & nh & nkv & hs & rd & bs & nx & rest & Heq). discriminate Heq.
  - exact Hcalls.
  - discriminate Hundefined.
Defined.

End ConcreteRuns.
